(** * pycoin: script tools, signature checks and the multisig solver

    A shallow embedding of
      - pycoin/tx/script/tools.py            (opcode reader, assembler, disassembler)
      - pycoin/tx/script/check_signature.py  (signature codec, OP_CHECKSIG, OP_CHECKMULTISIG)
      - pycoin/tx/pay_to/ScriptMultisig.py   (ScriptMultisig: solve, script, from_script)
      - pycoin/tx/TxOut.py                   (standard_tx_out_script)

    Conventions.  A Python [bytes] value is a [list byte]; indexing it yields
    an integer (so [byte_to_int] is the conversion of one element to [Z]).
    Python integers are [Z].  A Python exception is a constructor of [exn]
    and a function that may raise returns a [result].  A Python [str] is a
    [string] of code points below 256. *)

From Stdlib Require Import ZArith List String Ascii Lia Bool Sorted.
From Stdlib.Strings Require Import Byte.
From stdpp Require Import base option list gmap strings pretty.

Local Open Scope Z_scope.

(* ===================================================================== *)
(** ** Exceptions and results *)
(* ===================================================================== *)

Inductive exn : Type :=
| ScriptError (msg : string)
| UnexpectedDER
| ValueError
| EncodingError
| NoSuchPointError
| SolvingError (msg : string)
| TypeError
| IndexError
| KeyError (key : string)
| StructError
| UnboundLocalError (var : string).

Inductive result (A : Type) : Type :=
| Ok (a : A)
| Raise (e : exn).

Arguments Ok {A} a.
Arguments Raise {A} e.

#[global] Instance result_ret : MRet result := fun A a => Ok a.
#[global] Instance result_bind : MBind result := fun A B f m =>
  match m with
  | Ok a => f a
  | Raise e => Raise e
  end.

Definition is_Ok {A} (r : result A) : bool :=
  match r with Ok _ => true | Raise _ => false end.

#[global] Instance exn_eq_dec : EqDecision exn.
Proof. solve_decision. Defined.

#[global] Instance byte_eq_dec : EqDecision byte := Byte.byte_eq_dec.

(* ===================================================================== *)
(** ** Bytes *)
(* ===================================================================== *)

Abbreviation bytes := (list byte).

Definition len {A} (l : list A) : Z := Z.of_nat (length l).

(** [byte_to_int]: one element of a bytes value as an integer in 0..255. *)
Definition byte_to_int (b : byte) : Z := Z.of_N (Byte.to_N b).

(** [bytes_from_int]: the one-byte string of a small integer; Python raises
    ValueError outside range(256). *)
Definition bytes_from_int (v : Z) : result bytes :=
  if bool_decide (0 <= v) then
    match Byte.of_N (Z.to_N v) with
    | Some b => Ok [b]
    | None => Raise ValueError
    end
  else Raise ValueError.

(** Modelled from the spec: [int_to_bytes] of pycoin/intbytes.py (not part
    of the sources at hand) writes the one length byte of a literal push. *)
Definition int_to_bytes (v : Z) : result bytes := bytes_from_int v.

(** [s[a:b]] for non-negative [a] and [b]: both ends are clamped to the
    length of [s], as Python does. *)
Definition py_slice {A} (s : list A) (a b : Z) : list A :=
  let a' := Z.min a (len s) in
  let b' := Z.min b (len s) in
  take (Z.to_nat (b' - a')) (drop (Z.to_nat a') s).

(** [s[i]] for a non-negative [i]; IndexError past the end. *)
Definition py_index (s : bytes) (i : Z) : result Z :=
  if bool_decide (0 <= i) then
    match s !! Z.to_nat i with
    | Some b => Ok (byte_to_int b)
    | None => Raise IndexError
    end
  else Raise IndexError.

(** [ord(x)] of a bytes value: defined on length one only. *)
Definition ord (s : bytes) : result Z :=
  match s with
  | [b] => Ok (byte_to_int b)
  | _ => Raise TypeError
  end.

(** Modelled from the spec: [from_bytes(b, byteorder="little")] of
    pycoin/intbytes.py (not part of the sources at hand) reads a
    little-endian unsigned integer; the empty string reads as 0. *)
Fixpoint from_bytes_little (s : bytes) : Z :=
  match s with
  | [] => 0
  | b :: r => byte_to_int b + 256 * from_bytes_little r
  end.

(** [struct.pack("<H", v)] and [struct.pack("<L", v)]: [n] little-endian
    bytes, struct.error when [v] does not fit. *)
Fixpoint to_bytes_little (n : nat) (v : Z) : bytes :=
  match n with
  | O => []
  | S n' =>
      match Byte.of_N (Z.to_N (v mod 256)) with
      | Some b => b :: to_bytes_little n' (v / 256)
      | None => []
      end
  end.

Definition struct_pack_le (n : nat) (v : Z) : result bytes :=
  if bool_decide (0 <= v < 256 ^ Z.of_nat n) then Ok (to_bytes_little n v)
  else Raise StructError.

(* ===================================================================== *)
(** ** Opcode table *)
(* ===================================================================== *)

(** Modelled from the spec: pycoin/tx/script/opcodes.py is not part of the
    sources at hand.  The values are those of the spec's opcode space
    (0x00 push empty, 0x4c..0x4e PUSHDATA1/2/4, 0x51..0x60 small integers,
    0xac CHECKSIG, 0xae CHECKMULTISIG) and of the Bitcoin script language
    for the remaining mnemonics. *)
Definition OPCODE_LIST : list (string * Z) :=
  [ ("OP_0", 0); ("OP_PUSHDATA1", 76); ("OP_PUSHDATA2", 77);
    ("OP_PUSHDATA4", 78); ("OP_1NEGATE", 79); ("OP_RESERVED", 80);
    ("OP_1", 81); ("OP_2", 82); ("OP_3", 83); ("OP_4", 84); ("OP_5", 85);
    ("OP_6", 86); ("OP_7", 87); ("OP_8", 88); ("OP_9", 89); ("OP_10", 90);
    ("OP_11", 91); ("OP_12", 92); ("OP_13", 93); ("OP_14", 94);
    ("OP_15", 95); ("OP_16", 96); ("OP_NOP", 97); ("OP_VER", 98);
    ("OP_IF", 99); ("OP_NOTIF", 100); ("OP_VERIF", 101);
    ("OP_VERNOTIF", 102); ("OP_ELSE", 103); ("OP_ENDIF", 104);
    ("OP_VERIFY", 105); ("OP_RETURN", 106); ("OP_TOALTSTACK", 107);
    ("OP_FROMALTSTACK", 108); ("OP_2DROP", 109); ("OP_2DUP", 110);
    ("OP_3DUP", 111); ("OP_2OVER", 112); ("OP_2ROT", 113);
    ("OP_2SWAP", 114); ("OP_IFDUP", 115); ("OP_DEPTH", 116);
    ("OP_DROP", 117); ("OP_DUP", 118); ("OP_NIP", 119); ("OP_OVER", 120);
    ("OP_PICK", 121); ("OP_ROLL", 122); ("OP_ROT", 123); ("OP_SWAP", 124);
    ("OP_TUCK", 125); ("OP_CAT", 126); ("OP_SUBSTR", 127); ("OP_LEFT", 128);
    ("OP_RIGHT", 129); ("OP_SIZE", 130); ("OP_INVERT", 131);
    ("OP_AND", 132); ("OP_OR", 133); ("OP_XOR", 134); ("OP_EQUAL", 135);
    ("OP_EQUALVERIFY", 136); ("OP_RESERVED1", 137); ("OP_RESERVED2", 138);
    ("OP_1ADD", 139); ("OP_1SUB", 140); ("OP_2MUL", 141); ("OP_2DIV", 142);
    ("OP_NEGATE", 143); ("OP_ABS", 144); ("OP_NOT", 145);
    ("OP_0NOTEQUAL", 146); ("OP_ADD", 147); ("OP_SUB", 148);
    ("OP_MUL", 149); ("OP_DIV", 150); ("OP_MOD", 151); ("OP_LSHIFT", 152);
    ("OP_RSHIFT", 153); ("OP_BOOLAND", 154); ("OP_BOOLOR", 155);
    ("OP_NUMEQUAL", 156); ("OP_NUMEQUALVERIFY", 157);
    ("OP_NUMNOTEQUAL", 158); ("OP_LESSTHAN", 159);
    ("OP_GREATERTHAN", 160); ("OP_LESSTHANOREQUAL", 161);
    ("OP_GREATERTHANOREQUAL", 162); ("OP_MIN", 163); ("OP_MAX", 164);
    ("OP_WITHIN", 165); ("OP_RIPEMD160", 166); ("OP_SHA1", 167);
    ("OP_SHA256", 168); ("OP_HASH160", 169); ("OP_HASH256", 170);
    ("OP_CODESEPARATOR", 171); ("OP_CHECKSIG", 172);
    ("OP_CHECKSIGVERIFY", 173); ("OP_CHECKMULTISIG", 174);
    ("OP_CHECKMULTISIGVERIFY", 175); ("OP_NOP1", 176); ("OP_NOP2", 177);
    ("OP_NOP3", 178); ("OP_NOP4", 179); ("OP_NOP5", 180); ("OP_NOP6", 181);
    ("OP_NOP7", 182); ("OP_NOP8", 183); ("OP_NOP9", 184);
    ("OP_NOP10", 185) ]%string.

(** [OPCODE_TO_INT = dict(OPCODE_LIST)] and its inverse [INT_TO_OPCODE]. *)
Definition OPCODE_TO_INT : gmap string Z := list_to_map OPCODE_LIST.
Definition INT_TO_OPCODE : gmap Z string :=
  list_to_map (map (fun p => (p.2, p.1)) OPCODE_LIST).

(** [OPCODE_TO_INT[name]]: KeyError for an unknown mnemonic. *)
Definition opcode_to_int (name : string) : result Z :=
  match OPCODE_TO_INT !! name with
  | Some v => Ok v
  | None => Raise (KeyError name)
  end.

Definition OP_0 : Z := 0.
Definition OP_PUSHDATA1 : Z := 76.
Definition OP_PUSHDATA2 : Z := 77.
Definition OP_PUSHDATA4 : Z := 78.
Definition OP_1 : Z := 81.
Definition OP_16 : Z := 96.
Definition OP_CHECKSIG : Z := 172.
Definition OP_CHECKMULTISIG : Z := 174.

(* ===================================================================== *)
(** ** tools.py: the opcode reader *)
(* ===================================================================== *)

(** A token: the opcode, the data ([None] when the opcode pushes nothing)
    and the new program counter. *)
Definition token : Type := Z * option bytes * Z.

Definition get_opcode (script : bytes) (pc : Z) : result token :=
  opcode ← ord (py_slice script pc (pc + 1));
  let pc := pc + 1 in
  if opcode <=? OP_PUSHDATA4 then
    '(size, pc) ←
      (if opcode <? OP_PUSHDATA1 then Ok (opcode, pc)
       else if opcode =? OP_PUSHDATA1 then
         Ok (from_bytes_little (py_slice script pc (pc + 1)), pc + 1)
       else if opcode =? OP_PUSHDATA2 then
         Ok (from_bytes_little (py_slice script pc (pc + 2)), pc + 2)
       else if opcode =? OP_PUSHDATA4 then
         Ok (from_bytes_little (py_slice script pc (pc + 4)), pc + 4)
       else Raise (UnboundLocalError "size"));
    let data := py_slice script pc (pc + size) in
    if len data <? size then
      Raise (ScriptError "unexpected end of data when literal expected")
    else Ok (opcode, Some data, pc + size)
  else Ok (opcode, None, pc).

(* ===================================================================== *)
(** ** Text helpers: hexadecimal, split, join *)
(* ===================================================================== *)

Definition hex_digit (n : N) : ascii :=
  if (n <? 10)%N then ascii_of_N (48 + n) else ascii_of_N (87 + n).

(** [binascii.hexlify(data).decode("utf8")] (also [b2h]): two lower-case
    hexadecimal digits per byte. *)
Fixpoint hexlify (data : bytes) : string :=
  match data with
  | [] => EmptyString
  | b :: r =>
      String (hex_digit (Byte.to_N b / 16)) (String (hex_digit (Byte.to_N b mod 16)) (hexlify r))
  end.

Definition b2h (data : bytes) : string := hexlify data.

Definition hex_value (c : ascii) : option N :=
  let n := N_of_ascii c in
  if ((48 <=? n) && (n <=? 57))%N then Some (n - 48)%N
  else if ((97 <=? n) && (n <=? 102))%N then Some (n - 87)%N
  else if ((65 <=? n) && (n <=? 70))%N then Some (n - 55)%N
  else None.

(** [binascii.unhexlify(text)]: binascii.Error, a ValueError, on an odd
    number of digits or on a character that is no hexadecimal digit. *)
Fixpoint unhexlify (text : string) : result bytes :=
  match text with
  | EmptyString => Ok []
  | String _ EmptyString => Raise ValueError
  | String c1 (String c2 r) =>
      match hex_value c1, hex_value c2 with
      | Some h, Some l =>
          match Byte.of_N (16 * h + l) with
          | Some b => r' ← unhexlify r; Ok (b :: r')
          | None => Raise ValueError
          end
      | _, _ => Raise ValueError
      end
  end.

(** White space of [str.split()] among the code points below 256. *)
Definition is_space (c : ascii) : bool :=
  let n := N_of_ascii c in
  (((9 <=? n) && (n <=? 13)) || ((28 <=? n) && (n <=? 32)) ||
   (n =? 133) || (n =? 160))%N.

(** [s.split()]: the maximal runs of non-space characters; [cur] is the
    run being read. *)
Fixpoint split_loop (s : string) (cur : string) : list string :=
  match s with
  | EmptyString => if bool_decide (cur = EmptyString) then [] else [cur]
  | String c r =>
      if is_space c then
        if bool_decide (cur = EmptyString) then split_loop r EmptyString
        else cur :: split_loop r EmptyString
      else split_loop r (cur +:+ String c EmptyString)
  end.

Definition split (s : string) : list string := split_loop s EmptyString.

(** [sep.join(l)]. *)
Fixpoint join (sep : string) (l : list string) : string :=
  match l with
  | [] => EmptyString
  | [x] => x
  | x :: r => x +:+ sep +:+ join sep r
  end.

Definition startswith (p s : string) : bool := String.prefix p s.

Fixpoint last_char (s : string) : option ascii :=
  match s with
  | EmptyString => None
  | String c EmptyString => Some c
  | String _ r => last_char r
  end.

Definition first_char (s : string) : option ascii :=
  match s with
  | EmptyString => None
  | String c _ => Some c
  end.

(** [t[:-1]] *)
Fixpoint str_init (s : string) : string :=
  match s with
  | EmptyString => EmptyString
  | String c EmptyString => EmptyString
  | String c r => String c (str_init r)
  end.

(** [t[1:-1]] *)
Definition strip_ends (s : string) : string :=
  match s with
  | EmptyString => EmptyString
  | String _ r => str_init r
  end.

(** [text.encode("utf8")] for code points below 256. *)
Fixpoint encode_utf8 (s : string) : bytes :=
  match s with
  | EmptyString => []
  | String c r =>
      let n := N_of_ascii c in
      if (n <? 128)%N then byte_of_ascii c :: encode_utf8 r
      else
        match Byte.of_N (192 + n / 64), Byte.of_N (128 + n mod 64) with
        | Some b1, Some b2 => b1 :: b2 :: encode_utf8 r
        | _, _ => encode_utf8 r
        end
  end.

(* ===================================================================== *)
(** ** tools.py: push-data encoder, compile, disassemble, delete_subscript *)
(* ===================================================================== *)

(** The body of the loop of [write_push_data]: the bytes written for one
    item [t] are appended to the stream contents [f]. *)
Definition write_push_data_item (t : bytes) (f : bytes) : result bytes :=
  if len t =? 0 then
    op ← opcode_to_int "OP_0"; o ← bytes_from_int op; Ok (f ++ o)
  else
    small ←
      (if len t =? 1 then
         v ← py_index t 0;
         if v <=? 16 then
           op ← opcode_to_int ("OP_" +:+ pretty v);
           o ← bytes_from_int op;
           Ok (Some (f ++ o))
         else Ok None
       else Ok None);
    match small with
    | Some f' => Ok f'
    | None =>
        if len t <=? 255 then
          f1 ← (if len t >? 75 then
                  op ← opcode_to_int "OP_PUSHDATA1";
                  o ← bytes_from_int op;
                  Ok (f ++ o)
                else Ok f);
          l ← int_to_bytes (len t);
          Ok (f1 ++ l ++ t)
        else if len t <=? 65535 then
          op ← opcode_to_int "OP_PUSHDATA2";
          o ← bytes_from_int op;
          l ← struct_pack_le 2 (len t);
          Ok (f ++ o ++ l ++ t)
        else
          op ← opcode_to_int "OP_PUSHDATA4";
          o ← bytes_from_int op;
          l ← struct_pack_le 4 (len t);
          Ok (f ++ o ++ l ++ t)
    end.

Fixpoint write_push_data (data_list : list bytes) (f : bytes) : result bytes :=
  match data_list with
  | [] => Ok f
  | t :: rest => f' ← write_push_data_item t f; write_push_data rest f'
  end.

Definition bin_script (data_list : list bytes) : result bytes :=
  write_push_data data_list [].

(** The body of the loop of [compile] for one token [t] of [s.split()]. *)
Definition compile_token (t : string) (f : bytes) : result bytes :=
  match OPCODE_TO_INT !! t with
  | Some v => o ← bytes_from_int v; Ok (f ++ o)
  | None =>
      match OPCODE_TO_INT !! ("OP_" +:+ t) with
      | Some v => o ← bytes_from_int v; Ok (f ++ o)
      | None =>
          if startswith "0x" t then
            d ← unhexlify (String.substring 2 (String.length t - 2) t);
            Ok (f ++ d)
          else
            let t :=
              if bool_decide (first_char t = Some "["%char ∧ last_char t = Some "]"%char)
              then strip_ends t else t in
            v ← (if bool_decide (first_char t = Some "'"%char ∧ last_char t = Some "'"%char)
                 then Ok (encode_utf8 (strip_ends t))
                 else unhexlify t);
            write_push_data [v] f
      end
  end.

Fixpoint compile_loop (tokens : list string) (f : bytes) : result bytes :=
  match tokens with
  | [] => Ok f
  | t :: rest => f' ← compile_token t f; compile_loop rest f'
  end.

Definition compile (s : string) : result bytes := compile_loop (split s) [].

Definition disassemble_for_opcode_data (opcode : Z) (data : option bytes) : string :=
  match data with
  | Some d =>
      if len d >? 0 then "[" +:+ hexlify d +:+ "]"
      else default "???"%string (INT_TO_OPCODE !! opcode)
  | None => default "???"%string (INT_TO_OPCODE !! opcode)
  end.

(** The [while pc < len(script)] loop of [opcode_list].  Every round
    advances [pc] by at least one, so [length script] rounds are enough
    (see [opcode_list_loop_unfold]). *)
Fixpoint opcode_list_loop (fuel : nat) (script : bytes) (pc : Z)
    (opcodes : list string) : result (list string) :=
  match fuel with
  | O => Ok opcodes
  | S fuel' =>
      if pc <? len script then
        '(opcode, data, pc') ← get_opcode script pc;
        opcode_list_loop fuel' script pc'
          (opcodes ++ [disassemble_for_opcode_data opcode data])
      else Ok opcodes
  end.

Definition opcode_list (script : bytes) : result (list string) :=
  opcode_list_loop (length script) script 0 [].

Definition disassemble (script : bytes) : result string :=
  l ← opcode_list script; Ok (join " " l).

(** The [while pc < len(script)] loop of [delete_subscript]. *)
Fixpoint delete_subscript_loop (fuel : nat) (script subscript : bytes) (pc : Z)
    (new_script : bytes) : result bytes :=
  match fuel with
  | O => Ok new_script
  | S fuel' =>
      if pc <? len script then
        '(opcode, data, new_pc) ← get_opcode script pc;
        let section := py_slice script pc new_pc in
        let new_script :=
          if bool_decide (section ≠ subscript) then new_script ++ section
          else new_script in
        delete_subscript_loop fuel' script subscript new_pc new_script
      else Ok new_script
  end.

Definition delete_subscript (script subscript : bytes) : result bytes :=
  delete_subscript_loop (length script) script subscript 0 [].

(* ===================================================================== *)
(** ** Constants of the script package *)
(* ===================================================================== *)

(** Modelled from the spec: pycoin/tx/script/flags.py is not part of the
    sources at hand; the verification flags are independent bits. *)
Definition VERIFY_STRICTENC : Z := 2.
Definition VERIFY_DERSIG : Z := 4.
Definition VERIFY_LOW_S : Z := 8.
Definition VERIFY_NULLDUMMY : Z := 16.
Definition VERIFY_MINIMALDATA : Z := 64.

(** Modelled from the spec: the hash types (ALL=1, NONE=2, SINGLE=3,
    ANYONECANPAY=0x80) of pycoin/tx/Tx.py, not part of the sources at hand. *)
Definition SIGHASH_ALL : Z := 1.
Definition SIGHASH_NONE : Z := 2.
Definition SIGHASH_SINGLE : Z := 3.
Definition SIGHASH_ANYONECANPAY : Z := 0x80.

(** Modelled from the spec: the "true" and "false" stack values of
    pycoin/tx/script/microcode.py, not part of the sources at hand. *)
Definition VCH_TRUE : bytes := [x01].
Definition VCH_FALSE : bytes := [].

(** Truth value of a Python integer. *)
Definition truthy (v : Z) : bool := negb (v =? 0).

(** [raise ScriptError(msg)] under a condition. *)
Definition raise_if (c : bool) (msg : string) : result unit :=
  if c then Raise (ScriptError msg) else Ok tt.

(** The order of the secp256k1 group. *)
Definition secp256k1_order : Z :=
  0xFFFFFFFFFFFFFFFFFFFFFFFFFFFFFFFEBAAEDCE6AF48A03BBFD25E8CD0364141.

(** The prime 2^256 - 2^32 - 977 of the field over which the curve
    secp256k1 is defined, the parameter that goes by the name p.  It is
    larger than the order of the group. *)
Definition secp256k1_field_prime : Z :=
  0xFFFFFFFFFFFFFFFFFFFFFFFFFFFFFFFFFFFFFFFFFFFFFFFFFFFFFFFEFFFFFC2F.

(** The collaborators of check_signature.py that are outside the sources
    at hand: the DER decoder, the SEC decoder, the elliptic-curve
    operations, the script-number decoder, and the constant [_p] that
    [check_low_der_signature] imports from pycoin.ecdsa.secp256k1. *)
Class Collaborators : Type := {
  sigdecode_der : bytes -> result (Z * Z);
  sec_to_public_pair : bytes -> bool -> result (Z * Z);
  ecdsa_verify : Z * Z -> Z -> Z * Z -> bool;
  possible_public_pairs_for_signature : Z -> Z * Z -> result (list (Z * Z));
  int_from_script_bytes : bytes -> Z -> result Z;
  secp256k1_p : Z
}.

(* ===================================================================== *)
(** ** check_signature.py *)
(* ===================================================================== *)

Definition check_valid_signature (sig : bytes) : result unit :=
  let ls := len sig in
  _ ← raise_if ((ls <? 9) || (ls >? 73)) "bad signature size";
  b0 ← py_index sig 0;
  _ ← raise_if (negb (b0 =? 0x30)) "bad signature byte 0";
  b1 ← py_index sig 1;
  _ ← raise_if (negb (b1 =? ls - 3)) "signature size wrong";
  r_len ← py_index sig 3;
  _ ← raise_if (5 + r_len >=? ls) "r length exceed signature size";
  s_len ← py_index sig (5 + r_len);
  _ ← raise_if (negb (r_len + s_len + 7 =? ls)) "r and s size exceed signature size";
  b2 ← py_index sig 2;
  _ ← raise_if (negb (b2 =? 2)) "R value region does not start with 0x02";
  _ ← raise_if (r_len =? 0) "zero-length R value";
  b4 ← py_index sig 4;
  _ ← raise_if (truthy (Z.land b4 0x80)) "sig R value not allowed to be negative";
  r_zero ←
    (if r_len >? 1 then
       b4 ← py_index sig 4;
       if b4 =? 0 then b5 ← py_index sig 5; Ok (negb (truthy (Z.land b5 0x80)))
       else Ok false
     else Ok false);
  _ ← raise_if r_zero
        "sig R value not allowed to have leading 0 byte unless doing so would make it negative";
  t ← py_index sig (r_len + 4);
  _ ← raise_if (negb (t =? 2)) "S value region does not start with 0x02";
  _ ← raise_if (s_len =? 0) "zero-length S value";
  b6 ← py_index sig (r_len + 6);
  _ ← raise_if (truthy (Z.land b6 0x80)) "negative S values not allowed";
  s_zero ←
    (if s_len >? 1 then
       b6 ← py_index sig (r_len + 6);
       if b6 =? 0 then
         b7 ← py_index sig (r_len + 7); Ok (negb (truthy (Z.land b7 0x80)))
       else Ok false
     else Ok false);
  raise_if s_zero
    "sig S value not allowed to have leading 0 byte unless doing so would make it negative".

Definition check_low_der_signature `{C : Collaborators} (sig_pair : Z * Z) : result unit :=
  let '(r, s) := sig_pair in
  let hi_s := secp256k1_p - s in
  raise_if (hi_s <? s) "signature has high S value".

Definition check_defined_hashtype_signature (sig : bytes) : result unit :=
  if len sig =? 0 then Raise (ScriptError "signature is length 0")
  else
    b ← py_index sig (len sig - 1);
    let hash_type := Z.land b (Z.lnot SIGHASH_ANYONECANPAY) in
    raise_if ((hash_type <? SIGHASH_ALL) || (hash_type >? SIGHASH_SINGLE))
      "bad hash type after signature".

Definition parse_signature_blob `{C : Collaborators} (sig_blob : bytes) (flags : Z)
    : result (Z * Z * Z) :=
  if len sig_blob =? 0 then Ok ((0, 0), 0)
  else
    _ ← (if truthy (Z.land flags (Z.lor (Z.lor VERIFY_DERSIG VERIFY_LOW_S) VERIFY_STRICTENC))
         then check_valid_signature sig_blob else Ok tt);
    _ ← (if truthy (Z.land flags VERIFY_STRICTENC)
         then check_defined_hashtype_signature sig_blob else Ok tt);
    sig_pair ← sigdecode_der (py_slice sig_blob 0 (len sig_blob - 1));
    signature_type ← ord (py_slice sig_blob (len sig_blob - 1) (len sig_blob));
    _ ← (if truthy (Z.land flags VERIFY_LOW_S)
         then check_low_der_signature sig_pair else Ok tt);
    Ok (sig_pair, signature_type).

Definition check_public_key_encoding (blob : bytes) : result unit :=
  let lb := len blob in
  let bad := Raise (ScriptError "invalid public key blob") in
  if lb >=? 33 then
    fb ← py_index blob 0;
    if fb =? 4 then
      if lb =? 65 then Ok tt else bad
    else if (fb =? 2) || (fb =? 3) then
      if lb =? 33 then Ok tt else bad
    else bad
  else bad.

(** [stack.pop()]: the stack is a Python list whose last element is the top. *)
Definition pop (stack : list bytes) : result (bytes * list bytes) :=
  match reverse stack with
  | [] => Raise IndexError
  | x :: r => Ok (x, reverse r)
  end.

(** The exceptions named by the [except] clause of [op_checksig]. *)
Definition op_checksig_catches (e : exn) : bool :=
  match e with
  | UnexpectedDER | ValueError | EncodingError => true
  | _ => false
  end.

(** [op_checksig] returns nothing; its effect is the new stack. *)
Definition op_checksig `{C : Collaborators} (stack : list bytes)
    (signature_for_hash_type_f : Z -> bytes -> Z) (expected_hash_type : option Z)
    (tmp_script : bytes) (flags : Z) : result (list bytes) :=
  '(pair_blob, stack) ← pop stack;
  '(sig_blob, stack) ← pop stack;
  let verify_strict := truthy (Z.land flags VERIFY_STRICTENC) in
  let try_block :=
    _ ← (if verify_strict then check_public_key_encoding pair_blob else Ok tt);
    '(sig_pair, signature_type) ← parse_signature_blob sig_blob flags;
    public_pair ← sec_to_public_pair pair_blob verify_strict;
    Ok (sig_pair, signature_type, public_pair) in
  match try_block with
  | Raise e =>
      if op_checksig_catches e then Ok (stack ++ [VCH_FALSE]) else Raise e
  | Ok (sig_pair, signature_type, public_pair) =>
      if bool_decide (expected_hash_type ≠ None ∧ expected_hash_type ≠ Some signature_type)
      then Raise (ScriptError "wrong hash type")
      else
        sub ← bin_script [sig_blob];
        tmp_script ← delete_subscript tmp_script sub;
        let signature_hash := signature_for_hash_type_f signature_type tmp_script in
        if ecdsa_verify public_pair signature_hash sig_pair
        then Ok (stack ++ [VCH_TRUE])
        else Ok (stack ++ [VCH_FALSE])
  end.

(** The first loop of [sig_blob_matches]: every signature blob is removed
    from the script. *)
Fixpoint drop_signatures (sig_blobs : list bytes) (tmp_script : bytes) : result bytes :=
  match sig_blobs with
  | [] => Ok tmp_script
  | sig_blob :: rest =>
      sub ← bin_script [sig_blob];
      tmp_script ← delete_subscript tmp_script sub;
      drop_signatures rest tmp_script
  end.

(** The inner [for idx, ppb in enumerate(public_pair_blobs)] loop:
    [Some idx] when it leaves through [break], [None] when it runs to its
    [else] clause. *)
Fixpoint scan_public_pair_blobs `{C : Collaborators} (strict_encoding : bool)
    (ppp : list (Z * Z)) (sig_blob_indices : list Z) (idx : Z)
    (public_pair_blobs : list bytes) : result (option Z) :=
  match public_pair_blobs with
  | [] => Ok None
  | ppb :: rest =>
      if bool_decide (idx ∈ sig_blob_indices) then
        scan_public_pair_blobs strict_encoding ppp sig_blob_indices (idx + 1) rest
      else
        _ ← (if strict_encoding then check_public_key_encoding ppb else Ok tt);
        pp ← match sec_to_public_pair ppb strict_encoding with
             | Ok p => Ok (Some p)
             | Raise EncodingError => Ok None
             | Raise e => Raise e
             end;
        if match pp with Some p => bool_decide (p ∈ ppp) | None => false end
        then Ok (Some idx)
        else scan_public_pair_blobs strict_encoding ppp sig_blob_indices (idx + 1) rest
  end.

(** [l[-1] <= l[-2]] for a list of length at least two. *)
Definition last_le_previous (l : list Z) : bool :=
  match reverse l with
  | a :: b :: _ => a <=? b
  | _ => false
  end.

(** The main loop of [sig_blob_matches], with its two pieces of state:
    the digest cache and the list of indices. *)
Fixpoint sig_blob_matches_loop `{C : Collaborators} (sig_blobs : list bytes)
    (public_pair_blobs : list bytes) (tmp_script : bytes)
    (signature_for_hash_type_f : Z -> bytes -> Z) (flags : Z) (exit_early : bool)
    (sig_cache : gmap Z Z) (sig_blob_indices : list Z) : result (list Z) :=
  match sig_blobs with
  | [] => Ok sig_blob_indices
  | sig_blob :: rest =>
      let continue := sig_blob_matches_loop rest public_pair_blobs tmp_script
                        signature_for_hash_type_f flags exit_early in
      match parse_signature_blob sig_blob flags with
      | Raise UnexpectedDER =>
          let sig_blob_indices := sig_blob_indices ++ [-1] in
          if exit_early then Ok sig_blob_indices
          else continue sig_cache sig_blob_indices
      | Raise e => Raise e
      | Ok (sig_pair, signature_type) =>
          let sig_cache :=
            match sig_cache !! signature_type with
            | None => <[signature_type :=
                          signature_for_hash_type_f signature_type tmp_script]> sig_cache
            | Some _ => sig_cache
            end in
          match sig_cache !! signature_type with
          | None => Raise (KeyError "signature_type")
          | Some signature_hash =>
              ppp ← match possible_public_pairs_for_signature signature_hash sig_pair with
                    | Ok l => Ok l
                    | Raise NoSuchPointError => Ok []
                    | Raise e => Raise e
                    end;
              if len ppp >? 0 then
                found ← scan_public_pair_blobs
                          (truthy (Z.land flags VERIFY_STRICTENC)) ppp
                          sig_blob_indices 0 public_pair_blobs;
                let sig_blob_indices := sig_blob_indices ++ [default (-1) found] in
                if bool_decide (found = None) && exit_early then Ok sig_blob_indices
                else if (len sig_blob_indices >? 1) && exit_early
                        && last_le_previous sig_blob_indices
                then Ok sig_blob_indices
                else continue sig_cache sig_blob_indices
              else if exit_early then Ok sig_blob_indices
              else continue sig_cache sig_blob_indices
          end
      end
  end.

Definition sig_blob_matches `{C : Collaborators} (sig_blobs public_pair_blobs : list bytes)
    (tmp_script : bytes) (signature_for_hash_type_f : Z -> bytes -> Z) (flags : Z)
    (exit_early : bool) : result (list Z) :=
  tmp_script ← drop_signatures sig_blobs tmp_script;
  sig_blob_matches_loop sig_blobs public_pair_blobs tmp_script
    signature_for_hash_type_f flags exit_early ∅ [].

(** [for i in range(n): l.append(stack.pop())] *)
Fixpoint pop_many (n : nat) (stack : list bytes) (l : list bytes)
    : result (list bytes * list bytes) :=
  match n with
  | O => Ok (l, stack)
  | S n' => '(x, stack) ← pop stack; pop_many n' stack (l ++ [x])
  end.

(** The final test of [op_checkmultisig]: the [for ... else] over
    consecutive indices. *)
Fixpoint strictly_increasing (l : list Z) : bool :=
  match l with
  | a :: (b :: _) as r => if a >=? b then false else strictly_increasing r
  | _ => true
  end.

(** [op_checkmultisig] returns [key_count]; its effect is the new stack. *)
Definition op_checkmultisig `{C : Collaborators} (stack : list bytes)
    (signature_for_hash_type_f : Z -> bytes -> Z) (expected_hash_type : option Z)
    (tmp_script : bytes) (flags : Z) : result (list bytes * Z) :=
  let require_minimal := Z.land flags VERIFY_MINIMALDATA in
  '(top, stack) ← pop stack;
  key_count ← int_from_script_bytes top require_minimal;
  if (key_count <? 0) || (key_count >? 20) then
    Raise (ScriptError "key_count not in range 0 to 20")
  else
    '(public_pair_blobs, stack) ← pop_many (Z.to_nat key_count) stack [];
    '(top, stack) ← pop stack;
    signature_count ← int_from_script_bytes top require_minimal;
    if signature_count >? key_count then
      Raise (ScriptError ("too many signatures: " +:+ pretty signature_count
                            +:+ " > " +:+ pretty key_count))
    else
      '(sig_blobs, stack) ← pop_many (Z.to_nat signature_count) stack [];
      _ ← (if truthy (Z.land flags VERIFY_NULLDUMMY) then
             '(hack_byte, _) ← pop stack;
             raise_if (bool_decide (hack_byte ≠ [])) "bad dummy byte in checkmultisig"
           else Ok tt);
      '(_, stack) ← pop stack;
      sig_blob_indices ← sig_blob_matches sig_blobs public_pair_blobs tmp_script
                           signature_for_hash_type_f flags true;
      let sig_ok :=
        if bool_decide ((-1) ∉ sig_blob_indices) && (len sig_blob_indices =? len sig_blobs)
           && strictly_increasing sig_blob_indices
        then VCH_TRUE else VCH_FALSE in
      Ok (stack ++ [sig_ok], key_count).

(* ===================================================================== *)
(** ** pay_to/ScriptMultisig.py and TxOut.py *)
(* ===================================================================== *)

(** The collaborators of the solver that are outside the sources at hand:
    [encoding.hash160], the signing method [_create_script_signature] of
    the base class ScriptType, and the address decoder used by
    [standard_tx_out_script]. *)
Class SolverCollaborators : Type := {
  hash160 : bytes -> bytes;
  _create_script_signature : Z -> Z -> Z -> bytes;
  bitcoin_address_to_hash160_sec_with_prefix : string -> result (bytes * bytes)
}.

(** Modelled from the spec: [_dummy_signature] of the base class ScriptType
    (pay_to/ScriptType.py is not part of the sources at hand) is the
    placeholder made of the single byte that encodes the hash type. *)
Definition _dummy_signature (signature_type : Z) : result bytes :=
  bytes_from_int signature_type.

(** The result of [db.get(hash160)]: secret exponent, public pair and
    compression flag. *)
Definition key_entry : Type := Z * (Z * Z) * bool.

Module ScriptMultisig.

Record t : Type := { n : Z; sec_keys : list bytes }.

(** The [for sec_key in self.sec_keys] loop of [solve]. *)
Fixpoint sign_loop `{SC : SolverCollaborators} (self_n : Z) (db : bytes -> option key_entry)
    (sign_value signature_type : Z) (keys : list bytes)
    (existing_signatures : list bytes) : list bytes :=
  match keys with
  | [] => existing_signatures
  | sec_key :: rest =>
      if len existing_signatures >=? self_n then existing_signatures
      else
        match db (hash160 sec_key) with
        | None => sign_loop self_n db sign_value signature_type rest existing_signatures
        | Some (secret_exponent, public_pair, compressed) =>
            let binary_signature :=
              _create_script_signature secret_exponent sign_value signature_type in
            sign_loop self_n db sign_value signature_type rest
              (existing_signatures ++ [binary_signature])
        end
  end.

(** The [while len(existing_signatures) < self.n] loop of [solve]; it adds
    one element per round, so [self.n - len(existing_signatures)] rounds
    end it. *)
Fixpoint pad_loop (fuel : nat) (self_n : Z) (dummy : bytes)
    (existing_signatures : list bytes) : list bytes :=
  match fuel with
  | O => existing_signatures
  | S fuel' =>
      if len existing_signatures <? self_n
      then pad_loop fuel' self_n dummy (existing_signatures ++ [dummy])
      else existing_signatures
  end.

(** [solve] with its four keyword arguments.  The name [script]
    is assigned further down in the body of [solve], so it is a local
    variable of the function: the branch taken for a non-empty
    [existing_script] reads it before any assignment. *)
Definition solve `{SC : SolverCollaborators} (self : t)
    (hash160_lookup : option (bytes -> option key_entry))
    (existing_script : option bytes) (sign_value signature_type : Z) : result bytes :=
  match hash160_lookup with
  | None => Raise (SolvingError "missing hash160_lookup parameter")
  | Some db =>
      existing_signatures ←
        (match existing_script with
         | Some (_ :: _) => Raise (UnboundLocalError "script")
         | _ => Ok []
         end);
      let existing_signatures :=
        sign_loop (n self) db sign_value signature_type (sec_keys self)
          existing_signatures in
      DUMMY_SIGNATURE ← _dummy_signature signature_type;
      let existing_signatures :=
        pad_loop (Z.to_nat (n self - len existing_signatures)) (n self)
          DUMMY_SIGNATURE existing_signatures in
      let script := "OP_0 " +:+ join " " (map b2h existing_signatures) in
      compile script
  end.

End ScriptMultisig.

Definition standard_tx_out_script `{SC : SolverCollaborators} (bitcoin_address : string)
    : result bytes :=
  '(hash160, prefix) ← bitcoin_address_to_hash160_sec_with_prefix bitcoin_address;
  let script_text :=
    "OP_DUP OP_HASH160 " +:+ b2h hash160 +:+ " OP_EQUALVERIFY OP_CHECKSIG" in
  compile script_text.

(* ===================================================================== *)
(** ** Specification-side definitions *)
(* ===================================================================== *)

(** One DER INTEGER body as the signature grammar wants it: not empty,
    high bit of the first byte clear, and no leading zero byte unless the
    byte after it has its high bit set. *)
Definition der_integer_ok (v : bytes) : Prop :=
  match v with
  | [] => False
  | b :: rest =>
      Z.land (byte_to_int b) 0x80 = 0 ∧
      match rest with
      | [] => True
      | b' :: _ => byte_to_int b = 0 → Z.land (byte_to_int b') 0x80 ≠ 0
      end
  end.

(** The layout [30 LL 02 rlen r.. 02 slen s.. hashtype] of a signature
    blob, with [LL] the total length minus three. *)
Definition der_layout (sig : bytes) : Prop :=
  9 <= len sig <= 73 ∧
  ∃ (ll rl sl ht : byte) (r s : bytes),
    sig = [x30; ll; x02; rl] ++ r ++ [x02; sl] ++ s ++ [ht] ∧
    byte_to_int ll = len sig - 3 ∧
    byte_to_int rl = len r ∧
    byte_to_int sl = len s ∧
    der_integer_ok r ∧ der_integer_ok s.

(** The tests of [check_valid_signature] read as propositions about the
    bytes at the positions the code looks at. *)
Definition der_checks (sig : bytes) : Prop :=
  ∃ r_len s_len b4 b6,
    9 <= len sig <= 73 ∧
    py_index sig 0 = Ok 0x30 ∧ py_index sig 1 = Ok (len sig - 3) ∧
    py_index sig 2 = Ok 2 ∧ py_index sig 3 = Ok r_len ∧
    py_index sig (5 + r_len) = Ok s_len ∧ r_len + s_len + 7 = len sig ∧
    0 < r_len ∧ 0 < s_len ∧
    py_index sig 4 = Ok b4 ∧ Z.land b4 0x80 = 0 ∧
    (1 < r_len → b4 = 0 → ∃ b5, py_index sig 5 = Ok b5 ∧ Z.land b5 0x80 ≠ 0) ∧
    py_index sig (r_len + 4) = Ok 2 ∧
    py_index sig (r_len + 6) = Ok b6 ∧ Z.land b6 0x80 = 0 ∧
    (1 < s_len → b6 = 0 → ∃ b7, py_index sig (r_len + 7) = Ok b7 ∧ Z.land b7 0x80 ≠ 0).

(** The nine-byte blob with r = 1 and s = 1 and hash type SIGHASH_ALL. *)
Definition minimal_signature_blob : bytes :=
  [x30; x06; x02; x01; x01; x02; x01; x01; x01].

(** The stack [op_checkmultisig] works on, bottom first: the dummy
    element, the signature blobs, their count, the public-key blobs, their
    count.  [sig_blobs] and [public_pair_blobs] are given in the order in
    which the opcode pops them, which is the reverse of the order in which
    the script pushed them. *)
Definition multisig_stack (rest : list bytes) (dummy : bytes) (sig_blobs : list bytes)
    (sc : bytes) (public_pair_blobs : list bytes) (kc : bytes) : list bytes :=
  rest ++ [dummy] ++ reverse sig_blobs ++ [sc] ++ reverse public_pair_blobs ++ [kc].

(** The operands are well formed: the two counts decode to the numbers of
    blobs present, within the limits, and the dummy element is empty when
    the null-dummy flag asks for it. *)
Definition multisig_operands `{C : Collaborators} (flags : Z) (dummy : bytes)
    (sig_blobs : list bytes) (sc : bytes) (public_pair_blobs : list bytes)
    (kc : bytes) : Prop :=
  int_from_script_bytes kc (Z.land flags VERIFY_MINIMALDATA) = Ok (len public_pair_blobs) ∧
  int_from_script_bytes sc (Z.land flags VERIFY_MINIMALDATA) = Ok (len sig_blobs) ∧
  len sig_blobs <= len public_pair_blobs <= 20 ∧
  (truthy (Z.land flags VERIFY_NULLDUMMY) = true → dummy = []).

(** Every signature found a key and the indices of the keys grow strictly. *)
Definition all_matched_in_order (sig_blobs : list bytes) (indices : list Z) : Prop :=
  length indices = length sig_blobs ∧ ((-1) ∉ indices) ∧ StronglySorted Z.lt indices.

(** The signature blob decodes, and the public pair of the key blob is
    ([true]) or is not ([false]) among the candidates recovered from the
    signature and the digest of [script]. *)
Definition signature_key_match `{C : Collaborators}
    (signature_for_hash_type_f : Z -> bytes -> Z) (script : bytes) (flags : Z)
    (sig_blob key_blob : bytes) (matches : bool) : Prop :=
  ∃ sig_pair signature_type ppp pp,
    parse_signature_blob sig_blob flags = Ok (sig_pair, signature_type) ∧
    possible_public_pairs_for_signature
      (signature_for_hash_type_f signature_type script) sig_pair = Ok ppp ∧
    check_public_key_encoding key_blob = Ok tt ∧
    sec_to_public_pair key_blob (truthy (Z.land flags VERIFY_STRICTENC)) = Ok pp ∧
    bool_decide (pp ∈ ppp) = matches.

(** No step of the matching can raise: every signature blob parses or
    fails as UnexpectedDER, every key blob is well encoded when the strict
    flag is set and decodes or fails as EncodingError, and the recovery of
    candidates returns or fails as NoSuchPointError. *)
Definition matching_cannot_raise `{C : Collaborators} (flags : Z)
    (sig_blobs public_pair_blobs : list bytes) : Prop :=
  (∀ sig_blob, sig_blob ∈ sig_blobs →
     is_Ok (parse_signature_blob sig_blob flags) = true ∨
     parse_signature_blob sig_blob flags = Raise UnexpectedDER) ∧
  (∀ ppb, ppb ∈ public_pair_blobs →
     (truthy (Z.land flags VERIFY_STRICTENC) = true →
      check_public_key_encoding ppb = Ok tt) ∧
     (is_Ok (sec_to_public_pair ppb (truthy (Z.land flags VERIFY_STRICTENC))) = true ∨
      sec_to_public_pair ppb (truthy (Z.land flags VERIFY_STRICTENC)) = Raise EncodingError)) ∧
  (∀ h sig_pair,
     is_Ok (possible_public_pairs_for_signature h sig_pair) = true ∨
     possible_public_pairs_for_signature h sig_pair = Raise NoSuchPointError).

(** The minimal push-data encoding rule in the spec's words: empty data
    is the push-empty opcode; a single byte of value 1 to 16 is the
    push-small-integer opcode; other data of at most 75 bytes takes a
    literal-length opcode, of at most 255 bytes PUSHDATA1, of at most 65535
    bytes PUSHDATA2, and PUSHDATA4 otherwise. *)
Definition push_encoding_spec (t : bytes) : bytes :=
  match t with
  | [] => [x00]
  | [b] =>
      if (1 <=? byte_to_int b) && (byte_to_int b <=? 16)
      then to_bytes_little 1 (0x50 + byte_to_int b)
      else x01 :: t
  | _ =>
      if len t <=? 75 then to_bytes_little 1 (len t) ++ t
      else if len t <=? 255 then x4c :: to_bytes_little 1 (len t) ++ t
      else if len t <=? 65535 then x4d :: to_bytes_little 2 (len t) ++ t
      else x4e :: to_bytes_little 4 (len t) ++ t
  end.

(** The pieces a script is built from: a data push as [write_push_data]
    writes it, or one opcode that pushes nothing. *)
Inductive script_item : Type :=
| PushData (data : bytes)
| Opcode (opcode : Z).

(** The data fits the four length bytes of PUSHDATA4; the opcode is above
    the push opcodes and has a mnemonic. *)
Definition item_ok (i : script_item) : Prop :=
  match i with
  | PushData d => len d < 2 ^ 32
  | Opcode c => OP_PUSHDATA4 < c ∧ is_Some (INT_TO_OPCODE !! c)
  end.

Fixpoint write_items (items : list script_item) (f : bytes) : result bytes :=
  match items with
  | [] => Ok f
  | PushData d :: rest => f' ← write_push_data [d] f; write_items rest f'
  | Opcode c :: rest => o ← bytes_from_int c; write_items rest (f ++ o)
  end.

(** A script built from minimal pushes in the spec's sense and from
    opcodes. *)
Fixpoint spec_script (items : list script_item) : result bytes :=
  match items with
  | [] => Ok []
  | PushData d :: rest => r ← spec_script rest; Ok (push_encoding_spec d ++ r)
  | Opcode c :: rest => o ← bytes_from_int c; r ← spec_script rest; Ok (o ++ r)
  end.

(** A token of a script text: not empty and free of white space. *)
Fixpoint has_space (s : string) : bool :=
  match s with
  | EmptyString => false
  | String c r => is_space c || has_space r
  end.

Definition token_ok (t : string) : Prop := t ≠ EmptyString ∧ has_space t = false.

(** The hash160 745e5b81fd30ca1e90311b012badabaa4411ae1a of the test
    [test_standard_tx_out] in pycoin/test/build_tx_test.py. *)
Definition test_hash160 : bytes :=
  [x74; x5e; x5b; x81; xfd; x30; xca; x1e; x90; x31;
   x1b; x01; x2b; xad; xab; xaa; x44; x11; xae; x1a].

(** Test doubles for the collaborators: a signature "recovers" the one
    public pair whose x coordinate is its s value; the pair of a key blob
    is read from its second byte. *)
Definition mock_collaborators : Collaborators := {|
  sigdecode_der der :=
    match der with
    | b :: _ => Ok (1, byte_to_int b)
    | [] => Raise UnexpectedDER
    end;
  sec_to_public_pair blob strict :=
    match blob with
    | _ :: b :: _ => Ok (byte_to_int b, 0)
    | _ => Raise EncodingError
    end;
  ecdsa_verify public_pair signature_hash sig_pair :=
    bool_decide (public_pair.1 = sig_pair.2);
  possible_public_pairs_for_signature signature_hash sig_pair :=
    if sig_pair.2 =? 0 then Raise NoSuchPointError else Ok [(sig_pair.2, 0)];
  int_from_script_bytes b require_minimal := Ok (from_bytes_little b);
  secp256k1_p := secp256k1_order
|}.

(** Test doubles for the collaborators of the solver: the hash160 of a key
    blob is the blob itself, a signature is a nine-byte DER blob that
    carries the low byte of the secret exponent as r, and every address
    decodes to [test_hash160]. *)
Definition mock_solver_collaborators : SolverCollaborators := {|
  hash160 sec_key := sec_key;
  _create_script_signature secret_exponent sign_value signature_type :=
    [x30; x06; x02; x01; default x00 (Byte.of_N (Z.to_N (secret_exponent mod 128)));
     x02; x01; x01; default x00 (Byte.of_N (Z.to_N (signature_type mod 256)))];
  bitcoin_address_to_hash160_sec_with_prefix address := Ok (test_hash160, [x00])
|}.

(** A 2-of-3 descriptor over three key blobs, and key lookups that hold
    the first key only and the second key only. *)
Definition mock_multisig : ScriptMultisig.t :=
  {| ScriptMultisig.n := 2;
     ScriptMultisig.sec_keys := [[x02; x0b]; [x02; x0c]; [x02; x0d]] |}.

Definition mock_lookup_first (h : bytes) : option key_entry :=
  if bool_decide (h = [x02; x0b]) then Some (11, (1, 1), true) else None.

Definition mock_lookup_second (h : bytes) : option key_entry :=
  if bool_decide (h = [x02; x0c]) then Some (12, (2, 2), true) else None.

(** The test doubles of [mock_collaborators] with the constant [_p] set to
    the prime of the field, the parameter of the curve that the name
    [_p] stands for; the order of the group is what the sources reach
    through [ecdsa.generator_secp256k1.order()] (pycoin/wallet.py). *)
Definition field_prime_collaborators : Collaborators := {|
  sigdecode_der := @sigdecode_der mock_collaborators;
  sec_to_public_pair := @sec_to_public_pair mock_collaborators;
  ecdsa_verify := @ecdsa_verify mock_collaborators;
  possible_public_pairs_for_signature :=
    @possible_public_pairs_for_signature mock_collaborators;
  int_from_script_bytes := @int_from_script_bytes mock_collaborators;
  secp256k1_p := secp256k1_field_prime
|}.

(* ===================================================================== *)
(** ** pay_to/ScriptMultisig.py: the script template *)
(* ===================================================================== *)

Module ScriptMultisigTemplate.

(** The [while 1] loop of [from_script]: it reads one token per round and
    leaves through [break] with the opcode read last, the cursor and the
    keys gathered.  [len(data)] is a TypeError when the token carries no
    data.  Every round moves the cursor forward and a read at the end of
    the script raises, so [length script + 1] rounds are never used up
    (see [from_script_loop_fuel]). *)
Fixpoint from_script_loop (fuel : nat) (script : bytes) (pc : Z)
    (sec_keys : list bytes) : result (Z * Z * list bytes) :=
  match fuel with
  | O => Raise TypeError
  | S fuel' =>
      '(opcode, data, pc) ← get_opcode script pc;
      match data with
      | None => Raise TypeError
      | Some d =>
          let l := len d in
          if (l <? 33) || (l >? 120) then Ok (opcode, pc, sec_keys)
          else from_script_loop fuel' script pc (sec_keys ++ [d])
      end
  end.

(** [ScriptMultisig.from_script(script)]; the four ValueErrors differ by
    their message only. *)
Definition from_script (script : bytes) : result ScriptMultisig.t :=
  '(opcode, data, pc) ← get_opcode script 0;
  if negb ((OP_1 <=? opcode) && (opcode <? OP_16)) then Raise ValueError
  else
    let n := opcode + (1 - OP_1) in
    '(opcode, pc, sec_keys) ← from_script_loop (S (length script)) script pc [];
    let m := opcode + (1 - OP_1) in
    if (n >? m) || negb (len sec_keys =? m) then Raise ValueError
    else
      '(opcode, data, pc) ← get_opcode script pc;
      if negb (opcode =? OP_CHECKMULTISIG) then Raise ValueError
      else if negb (pc =? len script) then Raise ValueError
      else Ok {| ScriptMultisig.n := n; ScriptMultisig.sec_keys := sec_keys |}.

(** [self.script()]: the compiled template.  The method keeps its result
    in [self._script]; the result is a function of [n] and [sec_keys],
    which nothing changes after [__init__]. *)
Definition script (self : ScriptMultisig.t) : result bytes :=
  let public_keys := map b2h (ScriptMultisig.sec_keys self) in
  let script_source :=
    pretty (ScriptMultisig.n self) +:+ " " +:+ join " " public_keys +:+ " "
      +:+ pretty (len public_keys) +:+ " OP_CHECKMULTISIG" in
  compile script_source.

End ScriptMultisigTemplate.

#[global] Instance result_eq_dec {A} `{EqDecision A} : EqDecision (result A).
Proof. solve_decision. Defined.

(** The bytes written for one script item alone, and the items of a list
    whose bytes are not the given ones. *)
Definition item_bytes (i : script_item) : result bytes := write_items [i] [].

Definition items_without (subscript : bytes) (items : list script_item)
    : list script_item :=
  filter (λ i, item_bytes i ≠ Ok subscript) items.

(** Text made of hexadecimal digits in lower case only, as [b2h] writes. *)
Definition is_hex_char (c : ascii) : bool :=
  let n := N_of_ascii c in
  (((48 <=? n) && (n <=? 57)) || ((97 <=? n) && (n <=? 102)))%N.

Fixpoint is_hex_string (s : string) : bool :=
  match s with
  | EmptyString => true
  | String c r => is_hex_char c && is_hex_string r
  end.

(* ===================================================================== *)
(** * Part II: theorems *)
(* ===================================================================== *)

(** ** Basic facts about bytes and slices *)

Lemma byte_to_int_range (b : byte) : 0 <= byte_to_int b < 256.
Proof.
  unfold byte_to_int. pose proof (Byte.to_N_bounded b). lia.
Qed.

Lemma byte_to_int_inj (a b : byte) : byte_to_int a = byte_to_int b → a = b.
Proof.
  unfold byte_to_int. intros E. apply N2Z.inj in E.
  pose proof (Byte.of_to_N a) as Ha. rewrite E, Byte.of_to_N in Ha. congruence.
Qed.

Lemma len_nonneg {A} (l : list A) : 0 <= len l.
Proof. unfold len. lia. Qed.

Lemma len_app {A} (l k : list A) : len (l ++ k) = len l + len k.
Proof. unfold len. rewrite length_app. lia. Qed.

Lemma len_cons {A} (x : A) (l : list A) : len (x :: l) = 1 + len l.
Proof. unfold len. simpl. lia. Qed.

Lemma len_nil_iff {A} (l : list A) : len l = 0 ↔ l = [].
Proof. unfold len. destruct l; simpl; split; intros; try done; lia. Qed.

Lemma py_slice_len {A} (s : list A) (a b : Z) :
  0 <= a → len (py_slice s a b) = Z.max 0 (Z.min b (len s) - Z.min a (len s)).
Proof.
  intros Ha. unfold py_slice, len. rewrite length_take, length_drop. lia.
Qed.

Lemma py_slice_empty {A} (s : list A) (a b : Z) :
  0 <= a → len s <= a → py_slice s a b = [].
Proof.
  intros Ha Hl. apply len_nil_iff. rewrite py_slice_len by done.
  pose proof (len_nonneg s). lia.
Qed.

Lemma py_slice_app_mid {A} (p m q : list A) :
  py_slice (p ++ m ++ q) (len p) (len p + len m) = m.
Proof.
  unfold py_slice. rewrite !len_app.
  pose proof (len_nonneg p). pose proof (len_nonneg m). pose proof (len_nonneg q).
  rewrite !Z.min_l by lia.
  replace (Z.to_nat (len p)) with (length p) by (unfold len; lia).
  replace (Z.to_nat (len p + len m - len p)) with (length m) by (unfold len; lia).
  rewrite drop_app_length. apply take_app_length.
Qed.

(** [ord] of a one-element slice reads the byte under the cursor. *)
Lemma ord_slice_Ok (s : bytes) (pc v : Z) :
  0 <= pc → ord (py_slice s pc (pc + 1)) = Ok v →
  ∃ b, s !! Z.to_nat pc = Some b ∧ v = byte_to_int b ∧ pc < len s.
Proof.
  intros Hpc Hord. unfold ord in Hord.
  destruct (py_slice s pc (pc + 1)) as [|b [|? ?]] eqn:E; try discriminate.
  injection Hord as <-. exists b.
  assert (Hl : len (py_slice s pc (pc + 1)) = 1) by (rewrite E; done).
  rewrite py_slice_len in Hl by done.
  assert (Hlt : pc < len s) by lia. split; [|done].
  unfold py_slice in E. rewrite (Z.min_l pc), (Z.min_l (pc + 1)) in E by lia.
  replace (Z.to_nat (pc + 1 - pc)) with 1%nat in E by lia.
  assert (Hd : drop (Z.to_nat pc) s !! 0%nat = Some b).
  { destruct (drop (Z.to_nat pc) s) as [|x r]; simpl in E; [discriminate|].
    rewrite take_0 in E. injection E as ->. done. }
  rewrite lookup_drop in Hd. rewrite Nat.add_0_r in Hd. done.
Qed.

Lemma from_bytes_little_range (s : bytes) :
  0 <= from_bytes_little s < 256 ^ len s.
Proof.
  induction s as [|b r IH]; simpl.
  - unfold len; simpl. lia.
  - rewrite len_cons. pose proof (byte_to_int_range b). pose proof (len_nonneg r).
    rewrite Z.pow_add_r by lia. lia.
Qed.

(** ** The opcode reader *)

(** What a successful step of [get_opcode] returns: the byte under the
    cursor, and for a push opcode a data blob of exactly the declared
    size cut from the script behind the [hdr] bytes of length prefix. *)
Lemma get_opcode_Ok_inv (script : bytes) (pc opcode pc' : Z) (data : option bytes) :
  0 <= pc →
  get_opcode script pc = Ok (opcode, data, pc') →
  pc < len script ∧ 0 <= opcode < 256 ∧
  ((OP_PUSHDATA4 < opcode ∧ data = None ∧ pc' = pc + 1) ∨
   (opcode <= OP_PUSHDATA4 ∧
    ∃ hdr size d,
      0 <= hdr ∧ 0 <= size ∧ data = Some d ∧ len d = size ∧
      pc' = pc + 1 + hdr + size ∧ d = py_slice script (pc + 1 + hdr) pc')).
Proof.
  intros Hpc Hget. unfold get_opcode in Hget.
  destruct (ord (py_slice script pc (pc + 1))) as [op|e] eqn:Hord; [|discriminate].
  simpl in Hget.
  destruct (ord_slice_Ok _ _ _ Hpc Hord) as (b & _ & -> & Hlt).
  pose proof (byte_to_int_range b) as Hb.
  destruct (byte_to_int b <=? OP_PUSHDATA4) eqn:Hle.
  - apply Z.leb_le in Hle.
    assert (Hgen : ∀ hdr size,
      0 <= hdr → 0 <= size →
      ((if len (py_slice script (pc + 1 + hdr) (pc + 1 + hdr + size)) <? size
        then Raise (ScriptError "unexpected end of data when literal expected")
        else Ok (byte_to_int b, Some (py_slice script (pc + 1 + hdr) (pc + 1 + hdr + size)),
                 pc + 1 + hdr + size)) = Ok (opcode, data, pc')) →
      pc < len script ∧ 0 <= opcode < 256 ∧
      ((OP_PUSHDATA4 < opcode ∧ data = None ∧ pc' = pc + 1) ∨
       (opcode <= OP_PUSHDATA4 ∧
        ∃ hdr size d,
          0 <= hdr ∧ 0 <= size ∧ data = Some d ∧ len d = size ∧
          pc' = pc + 1 + hdr + size ∧ d = py_slice script (pc + 1 + hdr) pc'))).
    { intros hdr size Hh Hs Hres.
      destruct (_ <? size) eqn:Hcmp in Hres; [discriminate|].
      apply Z.ltb_ge in Hcmp. injection Hres as <- <- <-.
      split; [done|]. split; [done|]. right. split; [done|].
      exists hdr, size, (py_slice script (pc + 1 + hdr) (pc + 1 + hdr + size)).
      repeat split; try done.
      rewrite py_slice_len in * by lia. lia. }
    destruct (byte_to_int b <? OP_PUSHDATA1) eqn:H1.
    { simpl in Hget. apply (Hgen 0 (byte_to_int b)); [lia|lia|].
      rewrite !Z.add_0_r. exact Hget. }
    destruct (byte_to_int b =? OP_PUSHDATA1) eqn:H2.
    { simpl in Hget.
      apply (Hgen 1 (from_bytes_little (py_slice script (pc + 1) (pc + 1 + 1))));
        [lia|apply from_bytes_little_range|exact Hget]. }
    destruct (byte_to_int b =? OP_PUSHDATA2) eqn:H3.
    { simpl in Hget.
      apply (Hgen 2 (from_bytes_little (py_slice script (pc + 1) (pc + 1 + 2))));
        [lia|apply from_bytes_little_range|exact Hget]. }
    destruct (byte_to_int b =? OP_PUSHDATA4) eqn:H4.
    { simpl in Hget.
      apply (Hgen 4 (from_bytes_little (py_slice script (pc + 1) (pc + 1 + 4))));
        [lia|apply from_bytes_little_range|exact Hget]. }
    simpl in Hget. discriminate.
  - apply Z.leb_gt in Hle. injection Hget as <- <- <-.
    split; [done|]. split; [done|]. left. done.
Qed.

(** Every successful step moves the cursor forward. *)
Lemma get_opcode_advances (script : bytes) (pc opcode pc' : Z) (data : option bytes) :
  0 <= pc → get_opcode script pc = Ok (opcode, data, pc') → pc < pc'.
Proof.
  intros Hpc Hget. destruct (get_opcode_Ok_inv _ _ _ _ _ Hpc Hget) as (_ & _ & [H|H]).
  - lia.
  - destruct H as (_ & hdr & size & d & ? & ? & _ & _ & -> & _). lia.
Qed.

(** Returned data is never cut short: it has the declared size, and when
    it is not empty it lies inside the script. *)
Lemma get_opcode_data_within (script : bytes) (pc opcode pc' : Z) (d : bytes) :
  0 <= pc → get_opcode script pc = Ok (opcode, Some d, pc') → d ≠ [] →
  pc' <= len script ∧ d = py_slice script (pc' - len d) pc'.
Proof.
  intros Hpc Hget Hne.
  destruct (get_opcode_Ok_inv _ _ _ _ _ Hpc Hget) as (Hlt & _ & [H|H]).
  - destruct H as (_ & ? & _). discriminate.
  - destruct H as (_ & hdr & size & d' & Hh & Hs & [= <-] & Hlen & -> & Hd).
    assert (0 < len d).
    { pose proof (len_nonneg d). destruct (decide (len d = 0)) as [E|]; [|lia].
      apply len_nil_iff in E. done. }
    split.
    + pose proof Hlen as Hsz. rewrite Hd in Hlen at 1.
      rewrite py_slice_len in Hlen by lia. lia.
    + replace (pc + 1 + hdr + size - len d) with (pc + 1 + hdr) by lia. done.
Qed.

(** C5. One step of [get_opcode] on a script that ends inside the length
    prefix of an extended push opcode: the two-byte prefix of PUSHDATA2 is
    cut after one byte (and the prefixes of PUSHDATA1 and PUSHDATA4 are cut
    likewise), yet the step raises nothing; it returns empty data and a
    cursor beyond the end of the script. *)
Theorem get_opcode_truncated_length_prefix :
  get_opcode [x4d; x00] 0 = Ok (OP_PUSHDATA2, Some [], 3) ∧
  len [x4d; x00] < 3 ∧
  get_opcode [x4c] 0 = Ok (OP_PUSHDATA1, Some [], 2) ∧
  get_opcode [x4e; x00; x00; x00] 0 = Ok (OP_PUSHDATA4, Some [], 5).
Proof. vm_compute. repeat split. Qed.

(** ** The DER layout validator *)

Lemma py_index_Ok_iff (s : bytes) (i v : Z) :
  py_index s i = Ok v ↔ 0 <= i ∧ ∃ b, s !! Z.to_nat i = Some b ∧ v = byte_to_int b.
Proof.
  unfold py_index. case_bool_decide as Hi.
  - destruct (s !! Z.to_nat i) as [b|] eqn:E.
    + split.
      * intros [= <-]. eauto.
      * intros (_ & b' & [= <-] & ->). done.
    + split; [discriminate|]. intros (_ & b' & ? & _). discriminate.
  - split; [discriminate|]. intros (? & _). lia.
Qed.

Lemma py_index_cons_0 (b : byte) (s : bytes) : py_index (b :: s) 0 = Ok (byte_to_int b).
Proof. reflexivity. Qed.

Lemma py_index_cons_pos (b : byte) (s : bytes) (i : Z) :
  0 < i → py_index (b :: s) i = py_index s (i - 1).
Proof.
  intros Hi. unfold py_index.
  rewrite !bool_decide_eq_true_2 by lia.
  replace (Z.to_nat i) with (S (Z.to_nat (i - 1))) by lia. done.
Qed.

Lemma py_index_app_r (p s : bytes) (i : Z) :
  len p <= i → py_index (p ++ s) i = py_index s (i - len p).
Proof.
  intros Hi. pose proof (len_nonneg p). unfold py_index.
  rewrite !bool_decide_eq_true_2 by lia.
  rewrite lookup_app_r by (unfold len in *; lia).
  replace (Z.to_nat i - length p)%nat with (Z.to_nat (i - len p)) by (unfold len in *; lia).
  done.
Qed.

Lemma py_index_app_l (p s : bytes) (i : Z) :
  0 <= i < len p → py_index (p ++ s) i = py_index p i.
Proof.
  intros Hi. unfold py_index.
  rewrite !bool_decide_eq_true_2 by lia.
  rewrite lookup_app_l by (unfold len in *; lia). done.
Qed.

Lemma raise_if_Ok (c : bool) (msg : string) (u : unit) : raise_if c msg = Ok u ↔ c = false.
Proof. destruct c, u; simpl; split; intros; done. Qed.

Lemma truthy_false (v : Z) : truthy v = false ↔ v = 0.
Proof. unfold truthy. destruct (Z.eqb_spec v 0); simpl; split; intros; done. Qed.

Lemma truthy_true (v : Z) : truthy v = true ↔ v ≠ 0.
Proof. unfold truthy. destruct (Z.eqb_spec v 0); simpl; split; intros; done. Qed.

(** Inversion of one monadic step that ended well. *)
Tactic Notation "bind_Ok" hyp(H) "as" simple_intropattern(x) ident(E) :=
  match type of H with
  | mbind _ ?m = Ok _ =>
      destruct m as [x|?] eqn:E; [cbn [mbind result_bind] in H | discriminate H]
  end.

(** Comparisons of the code as propositions. *)
Ltac bool_to_Prop :=
  repeat match goal with
  | H : raise_if _ _ = Ok _ |- _ => apply raise_if_Ok in H
  | H : _ || _ = false |- _ => apply orb_false_iff in H; destruct H
  | H : negb _ = false |- _ => apply negb_false_iff in H
  | H : negb _ = true |- _ => apply negb_true_iff in H
  | H : truthy _ = false |- _ => apply truthy_false in H
  | H : truthy _ = true |- _ => apply truthy_true in H
  | H : (_ <? _) = false |- _ => apply Z.ltb_ge in H
  | H : (_ <? _) = true |- _ => apply Z.ltb_lt in H
  | H : (_ <=? _) = false |- _ => apply Z.leb_gt in H
  | H : (_ <=? _) = true |- _ => apply Z.leb_le in H
  | H : (_ =? _) = true |- _ => apply Z.eqb_eq in H
  | H : (_ =? _) = false |- _ => apply Z.eqb_neq in H
  | H : (_ >? _) = _ |- _ => rewrite Z.gtb_ltb in H
  | H : (_ >=? _) = _ |- _ => rewrite Z.geb_leb in H
  end.

Lemma check_valid_signature_Ok (sig : bytes) :
  check_valid_signature sig = Ok tt → der_checks sig.
Proof.
  intros H. unfold check_valid_signature in H. unfold der_checks.
  bind_Ok H as ? Hsize. bind_Ok H as b0 H0. bind_Ok H as ? Hb0.
  bind_Ok H as b1 H1. bind_Ok H as ? Hb1.
  bind_Ok H as r_len H3. bind_Ok H as ? Hr.
  bind_Ok H as s_len H5. bind_Ok H as ? Hrs.
  bind_Ok H as b2 H2. bind_Ok H as ? Hb2. bind_Ok H as ? Hr0.
  bind_Ok H as b4 H4. bind_Ok H as ? Hb4.
  bind_Ok H as r_zero Hrz. bind_Ok H as ? Hrz'.
  bind_Ok H as t Ht. bind_Ok H as ? Ht'. bind_Ok H as ? Hs0.
  bind_Ok H as b6 H6. bind_Ok H as ? Hb6.
  bind_Ok H as s_zero Hsz.
  bool_to_Prop. subst b0 b1 b2 t r_zero s_zero.
  assert (0 <= r_len ∧ 0 <= s_len) as [? ?].
  { apply py_index_Ok_iff in H3 as (_ & ? & _ & ->).
    apply py_index_Ok_iff in H5 as (_ & ? & _ & ->).
    split; apply byte_to_int_range. }
  exists r_len, s_len, b4, b6.
  repeat match goal with |- _ ∧ _ => split end; try done; try lia.
  - intros Hgt Hz.
    assert (G : (r_len >? 1) = true) by (rewrite Z.gtb_ltb; apply Z.ltb_lt; lia).
    rewrite G in Hrz.
    rewrite Hz in Hrz. change (0 =? 0) with true in Hrz. cbv iota in Hrz.
    bind_Ok Hrz as b5 H5'. injection Hrz as Hrz. bool_to_Prop. eauto.
  - intros Hgt Hz.
    assert (G : (s_len >? 1) = true) by (rewrite Z.gtb_ltb; apply Z.ltb_lt; lia).
    rewrite G in Hsz.
    rewrite Hz in Hsz. change (0 =? 0) with true in Hsz. cbv iota in Hsz.
    bind_Ok Hsz as b7 H7'. injection Hsz as Hsz. bool_to_Prop. eauto.
Qed.

Lemma raise_if_false (c : bool) (msg : string) : c = false → raise_if c msg = Ok tt.
Proof. intros ->. done. Qed.

Ltac solve_cond :=
  rewrite ?orb_false_iff, ?negb_false_iff, ?Z.gtb_ltb, ?Z.geb_leb,
    ?Z.ltb_ge, ?Z.leb_gt, ?Z.eqb_eq, ?Z.eqb_neq, ?truthy_false;
  repeat split; first [done | lia].

Lemma check_valid_signature_complete (sig : bytes) :
  der_checks sig → check_valid_signature sig = Ok tt.
Proof.
  intros (r_len & s_len & b4 & b6 & Hls & H0 & H1 & H2 & H3 & H5 & Hsum & Hr & Hs &
          H4 & Hb4 & Hrz & Ht & H6 & Hb6 & Hsz).
  unfold check_valid_signature.
  rewrite raise_if_false by solve_cond. cbn [mbind result_bind].
  rewrite H0. cbn [mbind result_bind].
  rewrite raise_if_false by solve_cond. cbn [mbind result_bind].
  rewrite H1. cbn [mbind result_bind].
  rewrite raise_if_false by solve_cond. cbn [mbind result_bind].
  rewrite H3. cbn [mbind result_bind].
  rewrite raise_if_false by solve_cond. cbn [mbind result_bind].
  rewrite H5. cbn [mbind result_bind].
  rewrite raise_if_false by solve_cond. cbn [mbind result_bind].
  rewrite H2. cbn [mbind result_bind].
  rewrite raise_if_false by solve_cond. cbn [mbind result_bind].
  rewrite raise_if_false by solve_cond. cbn [mbind result_bind].
  rewrite H4. cbn [mbind result_bind].
  rewrite raise_if_false by solve_cond. cbn [mbind result_bind].
  assert (Hrz' : (if r_len >? 1 then
                    if b4 =? 0 then
                      py_index sig 5 ≫= λ b5, Ok (negb (truthy (Z.land b5 128)))
                    else Ok false
                  else Ok false) = Ok false).
  { rewrite Z.gtb_ltb. destruct (Z.ltb_spec 1 r_len); [|done].
    destruct (Z.eqb_spec b4 0); [|done].
    destruct Hrz as (b5 & -> & Hb5); [lia|done|]. cbn [mbind result_bind].
    f_equal. apply negb_false_iff, truthy_true. done. }
  rewrite Hrz'. cbn [mbind result_bind].
  rewrite raise_if_false by done. cbn [mbind result_bind].
  rewrite Ht. cbn [mbind result_bind].
  rewrite raise_if_false by solve_cond. cbn [mbind result_bind].
  rewrite raise_if_false by solve_cond. cbn [mbind result_bind].
  rewrite H6. cbn [mbind result_bind].
  rewrite raise_if_false by solve_cond. cbn [mbind result_bind].
  assert (Hsz' : (if s_len >? 1 then
                    if b6 =? 0 then
                      py_index sig (r_len + 7) ≫= λ b7, Ok (negb (truthy (Z.land b7 128)))
                    else Ok false
                  else Ok false) = Ok false).
  { rewrite Z.gtb_ltb. destruct (Z.ltb_spec 1 s_len); [|done].
    destruct (Z.eqb_spec b6 0); [|done].
    destruct Hsz as (b7 & -> & Hb7); [lia|done|]. cbn [mbind result_bind].
    f_equal. apply negb_false_iff, truthy_true. done. }
  rewrite Hsz'. cbn [mbind result_bind]. done.
Qed.

Lemma py_index_drop (l : bytes) (n i : Z) :
  0 <= n <= len l → n <= i → py_index l i = py_index (drop (Z.to_nat n) l) (i - n).
Proof.
  intros Hn Hi. rewrite <- (take_drop (Z.to_nat n) l) at 1.
  assert (Hl : len (take (Z.to_nat n) l) = n).
  { unfold len in *. rewrite length_take. lia. }
  rewrite py_index_app_r by lia. rewrite Hl. done.
Qed.

Lemma der_integer_take (l : bytes) (n b : Z) :
  0 < n <= len l →
  py_index l 0 = Ok b → Z.land b 0x80 = 0 →
  (1 < n → b = 0 → ∃ b', py_index l 1 = Ok b' ∧ Z.land b' 0x80 ≠ 0) →
  der_integer_ok (take (Z.to_nat n) l).
Proof.
  intros Hn H0 Hb Hz.
  destruct l as [|x l']; [discriminate|].
  rewrite py_index_cons_0 in H0. injection H0 as <-.
  replace (Z.to_nat n) with (S (Z.to_nat (n - 1))) by lia. simpl.
  split; [done|].
  destruct (decide (n = 1)) as [->|Hne].
  - simpl. done.
  - destruct l' as [|y l'']; [unfold len in Hn; simpl in Hn; lia|].
    replace (Z.to_nat (n - 1)) with (S (Z.to_nat (n - 2))) by lia. simpl.
    intros Hx. destruct Hz as (b' & Hb' & Hh); [lia|done|].
    change (py_index (x :: y :: l'') 1) with (Ok (byte_to_int y)) in Hb'.
    injection Hb' as <-. done.
Qed.

Lemma der_checks_layout (sig : bytes) : der_checks sig → der_layout sig.
Proof.
  intros (r_len & s_len & b4 & b6 & Hls & H0 & H1 & H2 & H3 & H5 & Hsum & Hr & Hs &
          H4 & Hb4 & Hrz & Ht & H6 & Hb6 & Hsz).
  split; [done|].
  destruct sig as [|c0 [|c1 [|c2 [|c3 rest]]]];
    try (unfold len in Hls; simpl in Hls; lia).
  assert (Hlen : len (c0 :: c1 :: c2 :: c3 :: rest) = 4 + len rest)
    by (unfold len; simpl; lia).
  change (py_index (c0 :: c1 :: c2 :: c3 :: rest) 0) with (Ok (byte_to_int c0)) in H0.
  change (py_index (c0 :: c1 :: c2 :: c3 :: rest) 1) with (Ok (byte_to_int c1)) in H1.
  change (py_index (c0 :: c1 :: c2 :: c3 :: rest) 2) with (Ok (byte_to_int c2)) in H2.
  change (py_index (c0 :: c1 :: c2 :: c3 :: rest) 3) with (Ok (byte_to_int c3)) in H3.
  injection H0 as H0. injection H1 as H1. injection H2 as H2. injection H3 as H3.
  apply (byte_to_int_inj c0 x30) in H0. apply (byte_to_int_inj c2 x02) in H2.
  subst c0 c2.
  assert (Hskip : ∀ i, 4 <= i →
            py_index (x30 :: c1 :: x02 :: c3 :: rest) i = py_index rest (i - 4)).
  { intros i Hi.
    change (x30 :: c1 :: x02 :: c3 :: rest) with ([x30; c1; x02; c3] ++ rest).
    rewrite py_index_app_r; [done|]. unfold len; simpl; lia. }
  rewrite Hskip in H5, H4, Ht, H6 by lia.
  rewrite Hlen in *.
  (* r and what follows it *)
  set (r := take (Z.to_nat r_len) rest).
  set (rest2 := drop (Z.to_nat r_len) rest).
  assert (Hrlen : len r = r_len) by (unfold r, len in *; rewrite length_take; lia).
  assert (Hrest2 : len rest2 = s_len + 3)
    by (unfold rest2, len in *; rewrite length_drop; lia).
  rewrite (py_index_drop rest r_len) in H5, Ht, H6 by lia.
  fold rest2 in H5, Ht, H6.
  replace (5 + r_len - 4 - r_len) with 1 in H5 by lia.
  replace (r_len + 4 - 4 - r_len) with 0 in Ht by lia.
  replace (r_len + 6 - 4 - r_len) with 2 in H6 by lia.
  destruct rest2 as [|t [|sl rest3]] eqn:E2;
    try (unfold len in Hrest2; simpl in Hrest2; lia).
  change (py_index (t :: sl :: rest3) 0) with (Ok (byte_to_int t)) in Ht.
  change (py_index (t :: sl :: rest3) 1) with (Ok (byte_to_int sl)) in H5.
  injection Ht as Ht. injection H5 as H5.
  apply (byte_to_int_inj t x02) in Ht. subst t.
  assert (Hrest3 : len rest3 = s_len + 1) by (unfold len in *; simpl in *; lia).
  assert (H6' : py_index rest3 0 = Ok b6).
  { rewrite <- H6. change (x02 :: sl :: rest3) with ([x02; sl] ++ rest3).
    rewrite py_index_app_r; [done|]. unfold len; simpl; lia. }
  set (s := take (Z.to_nat s_len) rest3).
  assert (Hslen : len s = s_len) by (unfold s, len in *; rewrite length_take; lia).
  assert (Hht : ∃ ht, drop (Z.to_nat s_len) rest3 = [ht]).
  { destruct (drop (Z.to_nat s_len) rest3) as [|ht [|? ?]] eqn:D.
    - apply (f_equal length) in D. rewrite length_drop in D. unfold len in *. simpl in D. lia.
    - eauto.
    - apply (f_equal length) in D. rewrite length_drop in D. unfold len in *. simpl in D. lia. }
  destruct Hht as (ht & Hht).
  exists c1, c3, sl, ht, r, s.
  split.
  { simpl. do 4 f_equal.
    rewrite <- (take_drop (Z.to_nat r_len) rest) at 1. fold r. fold rest2. rewrite E2.
    f_equal. simpl. do 2 f_equal.
    rewrite <- (take_drop (Z.to_nat s_len) rest3) at 1. fold s. rewrite Hht. done. }
  split; [lia|]. split; [lia|]. split; [lia|].
  split.
  - apply (der_integer_take rest r_len b4); [lia|done|done|].
    intros G Z0. destruct (Hrz G Z0) as (b5 & Hb5 & Hh).
    exists b5. split; [|done]. rewrite Hskip in Hb5 by lia. done.
  - apply (der_integer_take rest3 s_len b6); [lia|done|done|].
    intros G Z0. destruct (Hsz G Z0) as (b7 & Hb7 & Hh).
    exists b7. split; [|done].
    rewrite Hskip in Hb7 by lia.
    rewrite (py_index_drop rest r_len) in Hb7 by lia.
    fold rest2 in Hb7. rewrite E2 in Hb7.
    replace (r_len + 7 - 4 - r_len) with 3 in Hb7 by lia.
    rewrite <- Hb7. change (x02 :: sl :: rest3) with ([x02; sl] ++ rest3).
    rewrite py_index_app_r; [done|]. unfold len; simpl; lia.
Qed.

Lemma der_layout_checks (sig : bytes) : der_layout sig → der_checks sig.
Proof.
  intros (Hls & ll & rl & sl & ht & r & s & -> & Hll & Hrl & Hsl & Hr & Hs).
  unfold der_checks.
  set (tail := [x02; sl] ++ s ++ [ht]) in *.
  assert (Hlen : len ([x30; ll; x02; rl] ++ r ++ tail) = len r + len s + 7).
  { unfold tail. rewrite !len_app. unfold len. simpl. lia. }
  rewrite Hlen in *.
  assert (Hskip : ∀ i, 4 <= i →
            py_index ([x30; ll; x02; rl] ++ r ++ tail) i = py_index (r ++ tail) (i - 4)).
  { intros i Hi. rewrite py_index_app_r; [done|]. unfold len; simpl; lia. }
  assert (Htail : ∀ i, len r + 4 <= i →
            py_index ([x30; ll; x02; rl] ++ r ++ tail) i = py_index tail (i - 4 - len r)).
  { intros i Hi. pose proof (len_nonneg r). rewrite Hskip by lia.
    rewrite py_index_app_r by lia. done. }
  destruct r as [|x r']; [done|]. destruct s as [|y s']; [done|].
  destruct Hr as (Hx & Hr). destruct Hs as (Hy & Hs).
  pose proof (len_nonneg r'). pose proof (len_nonneg s').
  rewrite !len_cons in *.
  exists (1 + len r'), (1 + len s'), (byte_to_int x), (byte_to_int y).
  split; [done|]. split; [done|].
  split. { change (py_index _ 1) with (Ok (byte_to_int ll)). by rewrite Hll. }
  split; [done|].
  split. { change (py_index _ 3) with (Ok (byte_to_int rl)). by rewrite Hrl. }
  split.
  { rewrite Htail by lia.
    replace (5 + (1 + len r') - 4 - (1 + len r')) with 1 by lia.
    unfold tail. change (py_index _ 1) with (Ok (byte_to_int sl)). by rewrite Hsl. }
  split; [lia|]. split; [lia|]. split; [lia|].
  split; [done|]. split; [done|].
  split.
  { intros G Z0. destruct r' as [|x' r'']; [unfold len in G; simpl in G; lia|].
    exists (byte_to_int x'). split; [done|]. apply Hr. done. }
  split.
  { rewrite Htail by lia. replace (1 + len r' + 4 - 4 - (1 + len r')) with 0 by lia. done. }
  split.
  { rewrite Htail by lia. replace (1 + len r' + 6 - 4 - (1 + len r')) with 2 by lia. done. }
  split; [done|].
  intros G Z0. destruct s' as [|y' s'']; [unfold len in G; simpl in G; lia|].
  exists (byte_to_int y'). split; [|apply Hs; done].
  rewrite Htail by lia. replace (1 + len r' + 7 - 4 - (1 + len r')) with 3 by lia. done.
Qed.

(** C6. [check_valid_signature] accepts a blob exactly when it has the
    DER layout [30 LL 02 rlen r 02 slen s hashtype]: total length from 9 to
    73, leading SEQUENCE tag 0x30, LL equal to the total length minus 3,
    INTEGER tag 0x02 in front of r and of s, and r and s not empty, with
    the high bit of their first byte clear and without a superfluous
    leading zero byte.  Every blob of 8 bytes is rejected, and the 9-byte
    blob with r = 1 and s = 1 is accepted. *)
Theorem check_valid_signature_der_layout :
  (∀ sig : bytes, check_valid_signature sig = Ok tt ↔ der_layout sig) ∧
  (∀ sig : bytes, len sig = 8 →
     check_valid_signature sig = Raise (ScriptError "bad signature size")) ∧
  check_valid_signature minimal_signature_blob = Ok tt ∧
  len minimal_signature_blob = 9.
Proof.
  split; [|split; [|split]].
  - intros sig. split.
    + intros H. apply der_checks_layout, check_valid_signature_Ok, H.
    + intros H. apply check_valid_signature_complete, der_layout_checks, H.
  - intros sig H8. unfold check_valid_signature. rewrite H8. done.
  - reflexivity.
  - reflexivity.
Qed.

Lemma check_valid_signature_der_layout_witness :
  der_layout minimal_signature_blob ∧
  check_valid_signature (minimal_signature_blob ++ [x00]) ≠ Ok tt ∧
  check_valid_signature (take 8 minimal_signature_blob)
    = Raise (ScriptError "bad signature size").
Proof.
  split; [|split].
  - apply (proj1 check_valid_signature_der_layout minimal_signature_blob). reflexivity.
  - vm_compute. discriminate.
  - apply (proj1 (proj2 check_valid_signature_der_layout)). reflexivity.
Defined.

(** ** The low-S check *)

Lemma check_low_der_signature_eq `{C : Collaborators} (r s : Z) :
  check_low_der_signature (r, s) =
    if secp256k1_p - s <? s then Raise (ScriptError "signature has high S value") else Ok tt.
Proof. reflexivity. Qed.

(** The two instances do not depend on the exact constant: they hold for
    every modulus from 2 up to twice the group order minus 3. *)
Lemma check_low_der_signature_instances `{C : Collaborators} (r : Z) :
  2 <= secp256k1_p < 2 * secp256k1_order - 2 →
  check_low_der_signature (r, secp256k1_order - 1)
    = Raise (ScriptError "signature has high S value") ∧
  check_low_der_signature (r, 1) = Ok tt.
Proof.
  intros Hp. rewrite !check_low_der_signature_eq. split.
  - destruct (Z.ltb_spec (secp256k1_p - (secp256k1_order - 1)) (secp256k1_order - 1));
      [done|lia].
  - destruct (Z.ltb_spec (secp256k1_p - 1) 1); [lia|done].
Qed.

(** C1. [check_low_der_signature] fails exactly when s exceeds [_p - s]
    for the imported constant [_p].  That is the test "s lies in the
    upper half of the group order n" if and only if [_p] is n or n - 1.
    With [_p] the prime of the field, which is above n, the check accepts
    every s up to half that prime, among them s = n/2 + 1, a value in
    the upper half of the order; s = n - 1 still fails and s = 1 still
    passes. *)
Theorem check_low_der_signature_field_prime `{C : Collaborators} (r : Z) :
  ((∀ s, check_low_der_signature (r, s)
           = Raise (ScriptError "signature has high S value")
         ↔ secp256k1_order - s < s)
   ↔ secp256k1_p = secp256k1_order ∨ secp256k1_p = secp256k1_order - 1) ∧
  (secp256k1_p = secp256k1_field_prime →
   let s := secp256k1_order / 2 + 1 in
   secp256k1_order - s < s ∧
   check_low_der_signature (r, s) = Ok tt ∧
   (∀ s', s' <= secp256k1_field_prime - s' → check_low_der_signature (r, s') = Ok tt) ∧
   check_low_der_signature (r, secp256k1_order - 1)
     = Raise (ScriptError "signature has high S value") ∧
   check_low_der_signature (r, 1) = Ok tt).
Proof.
  assert (Hfp : secp256k1_order < secp256k1_field_prime < 2 * secp256k1_order - 2)
    by (vm_compute; split; reflexivity).
  assert (Hn : ∃ h, secp256k1_order / 2 = h ∧ secp256k1_order = 2 * h + 1 ∧ 1 <= h).
  { eexists. split; [reflexivity|]. vm_compute. split; [reflexivity|discriminate]. }
  destruct Hn as (h & Hh & Hn & Hpos).
  split.
  - split.
    + intros Hall. pose proof (Hall (h + 1)) as H1. pose proof (Hall h) as H0.
      rewrite check_low_der_signature_eq in H1, H0.
      destruct (Z.ltb_spec (secp256k1_p - (h + 1)) (h + 1)) as [A|A].
      * destruct (Z.ltb_spec (secp256k1_p - h) h) as [B|B]; [|lia].
        exfalso. apply proj1 in H0. specialize (H0 eq_refl). lia.
      * exfalso. apply proj2 in H1. assert (Ok tt = Raise (ScriptError
          "signature has high S value") :> result unit) by (apply H1; lia).
        discriminate.
    + intros Hp s. rewrite check_low_der_signature_eq.
      destruct (Z.ltb_spec (secp256k1_p - s) s); split; intros; try done; lia.
  - intros Hp. cbv zeta.
    destruct (check_low_der_signature_instances r) as (Hhigh & Hlow); [lia|].
    rewrite Hh. split; [lia|]. split; [|split; [|done]].
    + rewrite check_low_der_signature_eq.
      destruct (Z.ltb_spec (secp256k1_p - (h + 1)) (h + 1)); [lia|done].
    + intros s' Hs'. rewrite check_low_der_signature_eq.
      destruct (Z.ltb_spec (secp256k1_p - s') s'); [lia|done].
Qed.

Lemma check_low_der_signature_field_prime_witness :
  secp256k1_order - (secp256k1_order / 2 + 1) < secp256k1_order / 2 + 1 ∧
  check_low_der_signature (C:=field_prime_collaborators) (1, secp256k1_order / 2 + 1)
    = Ok tt.
Proof.
  destruct (check_low_der_signature_field_prime (C:=field_prime_collaborators) 1)
    as (_ & H).
  destruct (H eq_refl) as (Hhigh & Hok & _).
  split; [exact Hhigh | exact Hok].
Defined.

(** ** The single-signature opcode *)

Lemma pop_snoc (l : list bytes) (x : bytes) : pop (l ++ [x]) = Ok (x, l).
Proof. unfold pop. rewrite reverse_snoc, reverse_involutive. done. Qed.

Lemma pop_Ok_inv (stack l : list bytes) (x : bytes) :
  pop stack = Ok (x, l) → stack = l ++ [x].
Proof.
  unfold pop. destruct (reverse stack) as [|y r] eqn:E; [discriminate|].
  intros [= -> <-]. rewrite <- (reverse_involutive stack), E, reverse_cons. done.
Qed.

Lemma py_index_in_range (s : bytes) (i : Z) :
  0 <= i < len s → ∃ v, py_index s i = Ok v.
Proof.
  intros Hi. unfold py_index. rewrite bool_decide_eq_true_2 by lia.
  destruct (s !! Z.to_nat i) eqn:E; [eauto|].
  apply lookup_ge_None in E. unfold len in Hi. lia.
Qed.

Lemma check_public_key_encoding_raises (blob : bytes) :
  check_public_key_encoding blob ≠ Ok tt →
  check_public_key_encoding blob = Raise (ScriptError "invalid public key blob").
Proof.
  unfold check_public_key_encoding.
  destruct (Z.geb_spec (len blob) 33) as [Hl|]; [|done].
  destruct (py_index_in_range blob 0) as (fb & ->); [lia|].
  cbn [mbind result_bind].
  repeat match goal with |- context [if ?c then _ else _] => destruct c end; done.
Qed.

(** Two steps of a computation that ended in an exception: a test that
    raises a ScriptError, and an index access known to be in range. *)
Tactic Notation "step_test" hyp(H) "as" ident(Hc) :=
  match type of H with
  | mbind _ (raise_if ?c ?m) = Raise _ =>
      destruct c eqn:Hc; cbn [raise_if mbind result_bind] in H;
      [injection H as <-; eexists; reflexivity | ]
  | raise_if ?c ?m = Raise _ =>
      destruct c eqn:Hc; cbn [raise_if mbind result_bind] in H;
      [injection H as <-; eexists; reflexivity | discriminate H]
  end.

Tactic Notation "step_index" hyp(H) "as" ident(v) ident(Hv) :=
  match type of H with
  | mbind _ (py_index ?s ?i) = Raise _ =>
      destruct (py_index_in_range s i) as (v & Hv);
      [ | rewrite Hv in H; cbn [mbind result_bind] in H ]
  end.

Tactic Notation "step_index_at" hyp(H) constr(s) constr(i) "as" ident(v) ident(Hv) :=
  destruct (py_index_in_range s i) as (v & Hv);
  [ | rewrite Hv in H; cbn [mbind result_bind] in H ].

Lemma py_index_value_range (s : bytes) (i v : Z) : py_index s i = Ok v → 0 <= v < 256.
Proof. intros (_ & b & _ & ->)%py_index_Ok_iff. apply byte_to_int_range. Qed.

(** Every failure of [check_valid_signature] is a ScriptError: none of
    its index accesses leaves the blob. *)
Lemma check_valid_signature_raises (sig : bytes) (e : exn) :
  check_valid_signature sig = Raise e → ∃ msg, e = ScriptError msg.
Proof.
  intros H. unfold check_valid_signature in H.
  step_test H as Hsize. bool_to_Prop.
  step_index H as b0 K0; [lia|]. step_test H as Hb0.
  step_index H as b1 K1; [lia|]. step_test H as Hb1.
  step_index H as r_len K3; [lia|]. step_test H as Hr.
  pose proof (py_index_value_range _ _ _ K3). bool_to_Prop.
  step_index H as s_len K5; [lia|]. step_test H as Hrs.
  pose proof (py_index_value_range _ _ _ K5). bool_to_Prop.
  step_index H as b2 K2; [lia|]. step_test H as Hb2. step_test H as Hr0.
  step_index H as b4 K4; [lia|]. step_test H as Hb4.
  bool_to_Prop.
  destruct (r_len >? 1) eqn:Gr.
  - destruct (b4 =? 0) eqn:Z4.
    + step_index_at H sig 5 as b5 K5b; [lia|]. step_test H as Hrz.
      step_index H as t Kt; [lia|]. step_test H as Ht'. step_test H as Hs0.
      bool_to_Prop.
      step_index H as b6 K6; [lia|]. step_test H as Hb6.
      destruct (s_len >? 1) eqn:Gs.
      * destruct (b6 =? 0) eqn:Z6.
        -- step_index_at H sig (r_len + 7) as b7 K7; [bool_to_Prop; lia|]. step_test H as Hsz.
        -- cbn [mbind result_bind] in H. step_test H as Hsz.
      * cbn [mbind result_bind] in H. step_test H as Hsz.
    + cbn [mbind result_bind] in H. step_test H as Hrz.
      step_index H as t Kt; [lia|]. step_test H as Ht'. step_test H as Hs0.
      bool_to_Prop.
      step_index H as b6 K6; [lia|]. step_test H as Hb6.
      destruct (s_len >? 1) eqn:Gs.
      * destruct (b6 =? 0) eqn:Z6.
        -- step_index_at H sig (r_len + 7) as b7 K7; [bool_to_Prop; lia|]. step_test H as Hsz.
        -- cbn [mbind result_bind] in H. step_test H as Hsz.
      * cbn [mbind result_bind] in H. step_test H as Hsz.
  - cbn [mbind result_bind] in H. step_test H as Hrz.
    step_index H as t Kt; [lia|]. step_test H as Ht'. step_test H as Hs0.
    bool_to_Prop.
    step_index H as b6 K6; [lia|]. step_test H as Hb6.
    destruct (s_len >? 1) eqn:Gs.
    * destruct (b6 =? 0) eqn:Z6.
      -- step_index_at H sig (r_len + 7) as b7 K7; [bool_to_Prop; lia|]. step_test H as Hsz.
      -- cbn [mbind result_bind] in H. step_test H as Hsz.
    * cbn [mbind result_bind] in H. step_test H as Hsz.
Qed.

(** Under any of the flags DERSIG, LOW_S and STRICTENC a failure of the
    DER layout check is the failure of [parse_signature_blob]. *)
Lemma parse_signature_blob_grammar_failure `{C : Collaborators}
    (sig_blob : bytes) (flags : Z) (e : exn) :
  sig_blob ≠ [] →
  truthy (Z.land flags (Z.lor (Z.lor VERIFY_DERSIG VERIFY_LOW_S) VERIFY_STRICTENC)) = true →
  check_valid_signature sig_blob = Raise e →
  parse_signature_blob sig_blob flags = Raise e.
Proof.
  intros Hne Hfl Hchk. unfold parse_signature_blob.
  destruct (Z.eqb_spec (len sig_blob) 0) as [E|_]; [apply len_nil_iff in E; done|].
  rewrite Hfl, Hchk. done.
Qed.

(** C2 (as stated, refuted). With the DER flag set, a signature blob that
    fails the DER grammar is not answered by pushing false: the ScriptError
    of [check_valid_signature] leaves [op_checksig]. *)
Lemma op_checksig_der_grammar_failure_aborts :
  check_valid_signature [x01] = Raise (ScriptError "bad signature size") ∧
  op_checksig (C:=mock_collaborators) [[x01]; [x02; x03]] (fun _ _ => 0) None []
    VERIFY_DERSIG = Raise (ScriptError "bad signature size") ∧
  op_checksig (C:=mock_collaborators) [[x01]; [x02; x03]] (fun _ _ => 0) None []
    VERIFY_DERSIG ≠ Ok [VCH_FALSE].
Proof. vm_compute. repeat split. discriminate. Qed.

(** C2 (amended). In [op_checksig], on a stack whose two top elements are a
    signature blob and, above it, a public-key blob:
    - with the strict-encoding flag set, a mis-encoded public key aborts
      the evaluation with a ScriptError;
    - a failure signalled by UnexpectedDER, ValueError or EncodingError,
      raised while the signature blob is parsed or the public pair is
      decoded, is recoverable: false is pushed and evaluation goes on;
    - a ScriptError raised while the signature blob is parsed aborts the
      evaluation; this is what a DER grammar failure found by
      [check_valid_signature] is, once one of the flags DERSIG, LOW_S,
      STRICTENC has it run. *)
Theorem op_checksig_recoverable_and_fatal `{C : Collaborators}
    (stack : list bytes) (sig_blob pair_blob : bytes)
    (signature_for_hash_type_f : Z → bytes → Z) (expected_hash_type : option Z)
    (tmp_script : bytes) (flags : Z) :
  let run := op_checksig (stack ++ [sig_blob; pair_blob]) signature_for_hash_type_f
               expected_hash_type tmp_script flags in
  let strict := truthy (Z.land flags VERIFY_STRICTENC) in
  (strict = true → check_public_key_encoding pair_blob ≠ Ok tt →
     run = Raise (ScriptError "invalid public key blob")) ∧
  ((strict = true → check_public_key_encoding pair_blob = Ok tt) →
     (∀ e, op_checksig_catches e = true →
        parse_signature_blob sig_blob flags = Raise e ∨
        (is_Ok (parse_signature_blob sig_blob flags) = true ∧
         sec_to_public_pair pair_blob strict = Raise e) →
        run = Ok (stack ++ [VCH_FALSE])) ∧
     (∀ msg, parse_signature_blob sig_blob flags = Raise (ScriptError msg) →
        run = Raise (ScriptError msg)) ∧
     (∀ e, sig_blob ≠ [] →
        truthy (Z.land flags (Z.lor (Z.lor VERIFY_DERSIG VERIFY_LOW_S) VERIFY_STRICTENC))
          = true →
        check_valid_signature sig_blob = Raise e →
        ∃ msg, e = ScriptError msg ∧ run = Raise (ScriptError msg))).
Proof.
  intros run strict.
  assert (Hrun : run =
    let try_block :=
      (if strict then check_public_key_encoding pair_blob else Ok tt)
      ≫= λ _, parse_signature_blob sig_blob flags
      ≫= λ '(sig_pair, signature_type),
           sec_to_public_pair pair_blob strict
           ≫= λ public_pair, Ok (sig_pair, signature_type, public_pair) in
    match try_block with
    | Raise e => if op_checksig_catches e then Ok (stack ++ [VCH_FALSE]) else Raise e
    | Ok (sig_pair, signature_type, public_pair) =>
        if bool_decide (expected_hash_type ≠ None ∧
                        expected_hash_type ≠ Some signature_type)
        then Raise (ScriptError "wrong hash type")
        else
          bin_script [sig_blob] ≫= λ sub,
          delete_subscript tmp_script sub ≫= λ tmp_script,
          if ecdsa_verify public_pair
               (signature_for_hash_type_f signature_type tmp_script) sig_pair
          then Ok (stack ++ [VCH_TRUE]) else Ok (stack ++ [VCH_FALSE])
    end).
  { unfold run, op_checksig.
    replace (stack ++ [sig_blob; pair_blob]) with ((stack ++ [sig_blob]) ++ [pair_blob])
      by (rewrite <- app_assoc; done).
    rewrite pop_snoc. cbn [mbind result_bind]. rewrite pop_snoc. done. }
  assert (Hparse : (strict = true → check_public_key_encoding pair_blob = Ok tt) →
            ∀ e, parse_signature_blob sig_blob flags = Raise e →
                 run = if op_checksig_catches e then Ok (stack ++ [VCH_FALSE]) else Raise e).
  { intros Hpk e He. rewrite Hrun. cbv zeta.
    destruct strict; [rewrite Hpk by done|]; cbn [mbind result_bind]; rewrite He; done. }
  split; [|intros Hpk; split; [|split]].
  - intros Hs Hbad. rewrite Hrun. cbv zeta. rewrite Hs.
    rewrite (check_public_key_encoding_raises _ Hbad). done.
  - intros e Hc [He|[Hok He]].
    + rewrite (Hparse Hpk e He), Hc. done.
    + rewrite Hrun. cbv zeta.
      destruct strict; [rewrite Hpk by done|]; cbn [mbind result_bind];
        (destruct (parse_signature_blob sig_blob flags) as [[sp st]|]; [|discriminate]);
        cbn [mbind result_bind]; rewrite He; cbn [mbind result_bind]; rewrite Hc; done.
  - intros msg He. rewrite (Hparse Hpk _ He). done.
  - intros e Hne Hfl Hchk.
    destruct (check_valid_signature_raises _ _ Hchk) as (msg & ->).
    exists msg. split; [done|].
    rewrite (Hparse Hpk _ (parse_signature_blob_grammar_failure _ _ _ Hne Hfl Hchk)). done.
Qed.

Lemma op_checksig_recoverable_and_fatal_witness :
  op_checksig (C:=mock_collaborators) ([] ++ [[x01]; replicate 33 x09]) (fun _ _ => 0)
    None [] VERIFY_STRICTENC = Raise (ScriptError "invalid public key blob") ∧
  op_checksig (C:=mock_collaborators) ([] ++ [[x01]; [x02; x03]]) (fun _ _ => 0)
    None [] 0 = Ok ([] ++ [VCH_FALSE]) ∧
  op_checksig (C:=mock_collaborators) ([] ++ [[x07; x01]; [x02]]) (fun _ _ => 0)
    None [] 0 = Ok ([] ++ [VCH_FALSE]) ∧
  op_checksig (C:=mock_collaborators) ([] ++ [[x01]; [x02; x03]]) (fun _ _ => 0)
    None [] VERIFY_DERSIG = Raise (ScriptError "bad signature size").
Proof.
  split; [|split; [|split]].
  - refine (proj1 (op_checksig_recoverable_and_fatal (C:=mock_collaborators)
             [] [x01] (replicate 33 x09) (fun _ _ => 0) None [] VERIFY_STRICTENC) _ _).
    + reflexivity.
    + vm_compute. discriminate.
  - refine (proj1 (proj2 (op_checksig_recoverable_and_fatal (C:=mock_collaborators)
             [] [x01] [x02; x03] (fun _ _ => 0) None [] 0) _) UnexpectedDER eq_refl _).
    + vm_compute. discriminate.
    + left. reflexivity.
  - refine (proj1 (proj2 (op_checksig_recoverable_and_fatal (C:=mock_collaborators)
             [] [x07; x01] [x02] (fun _ _ => 0) None [] 0) _) EncodingError eq_refl _).
    + vm_compute. discriminate.
    + right. split; reflexivity.
  - refine (proj1 (proj2 (proj2 (op_checksig_recoverable_and_fatal (C:=mock_collaborators)
             [] [x01] [x02; x03] (fun _ _ => 0) None [] VERIFY_DERSIG) _)) _ _).
    + vm_compute. discriminate.
    + reflexivity.
Defined.

(** ** The multisig matcher *)

Section Matcher.
Context `{C : Collaborators}.
Variables (public_pair_blobs : list bytes) (tmp_script : bytes)
          (signature_for_hash_type_f : Z → bytes → Z) (flags : Z).

(** The inner scan returns an index that is not yet in the list. *)
Lemma scan_public_pair_blobs_fresh (strict : bool) (ppp : list (Z * Z))
    (indices : list Z) (idx i : Z) (blobs : list bytes) :
  scan_public_pair_blobs strict ppp indices idx blobs = Ok (Some i) →
  (i ∉ indices) ∧ idx <= i < idx + len blobs.
Proof.
  revert idx. induction blobs as [|ppb rest IH]; intros idx; cbn [scan_public_pair_blobs].
  - discriminate.
  - rewrite len_cons. pose proof (len_nonneg rest) as Hrest.
    case_bool_decide as Hin.
    + intros H. apply IH in H. split; [tauto|lia].
    + destruct (if strict then check_public_key_encoding ppb else Ok tt); [|discriminate].
      cbn [mbind result_bind].
      destruct (sec_to_public_pair ppb strict) as [p|e]; cbn [mbind result_bind].
      * destruct (bool_decide (p ∈ ppp)).
        -- intros [= <-]. split; [done|lia].
        -- intros H. apply IH in H. split; [tauto|lia].
      * destruct e; cbn [mbind result_bind]; try discriminate.
        intros H. apply IH in H. split; [tauto|lia].
Qed.

(** One round of the main loop, whatever the mode: it raises, or appends
    one index [x] (the sentinel, or a key index not recorded before), or
    appends nothing.  In early-exit mode the function returns right after
    a sentinel, after an index not above its predecessor, and after a
    round that appends nothing. *)
Lemma sig_blob_matches_loop_cons (sig_blob : bytes) (rest : list bytes)
    (sig_cache : gmap Z Z) (indices : list Z) :
  let run early cache acc l :=
    sig_blob_matches_loop l public_pair_blobs tmp_script signature_for_hash_type_f
      flags early cache acc in
  ∃ cache',
    (∃ e, ∀ early, run early sig_cache indices (sig_blob :: rest) = Raise e) ∨
    (∃ x, (x = -1 ∨ (0 <= x ∧ x ∉ indices)) ∧
       ∀ early, run early sig_cache indices (sig_blob :: rest) =
         if early && ((x =? -1) ||
                      ((len (indices ++ [x]) >? 1) && last_le_previous (indices ++ [x])))
         then Ok (indices ++ [x])
         else run early cache' (indices ++ [x]) rest) ∨
    (∀ early, run early sig_cache indices (sig_blob :: rest) =
       if early then Ok indices else run early cache' indices rest).
Proof.
  intros run. unfold run. cbn [sig_blob_matches_loop].
  destruct (parse_signature_blob sig_blob flags) as [[sig_pair signature_type]|e].
  - set (cache' := match sig_cache !! signature_type with
                   | Some _ => sig_cache
                   | None => <[signature_type:=
                       signature_for_hash_type_f signature_type tmp_script]> sig_cache
                   end).
    exists cache'.
    destruct (cache' !! signature_type) as [h|]; [|left; eauto].
    destruct (possible_public_pairs_for_signature h sig_pair) as [ppp|e];
      cbn [mbind result_bind].
    + destruct (len ppp >? 0); [|right; right; done].
      destruct (scan_public_pair_blobs _ ppp indices 0 public_pair_blobs)
        as [[x|]|e] eqn:Hscan; cbn [mbind result_bind default].
      * apply scan_public_pair_blobs_fresh in Hscan as (Hfresh & Hx & _).
        right; left. exists x. split; [right; done|].
        intros early. rewrite bool_decide_eq_false_2 by done.
        destruct (Z.eqb_spec x (-1)); [lia|].
        unfold id. destruct early, (len (indices ++ [x]) >? 1), (last_le_previous (indices ++ [x])); done.
      * right; left. exists (-1). split; [left; done|].
        intros early. rewrite bool_decide_eq_true_2 by done.
        destruct early, (len (indices ++ [-1]) >? 1), (last_le_previous (indices ++ [-1])); done.
      * left. eauto.
    + destruct e; cbn [mbind result_bind]; try (left; eauto; fail).
      right; right. done.
  - exists sig_cache.
    destruct e; try (left; eauto; fail).
    right; left. exists (-1). split; [left; done|].
    intros early. destruct early; done.
Qed.

(** The result extends the list the loop started from, by at most one
    entry per signature blob. *)
Lemma sig_blob_matches_loop_extends (sig_blobs : list bytes) (early : bool)
    (sig_cache : gmap Z Z) (indices l : list Z) :
  sig_blob_matches_loop sig_blobs public_pair_blobs tmp_script
    signature_for_hash_type_f flags early sig_cache indices = Ok l →
  ∃ new, l = indices ++ new ∧ (length new <= length sig_blobs)%nat.
Proof.
  revert sig_cache indices. induction sig_blobs as [|sb rest IH]; intros cache acc.
  - intros [= <-]. exists []. rewrite app_nil_r. done.
  - destruct (sig_blob_matches_loop_cons sb rest cache acc)
      as (cache' & [(e & H)|[(x & _ & H)|H]]); rewrite H; clear H.
    + discriminate.
    + destruct (_ && _).
      * intros [= <-]. exists [x]. split; [done|simpl; lia].
      * intros (new & -> & Hn)%IH. exists (x :: new).
        rewrite <- app_assoc. split; [done|simpl; lia].
    + destruct early.
      * intros [= <-]. exists []. rewrite app_nil_r. split; [done|simpl; lia].
      * intros (new & -> & Hn)%IH. exists new. split; [done|simpl; lia].
Qed.

Lemma filter_matched_snoc (l : list Z) (x : Z) :
  NoDup (filter (λ i, i ≠ -1) l) → x = -1 ∨ x ∉ l →
  NoDup (filter (λ i, i ≠ -1) (l ++ [x])).
Proof.
  intros Hnd Hx. rewrite filter_app.
  destruct (decide (x = -1)) as [->|Hne].
  - rewrite filter_cons_False by (intros H; apply H; done).
    rewrite filter_nil, app_nil_r. done.
  - rewrite filter_cons_True by done. rewrite filter_nil.
    apply NoDup_app. split; [done|]. split; [|apply NoDup_singleton].
    intros y Hy ->%list_elem_of_singleton.
    apply list_elem_of_filter in Hy as (_ & Hy). destruct Hx as [?|Hx]; done.
Qed.

Lemma sig_blob_matches_loop_distinct (sig_blobs : list bytes) (early : bool)
    (sig_cache : gmap Z Z) (indices l : list Z) :
  sig_blob_matches_loop sig_blobs public_pair_blobs tmp_script
    signature_for_hash_type_f flags early sig_cache indices = Ok l →
  NoDup (filter (λ i, i ≠ -1) indices) → NoDup (filter (λ i, i ≠ -1) l).
Proof.
  revert sig_cache indices. induction sig_blobs as [|sb rest IH]; intros cache acc.
  - intros [= <-]. done.
  - destruct (sig_blob_matches_loop_cons sb rest cache acc)
      as (cache' & [(e & H)|[(x & Hx & H)|H]]); rewrite H; clear H.
    + discriminate.
    + assert (x = -1 ∨ x ∉ acc) as Hx' by tauto.
      destruct (_ && _).
      * intros [= <-] Hnd. by apply filter_matched_snoc.
      * intros Hl Hnd. apply (IH _ _ Hl). by apply filter_matched_snoc.
    + destruct early.
      * intros [= <-]. done.
      * apply IH.
Qed.

End Matcher.

Lemma NoDup_filter_lookup (l : list Z) (i j : nat) (a : Z) :
  NoDup (filter (λ i, i ≠ -1) l) →
  l !! i = Some a → l !! j = Some a → a ≠ -1 → i = j.
Proof.
  revert i j. induction l as [|x l IH]; intros i j Hnd Hi Hj Ha; [done|].
  assert (Hin : ∀ k, l !! k = Some a → a ∈ filter (λ i, i ≠ -1) l).
  { intros k Hk. apply list_elem_of_filter. split; [done|].
    apply list_elem_of_lookup. eauto. }
  destruct (decide (x = -1)) as [->|Hx].
  - rewrite filter_cons_False in Hnd by (intros H; apply H; done).
    destruct i as [|i], j as [|j]; simpl in *; try congruence.
    f_equal. eauto.
  - rewrite filter_cons_True in Hnd by done. apply NoDup_cons in Hnd as (Hnin & Hnd).
    destruct i as [|i], j as [|j]; simpl in *.
    + done.
    + injection Hi as ->. exfalso. apply Hnin. eauto.
    + injection Hj as ->. exfalso. apply Hnin. eauto.
    + f_equal. eauto.
Qed.

(** C10. In both modes, the list of indices returned by [sig_blob_matches]
    never holds the same public-key index at two positions: two entries
    that are equal and are not the sentinel -1 sit at the same position. *)
Theorem sig_blob_matches_indices_distinct `{C : Collaborators}
    (sig_blobs public_pair_blobs : list bytes) (tmp_script : bytes)
    (signature_for_hash_type_f : Z → bytes → Z) (flags : Z) (exit_early : bool)
    (indices : list Z) :
  sig_blob_matches sig_blobs public_pair_blobs tmp_script signature_for_hash_type_f
    flags exit_early = Ok indices →
  NoDup (filter (λ i, i ≠ -1) indices) ∧
  ∀ (i j : nat) (a : Z),
    indices !! i = Some a → indices !! j = Some a → a ≠ -1 → i = j.
Proof.
  unfold sig_blob_matches. intros H.
  destruct (drop_signatures sig_blobs tmp_script) as [tmp'|]; [|discriminate].
  cbn [mbind result_bind] in H.
  apply sig_blob_matches_loop_distinct in H; [|apply NoDup_nil_2].
  split; [done|]. intros i j a. by apply NoDup_filter_lookup.
Qed.

Lemma sig_blob_matches_indices_distinct_witness :
  sig_blob_matches (C:=mock_collaborators) [[x05; x01]; [x05; x01]; [x09; x01]]
    [[x02; x05]; [x02; x05]] [] (fun _ _ => 0) 0 false = Ok [0; 1; -1] ∧
  NoDup (filter (λ i, i ≠ -1) [0; 1; -1]).
Proof.
  split.
  - vm_compute. reflexivity.
  - apply (sig_blob_matches_indices_distinct (C:=mock_collaborators)
             [[x05; x01]; [x05; x01]; [x09; x01]] [[x02; x05]; [x02; x05]] []
             (fun _ _ => 0) 0 false [0; 1; -1]).
    vm_compute. reflexivity.
Defined.

(** ** The multisig opcode *)

Lemma strictly_increasing_sorted (l : list Z) :
  strictly_increasing l = true ↔ StronglySorted Z.lt l.
Proof.
  induction l as [|a [|b r] IH].
  - split; [constructor|done].
  - split; [repeat constructor|done].
  - change (strictly_increasing (a :: b :: r))
      with (if a >=? b then false else strictly_increasing (b :: r)).
    rewrite Z.geb_leb. destruct (Z.leb_spec b a) as [Hle|Hlt].
    + split; [done|]. intros Hs. apply StronglySorted_inv in Hs as (_ & Hall).
      apply Forall_cons in Hall as (? & _). lia.
    + rewrite IH. split.
      * intros Hs. constructor; [done|].
        apply Forall_cons. split; [done|].
        apply StronglySorted_inv in Hs as (_ & Hall).
        eapply Forall_impl; [exact Hall|]. intros; simpl in *; lia.
      * intros Hs. apply StronglySorted_inv in Hs as (? & _). done.
Qed.

Lemma strictly_increasing_app_l (p q : list Z) :
  strictly_increasing (p ++ q) = true → strictly_increasing p = true.
Proof.
  rewrite !strictly_increasing_sorted. revert q.
  induction p as [|a p IH]; intros q Hs; [constructor|].
  simpl in Hs. apply StronglySorted_inv in Hs as (Hs & Hall).
  constructor; [eauto|]. apply Forall_app in Hall as (? & _). done.
Qed.

Lemma last_le_previous_snoc2 (p : list Z) (b a : Z) :
  last_le_previous (p ++ [b; a]) = (a <=? b).
Proof. unfold last_le_previous. rewrite reverse_app. done. Qed.

Lemma strictly_increasing_last (l : list Z) :
  strictly_increasing l = true → last_le_previous l = false.
Proof.
  destruct l as [|a l _] using rev_ind; [done|].
  destruct l as [|b p _] using rev_ind; [done|].
  rewrite <- app_assoc. change ([b] ++ [a]) with [b; a].
  rewrite last_le_previous_snoc2, strictly_increasing_sorted.
  intros Hs. apply Z.leb_gt.
  induction p as [|x p IH]; simpl in Hs.
  - apply StronglySorted_inv in Hs as (_ & Hall).
    apply Forall_cons in Hall as (? & _). done.
  - apply StronglySorted_inv in Hs as (? & _). eauto.
Qed.

Section MultisigOpcode.
Context `{C : Collaborators}.
Variables (public_pair_blobs : list bytes) (tmp_script : bytes)
          (signature_for_hash_type_f : Z → bytes → Z) (flags : Z).

(** An early-exit run that recorded one entry per signature is the full run. *)
Lemma early_exit_complete_is_full (sig_blobs : list bytes) (cache : gmap Z Z)
    (acc l : list Z) :
  sig_blob_matches_loop sig_blobs public_pair_blobs tmp_script
    signature_for_hash_type_f flags true cache acc = Ok l →
  length l = (length acc + length sig_blobs)%nat →
  sig_blob_matches_loop sig_blobs public_pair_blobs tmp_script
    signature_for_hash_type_f flags false cache acc = Ok l.
Proof.
  revert cache acc. induction sig_blobs as [|sb rest IH]; intros cache acc.
  - done.
  - destruct (sig_blob_matches_loop_cons public_pair_blobs tmp_script
                signature_for_hash_type_f flags sb rest cache acc)
      as (cache' & [(e & H)|[(x & _ & H)|H]]); rewrite !H; clear H.
    + discriminate.
    + cbn [andb]. destruct (_ || _).
      * intros [= <-]. rewrite length_app. simpl. intros Hlen.
        destruct rest; [done|simpl in Hlen; lia].
      * intros Hl Hlen. apply IH; [done|]. rewrite length_app. simpl in *. lia.
    + intros [= <-]. simpl. lia.
Qed.

(** A full run whose result has one entry per signature, no sentinel and
    strictly increasing indices is also what the early-exit run returns. *)
Lemma full_in_order_is_early_exit (sig_blobs : list bytes) (cache : gmap Z Z)
    (acc l : list Z) :
  sig_blob_matches_loop sig_blobs public_pair_blobs tmp_script
    signature_for_hash_type_f flags false cache acc = Ok l →
  length l = (length acc + length sig_blobs)%nat →
  (-1) ∉ l → strictly_increasing l = true →
  sig_blob_matches_loop sig_blobs public_pair_blobs tmp_script
    signature_for_hash_type_f flags true cache acc = Ok l.
Proof.
  revert cache acc. induction sig_blobs as [|sb rest IH]; intros cache acc.
  - done.
  - destruct (sig_blob_matches_loop_cons public_pair_blobs tmp_script
                signature_for_hash_type_f flags sb rest cache acc)
      as (cache' & [(e & H)|[(x & Hx & H)|H]]); rewrite !H; clear H.
    + discriminate.
    + cbn [andb]. intros Hl Hlen Hno Hinc.
      destruct (sig_blob_matches_loop_extends _ _ _ _ _ _ _ _ _ Hl) as (new & -> & Hn).
      assert (Hcont : (x =? -1) || (len (acc ++ [x]) >? 1) && last_le_previous (acc ++ [x])
                      = false).
      { apply orb_false_iff. split.
        - apply Z.eqb_neq. intros ->. apply Hno.
          apply elem_of_app. left. apply elem_of_app. right. by apply list_elem_of_singleton.
        - apply andb_false_iff. right.
          apply strictly_increasing_last. by apply strictly_increasing_app_l in Hinc. }
      rewrite Hcont. apply IH; try done.
      rewrite Hlen, length_app. simpl. lia.
    + intros Hl Hlen.
      destruct (sig_blob_matches_loop_extends _ _ _ _ _ _ _ _ _ Hl) as (new & -> & Hn).
      rewrite length_app in Hlen. simpl in Hlen. lia.
Qed.


Lemma scan_public_pair_blobs_total (strict : bool) (ppp : list (Z * Z))
    (indices : list Z) (idx : Z) (blobs : list bytes) :
  (∀ ppb, ppb ∈ blobs →
     (strict = true → check_public_key_encoding ppb = Ok tt) ∧
     (is_Ok (sec_to_public_pair ppb strict) = true ∨
      sec_to_public_pair ppb strict = Raise EncodingError)) →
  ∃ found, scan_public_pair_blobs strict ppp indices idx blobs = Ok found.
Proof.
  revert idx. induction blobs as [|ppb rest IH]; intros idx Hall; cbn [scan_public_pair_blobs].
  - eauto.
  - assert (Hrest : ∀ p, p ∈ rest →
              (strict = true → check_public_key_encoding p = Ok tt) ∧
              (is_Ok (sec_to_public_pair p strict) = true ∨
               sec_to_public_pair p strict = Raise EncodingError)).
    { intros p Hp. apply Hall. by apply elem_of_cons; right. }
    destruct (Hall ppb) as (Henc & Hsec); [by apply elem_of_cons; left|].
    case_bool_decide; [by apply IH|].
    assert ((if strict then check_public_key_encoding ppb else Ok tt) = Ok tt) as ->.
    { destruct strict; [by apply Henc|done]. }
    cbn [mbind result_bind].
    destruct Hsec as [Hok| ->].
    + destruct (sec_to_public_pair ppb strict) as [p|]; [|discriminate].
      cbn [mbind result_bind]. destruct (bool_decide (p ∈ ppp)); [eauto|by apply IH].
    + cbn [mbind result_bind]. by apply IH.
Qed.

(** When no step can raise, the loop returns a list in either mode. *)
Lemma sig_blob_matches_loop_total (sig_blobs : list bytes) (early : bool)
    (cache : gmap Z Z) (acc : list Z) :
  matching_cannot_raise flags sig_blobs public_pair_blobs →
  ∃ l, sig_blob_matches_loop sig_blobs public_pair_blobs tmp_script
         signature_for_hash_type_f flags early cache acc = Ok l.
Proof.
  intros (Hparse & Hkeys & Hrec). revert cache acc.
  induction sig_blobs as [|sb rest IH]; intros cache acc; cbn [sig_blob_matches_loop].
  - eauto.
  - assert (IH' : ∀ cache acc, ∃ l,
              sig_blob_matches_loop rest public_pair_blobs tmp_script
                signature_for_hash_type_f flags early cache acc = Ok l).
    { apply IH. intros s Hs. apply Hparse. by apply elem_of_cons; right. }
    destruct (Hparse sb) as [Hok| ->]; [by apply elem_of_cons; left| |].
    + destruct (parse_signature_blob sb flags) as [[sig_pair signature_type]|];
        [|discriminate].
      set (cache' := match cache !! signature_type with
                     | Some _ => cache
                     | None => <[signature_type:=
                         signature_for_hash_type_f signature_type tmp_script]> cache
                     end).
      assert (Hhit : ∃ h, cache' !! signature_type = Some h).
      { unfold cache'. destruct (cache !! signature_type) eqn:E; [eauto|].
        rewrite lookup_insert_eq. eauto. }
      destruct Hhit as (h & ->).
      destruct (Hrec h sig_pair) as [Hok'| ->].
      * destruct (possible_public_pairs_for_signature h sig_pair) as [ppp|];
          [|discriminate].
        cbn [mbind result_bind].
        destruct (len ppp >? 0); [|destruct early; eauto].
        destruct (scan_public_pair_blobs_total (truthy (Z.land flags VERIFY_STRICTENC))
                    ppp acc 0 public_pair_blobs Hkeys) as (found & ->).
        cbn [mbind result_bind].
        repeat match goal with |- context [if ?c then _ else _] => destruct c end; eauto.
      * cbn [mbind result_bind].
        change (len ([] : list (Z * Z)) >? 0) with false. destruct early; eauto.
    + destruct early; eauto.
Qed.

End MultisigOpcode.

Lemma pop_many_reverse (l st acc : list bytes) :
  pop_many (length l) (st ++ reverse l) acc = Ok (acc ++ l, st).
Proof.
  revert acc. induction l as [|x l IH]; intros acc; cbn [length pop_many].
  - rewrite reverse_nil, !app_nil_r. done.
  - rewrite reverse_cons, app_assoc, pop_snoc. cbn [mbind result_bind].
    rewrite IH, <- app_assoc. done.
Qed.

(** With well-formed operands on the stack, [op_checkmultisig] is the
    early-exit matching followed by the final test. *)
Lemma op_checkmultisig_unfold `{C : Collaborators} (rest : list bytes) (dummy : bytes)
    (sig_blobs : list bytes) (sc : bytes) (public_pair_blobs : list bytes) (kc : bytes)
    (signature_for_hash_type_f : Z → bytes → Z) (expected_hash_type : option Z)
    (tmp_script : bytes) (flags : Z) :
  multisig_operands flags dummy sig_blobs sc public_pair_blobs kc →
  op_checkmultisig (multisig_stack rest dummy sig_blobs sc public_pair_blobs kc)
    signature_for_hash_type_f expected_hash_type tmp_script flags =
  sig_blob_matches sig_blobs public_pair_blobs tmp_script signature_for_hash_type_f
    flags true ≫= λ l,
  Ok (rest ++ [if bool_decide ((-1) ∉ l) && (len l =? len sig_blobs)
                  && strictly_increasing l then VCH_TRUE else VCH_FALSE],
      len public_pair_blobs).
Proof.
  intros (Hkc & Hsc & Hcnt & Hdummy).
  pose proof (len_nonneg sig_blobs). pose proof (len_nonneg public_pair_blobs).
  unfold op_checkmultisig, multisig_stack.
  rewrite !app_assoc, pop_snoc. cbn [mbind result_bind].
  rewrite Hkc. cbn [mbind result_bind].
  assert ((len public_pair_blobs <? 0) || (len public_pair_blobs >? 20) = false) as ->.
  { apply orb_false_iff. rewrite Z.gtb_ltb, !Z.ltb_ge. lia. }
  replace (Z.to_nat (len public_pair_blobs)) with (length public_pair_blobs)
    by (unfold len; lia).
  rewrite pop_many_reverse. cbn [mbind result_bind]. rewrite pop_snoc.
  cbn [mbind result_bind]. rewrite Hsc. cbn [mbind result_bind].
  assert ((len sig_blobs >? len public_pair_blobs) = false) as ->.
  { rewrite Z.gtb_ltb, Z.ltb_ge. lia. }
  replace (Z.to_nat (len sig_blobs)) with (length sig_blobs) by (unfold len; lia).
  rewrite pop_many_reverse. cbn [mbind result_bind]. rewrite !pop_snoc.
  cbn [mbind result_bind].
  assert ((if truthy (Z.land flags VERIFY_NULLDUMMY)
           then raise_if (bool_decide (dummy ≠ [])) "bad dummy byte in checkmultisig"
           else Ok tt) = Ok tt) as ->.
  { destruct (truthy (Z.land flags VERIFY_NULLDUMMY)); [|done].
    rewrite Hdummy by done. done. }
  cbn [mbind result_bind]. done.
Qed.

Lemma all_matched_in_order_test (sig_blobs : list bytes) (l : list Z) :
  bool_decide ((-1) ∉ l) && (len l =? len sig_blobs) && strictly_increasing l = true
  ↔ all_matched_in_order sig_blobs l.
Proof.
  unfold all_matched_in_order. rewrite !andb_true_iff, bool_decide_eq_true, Z.eqb_eq.
  rewrite strictly_increasing_sorted. unfold len. split.
  - intros ((? & ?) & ?). repeat split; try done. lia.
  - intros (? & ? & ?). repeat split; try done. lia.
Qed.

(** The digest cache is transparent: whatever it holds is the digest of
    its key, so a look-up after the update yields the digest itself. *)
Lemma sig_cache_lookup (f : Z → bytes → Z) (script : bytes) (cache : gmap Z Z) (t : Z) :
  (∀ k v, cache !! k = Some v → v = f k script) →
  let cache' := match cache !! t with
                | None => <[t := f t script]> cache
                | Some _ => cache
                end in
  cache' !! t = Some (f t script) ∧ (∀ k v, cache' !! k = Some v → v = f k script).
Proof.
  intros Hinv. destruct (cache !! t) as [v|] eqn:E; cbv zeta.
  - split; [|done]. rewrite E. f_equal. by apply Hinv.
  - split; [by rewrite lookup_insert_eq|].
    intros k v. destruct (decide (t = k)) as [->|Hne].
    + rewrite lookup_insert_eq. by intros [= <-].
    + rewrite lookup_insert_ne by done. apply Hinv.
Qed.

Lemma scan_public_pair_blobs_step `{C : Collaborators} (strict : bool) (ppp : list (Z * Z))
    (indices : list Z) (idx : Z) (ppb : bytes) (rest : list bytes) (pp : Z * Z) :
  idx ∉ indices → check_public_key_encoding ppb = Ok tt →
  sec_to_public_pair ppb strict = Ok pp →
  scan_public_pair_blobs strict ppp indices idx (ppb :: rest) =
    if bool_decide (pp ∈ ppp) then Ok (Some idx)
    else scan_public_pair_blobs strict ppp indices (idx + 1) rest.
Proof.
  intros Hidx Hchk Hsec. cbn [scan_public_pair_blobs].
  rewrite bool_decide_eq_false_2 by done. rewrite Hchk, Hsec.
  destruct strict; done.
Qed.

Section MultisigTheorems.
Context `{C : Collaborators}.
Variables (rest : list bytes) (dummy sc kc : bytes)
          (signature_for_hash_type_f : Z → bytes → Z) (expected_hash_type : option Z)
          (tmp_script : bytes) (flags : Z).

(** The opcode pushes true exactly when the full matching gives every
    signature a key, in strictly increasing order of the keys. *)
Lemma op_checkmultisig_accepts_iff (sig_blobs public_pair_blobs : list bytes) :
  multisig_operands flags dummy sig_blobs sc public_pair_blobs kc →
  op_checkmultisig (multisig_stack rest dummy sig_blobs sc public_pair_blobs kc)
    signature_for_hash_type_f expected_hash_type tmp_script flags
    = Ok (rest ++ [VCH_TRUE], len public_pair_blobs)
  ↔ ∃ l, sig_blob_matches sig_blobs public_pair_blobs tmp_script
           signature_for_hash_type_f flags false = Ok l ∧
         all_matched_in_order sig_blobs l.
Proof.
  intros Hops. rewrite (op_checkmultisig_unfold _ _ _ _ _ _ _ _ _ _ Hops).
  unfold sig_blob_matches.
  destruct (drop_signatures sig_blobs tmp_script) as [tmp'|e]; cbn [mbind result_bind].
  2: { split; [discriminate|]. intros (l & ? & _). discriminate. }
  split.
  - destruct (sig_blob_matches_loop sig_blobs public_pair_blobs tmp' _ flags true ∅ [])
      as [l|e] eqn:Hearly; cbn [mbind result_bind]; [|discriminate].
    intros [= Hpush]. apply app_inv_head in Hpush.
    destruct (bool_decide ((-1) ∉ l) && (len l =? len sig_blobs) && strictly_increasing l)
      eqn:Hgood; [|discriminate].
    apply all_matched_in_order_test in Hgood.
    exists l. split; [|done].
    apply early_exit_complete_is_full; [done|]. destruct Hgood as (-> & _). done.
  - intros (l & Hfull & Hgood).
    pose proof Hgood as (Hlen & Hno & Hsorted).
    apply full_in_order_is_early_exit in Hfull; try done.
    + rewrite Hfull. cbn [mbind result_bind].
      apply all_matched_in_order_test in Hgood. rewrite Hgood. done.
    + by apply strictly_increasing_sorted.
Qed.

(** A mismatch never aborts: when the script is well formed and no step
    of the matching can raise, the opcode returns, with true or false on
    the stack. *)
Lemma op_checkmultisig_returns (sig_blobs public_pair_blobs : list bytes) :
  multisig_operands flags dummy sig_blobs sc public_pair_blobs kc →
  is_Ok (drop_signatures sig_blobs tmp_script) = true →
  matching_cannot_raise flags sig_blobs public_pair_blobs →
  ∃ b, (b = VCH_TRUE ∨ b = VCH_FALSE) ∧
    op_checkmultisig (multisig_stack rest dummy sig_blobs sc public_pair_blobs kc)
      signature_for_hash_type_f expected_hash_type tmp_script flags
      = Ok (rest ++ [b], len public_pair_blobs).
Proof.
  intros Hops Hdrop Hsafe. rewrite (op_checkmultisig_unfold _ _ _ _ _ _ _ _ _ _ Hops).
  unfold sig_blob_matches.
  destruct (drop_signatures sig_blobs tmp_script) as [tmp'|e]; [|discriminate].
  cbn [mbind result_bind].
  destruct (sig_blob_matches_loop_total public_pair_blobs tmp' signature_for_hash_type_f
              flags sig_blobs true ∅ [] Hsafe) as (l & ->).
  cbn [mbind result_bind].
  destruct (_ && _); eauto.
Qed.

(** Keys K1, K2, K3 and two signatures pushed in the order "the one valid
    for K2, then the one valid for K1": the opcode pushes false. *)
Lemma op_checkmultisig_wrong_order (K1 K2 K3 sig1 sig2 tmp' : bytes) :
  multisig_operands flags dummy [sig1; sig2] sc [K3; K2; K1] kc →
  drop_signatures [sig1; sig2] tmp_script = Ok tmp' →
  signature_key_match signature_for_hash_type_f tmp' flags sig1 K1 true →
  signature_key_match signature_for_hash_type_f tmp' flags sig1 K2 false →
  signature_key_match signature_for_hash_type_f tmp' flags sig1 K3 false →
  signature_key_match signature_for_hash_type_f tmp' flags sig2 K2 true →
  signature_key_match signature_for_hash_type_f tmp' flags sig2 K3 false →
  op_checkmultisig (rest ++ [dummy; sig2; sig1; sc; K1; K2; K3; kc])
    signature_for_hash_type_f expected_hash_type tmp_script flags
    = Ok (rest ++ [VCH_FALSE], 3).
Proof.
  intros Hops Hdrop H11 H12 H13 H22 H23.
  change (rest ++ [dummy; sig2; sig1; sc; K1; K2; K3; kc])
    with (multisig_stack rest dummy [sig1; sig2] sc [K3; K2; K1] kc).
  rewrite (op_checkmultisig_unfold _ _ _ _ _ _ _ _ _ _ Hops).
  unfold sig_blob_matches. rewrite Hdrop. cbn [mbind result_bind].
  destruct H11 as (sp1 & t1 & ppp1 & pp1 & Hp1 & Hr1 & Hc1 & Hs1 & Hm11).
  destruct H12 as (? & ? & ? & pp2 & Hp1' & Hr1' & Hc2 & Hs2 & Hm12).
  rewrite Hp1 in Hp1'. injection Hp1' as <- <-. rewrite Hr1 in Hr1'. injection Hr1' as <-.
  destruct H13 as (? & ? & ? & pp3 & Hp1' & Hr1' & Hc3 & Hs3 & Hm13).
  rewrite Hp1 in Hp1'. injection Hp1' as <- <-. rewrite Hr1 in Hr1'. injection Hr1' as <-.
  destruct H22 as (sp2 & t2 & ppp2 & ? & Hp2 & Hr2 & _ & Hs2' & Hm22).
  rewrite Hs2 in Hs2'. injection Hs2' as <-.
  destruct H23 as (? & ? & ? & ? & Hp2' & Hr2' & _ & Hs3' & Hm23).
  rewrite Hp2 in Hp2'. injection Hp2' as <- <-. rewrite Hr2 in Hr2'. injection Hr2' as <-.
  rewrite Hs3 in Hs3'. injection Hs3' as <-.
  assert (Hne1 : (len ppp1 >? 0) = true).
  { apply bool_decide_eq_true in Hm11. destruct ppp1; [by apply elem_of_nil in Hm11|done]. }
  assert (Hne2 : (len ppp2 >? 0) = true).
  { apply bool_decide_eq_true in Hm22. destruct ppp2; [by apply elem_of_nil in Hm22|done]. }
  cbn [sig_blob_matches_loop]. rewrite Hp1.
  destruct (sig_cache_lookup signature_for_hash_type_f tmp' ∅ t1) as (Hl1 & Hinv1).
  { intros k v. rewrite lookup_empty. discriminate. }
  cbv zeta in Hl1, Hinv1. rewrite Hl1, Hr1. cbn [mbind result_bind]. rewrite Hne1.
  rewrite (scan_public_pair_blobs_step _ _ _ _ _ _ _ ltac:(apply not_elem_of_nil) Hc3 Hs3),
    Hm13.
  rewrite (scan_public_pair_blobs_step _ _ _ _ _ _ _ ltac:(apply not_elem_of_nil) Hc2 Hs2),
    Hm12.
  rewrite (scan_public_pair_blobs_step _ _ _ _ _ _ _ ltac:(apply not_elem_of_nil) Hc1 Hs1),
    Hm11.
  cbn [mbind result_bind default app]. unfold id.
  rewrite bool_decide_eq_false_2 by discriminate.
  change ((len [0 + 1 + 1] >? 1) && true && last_le_previous [0 + 1 + 1]) with false.
  cbv iota. cbn [andb]. cbv iota. rewrite Hp2.
  match goal with
  | |- context [match ?c !! t2 with Some _ => ?c | None => _ end] =>
      destruct (sig_cache_lookup signature_for_hash_type_f tmp' c t2 Hinv1) as (Hl2 & _)
  end.
  cbv zeta in Hl2. rewrite Hl2, Hr2. cbn [mbind result_bind]. rewrite Hne2.
  assert (Hfresh0 : 0 ∉ [0 + 1 + 1]) by (intros ?%list_elem_of_singleton; lia).
  assert (Hfresh1 : 0 + 1 ∉ [0 + 1 + 1]) by (intros ?%list_elem_of_singleton; lia).
  rewrite (scan_public_pair_blobs_step _ _ _ _ _ _ _ Hfresh0 Hc3 Hs3), Hm23.
  rewrite (scan_public_pair_blobs_step _ _ _ _ _ _ _ Hfresh1 Hc2 Hs2), Hm22.
  cbn [mbind result_bind default app]. unfold id.
  rewrite bool_decide_eq_false_2 by discriminate.
  change ((len [0 + 1 + 1; 0 + 1] >? 1) && true && last_le_previous [0 + 1 + 1; 0 + 1])
    with true.
  cbv iota. cbn [andb mbind result_bind].
  assert (Hno : bool_decide ((-1) ∉ [0 + 1 + 1; 0 + 1]) = true).
  { apply bool_decide_eq_true. intros Hin.
    apply elem_of_cons in Hin as [?|Hin]; [lia|].
    apply list_elem_of_singleton in Hin. lia. }
  rewrite Hno. done.
Qed.

End MultisigTheorems.

(** C3. With well-formed operands on the stack, [op_checkmultisig] pushes
    true if and only if the matching gives every signature blob a key and
    the matched key indices grow strictly; a mismatch never aborts the
    evaluation (when the script is well formed and no decoding step can
    raise, the opcode returns with true or false pushed); and with keys
    K1, K2, K3 and two signatures pushed in the order "valid for K2, then
    valid for K1", false is pushed although each signature matches a key. *)
Theorem op_checkmultisig_accepts_in_order `{C : Collaborators}
    (rest : list bytes) (dummy sc kc : bytes)
    (signature_for_hash_type_f : Z → bytes → Z) (expected_hash_type : option Z)
    (tmp_script : bytes) (flags : Z) :
  (∀ sig_blobs public_pair_blobs,
     multisig_operands flags dummy sig_blobs sc public_pair_blobs kc →
     let run :=
       op_checkmultisig (multisig_stack rest dummy sig_blobs sc public_pair_blobs kc)
         signature_for_hash_type_f expected_hash_type tmp_script flags in
     (run = Ok (rest ++ [VCH_TRUE], len public_pair_blobs)
      ↔ ∃ l, sig_blob_matches sig_blobs public_pair_blobs tmp_script
               signature_for_hash_type_f flags false = Ok l ∧
             all_matched_in_order sig_blobs l) ∧
     (is_Ok (drop_signatures sig_blobs tmp_script) = true →
      matching_cannot_raise flags sig_blobs public_pair_blobs →
      ∃ b, (b = VCH_TRUE ∨ b = VCH_FALSE) ∧
           run = Ok (rest ++ [b], len public_pair_blobs))) ∧
  (∀ K1 K2 K3 sig1 sig2 tmp',
     multisig_operands flags dummy [sig1; sig2] sc [K3; K2; K1] kc →
     drop_signatures [sig1; sig2] tmp_script = Ok tmp' →
     signature_key_match signature_for_hash_type_f tmp' flags sig1 K1 true →
     signature_key_match signature_for_hash_type_f tmp' flags sig1 K2 false →
     signature_key_match signature_for_hash_type_f tmp' flags sig1 K3 false →
     signature_key_match signature_for_hash_type_f tmp' flags sig2 K2 true →
     signature_key_match signature_for_hash_type_f tmp' flags sig2 K3 false →
     op_checkmultisig (rest ++ [dummy; sig2; sig1; sc; K1; K2; K3; kc])
       signature_for_hash_type_f expected_hash_type tmp_script flags
       = Ok (rest ++ [VCH_FALSE], 3)).
Proof.
  split.
  - intros sig_blobs public_pair_blobs Hops run. split.
    + by apply op_checkmultisig_accepts_iff.
    + by apply op_checkmultisig_returns.
  - intros. by eapply op_checkmultisig_wrong_order.
Qed.

Lemma op_checkmultisig_accepts_in_order_witness :
  let K1 := [x02; x0b] ++ replicate 31 x00 in
  let K2 := [x02; x0c] ++ replicate 31 x00 in
  let K3 := [x02; x0d] ++ replicate 31 x00 in
  let sig1 := [x0b; x01] in
  let sig2 := [x0c; x01] in
  op_checkmultisig (C:=mock_collaborators)
    ([] ++ [[]; sig2; sig1; [x02]; K1; K2; K3; [x03]]) (fun _ _ => 0) None [] 0
    = Ok ([] ++ [VCH_FALSE], 3) ∧
  op_checkmultisig (C:=mock_collaborators)
    (multisig_stack [] [] [sig2; sig1] [x02] [K3; K2; K1] [x03]) (fun _ _ => 0) None [] 0
    = Ok ([] ++ [VCH_TRUE], 3) ∧
  ∃ b, (b = VCH_TRUE ∨ b = VCH_FALSE) ∧
    op_checkmultisig (C:=mock_collaborators)
      (multisig_stack [] [] [sig1; sig2] [x02] [K3; K2; K1] [x03]) (fun _ _ => 0) None [] 0
      = Ok ([] ++ [b], 3).
Proof.
  intros K1 K2 K3 sig1 sig2.
  assert (Hops : ∀ s1 s2,
    multisig_operands (C:=mock_collaborators) 0 [] [s1; s2] [x02] [K3; K2; K1] [x03]).
  { intros s1 s2. repeat split; try reflexivity; vm_compute; discriminate. }
  assert (Hkey : ∀ s k m,
    bool_decide
      ((byte_to_int (default x00 (k !! 1%nat)), 0)
         ∈ [(byte_to_int (default x00 (s !! 0%nat)), 0)]) = m →
    s = sig1 ∨ s = sig2 → k = K1 ∨ k = K2 ∨ k = K3 →
    signature_key_match (C:=mock_collaborators) (fun _ _ => 0) [] 0 s k m).
  { intros s k m Hm [-> | ->] [-> | [-> | ->]];
      eexists _, _, _, _; (repeat split; [reflexivity ..|exact Hm]). }
  split; [|split].
  - apply (proj2 (op_checkmultisig_accepts_in_order (C:=mock_collaborators)
                    [] [] [x02] [x03] (fun _ _ => 0) None [] 0) K1 K2 K3 sig1 sig2 []);
      [apply Hops|reflexivity|apply Hkey; try reflexivity; tauto ..].
  - apply (proj1 (proj1 (op_checkmultisig_accepts_in_order (C:=mock_collaborators)
                    [] [] [x02] [x03] (fun _ _ => 0) None [] 0)
                    [sig2; sig1] [K3; K2; K1] (Hops _ _))).
    exists [1; 2]. split; [vm_compute; reflexivity|].
    split; [reflexivity|]. split.
    + intros Hin. apply elem_of_cons in Hin as [?|Hin]; [lia|].
      apply list_elem_of_singleton in Hin. lia.
    + repeat constructor; lia.
  - apply (proj2 (proj1 (op_checkmultisig_accepts_in_order (C:=mock_collaborators)
                    [] [] [x02] [x03] (fun _ _ => 0) None [] 0)
                    [sig1; sig2] [K3; K2; K1] (Hops _ _))).
    + reflexivity.
    + split; [|split].
      * intros s Hs. left.
        apply elem_of_cons in Hs as [->|Hs]; [reflexivity|].
        apply list_elem_of_singleton in Hs as ->. reflexivity.
      * intros k Hk. split; [discriminate|]. left.
        apply elem_of_cons in Hk as [->|Hk]; [reflexivity|].
        apply elem_of_cons in Hk as [->|Hk]; [reflexivity|].
        apply list_elem_of_singleton in Hk as ->. reflexivity.
      * intros h [r s]. cbn. destruct (s =? 0); [right|left]; reflexivity.
Defined.

(** ** The loops over a script end within [length script] rounds *)

Lemma opcode_list_loop_fuel (fuel fuel' : nat) (script : bytes) (pc : Z)
    (opcodes : list string) :
  0 <= pc → len script - pc <= Z.of_nat fuel → len script - pc <= Z.of_nat fuel' →
  opcode_list_loop fuel script pc opcodes = opcode_list_loop fuel' script pc opcodes.
Proof.
  revert fuel' pc opcodes.
  induction fuel as [|fuel IH]; intros [|fuel'] pc opcodes Hpc Hf Hf';
    cbn [opcode_list_loop]; try done.
  - destruct (Z.ltb_spec pc (len script)); [lia|done].
  - destruct (Z.ltb_spec pc (len script)); [lia|done].
  - destruct (Z.ltb_spec pc (len script)); [|done].
    destruct (get_opcode script pc) as [[[opcode data] pc']|e] eqn:Hget; [|done].
    cbn [mbind result_bind].
    pose proof (get_opcode_advances _ _ _ _ _ Hpc Hget). apply IH; lia.
Qed.

(** [opcode_list_loop] satisfies the equation of the [while] loop it
    stands for. *)
Lemma opcode_list_loop_unfold (script : bytes) (pc : Z) (opcodes : list string) :
  0 <= pc →
  opcode_list_loop (length script) script pc opcodes =
    if pc <? len script then
      get_opcode script pc ≫= λ '(opcode, data, pc'),
      opcode_list_loop (length script) script pc'
        (opcodes ++ [disassemble_for_opcode_data opcode data])
    else Ok opcodes.
Proof.
  intros Hpc. destruct (Z.ltb_spec pc (len script)) as [Hlt|Hge].
  - rewrite (opcode_list_loop_fuel (length script) (S (length script)))
      by (unfold len in *; lia).
    cbn [opcode_list_loop]. destruct (Z.ltb_spec pc (len script)); [|lia].
    destruct (get_opcode script pc) as [[[opcode data] pc']|e] eqn:Hget; [|done].
    cbn [mbind result_bind]. done.
  - rewrite (opcode_list_loop_fuel (length script) 0) by (unfold len in *; lia). done.
Qed.

Lemma delete_subscript_loop_fuel (fuel fuel' : nat) (script subscript : bytes) (pc : Z)
    (new_script : bytes) :
  0 <= pc → len script - pc <= Z.of_nat fuel → len script - pc <= Z.of_nat fuel' →
  delete_subscript_loop fuel script subscript pc new_script
  = delete_subscript_loop fuel' script subscript pc new_script.
Proof.
  revert fuel' pc new_script.
  induction fuel as [|fuel IH]; intros [|fuel'] pc new_script Hpc Hf Hf';
    cbn [delete_subscript_loop]; try done.
  - destruct (Z.ltb_spec pc (len script)); [lia|done].
  - destruct (Z.ltb_spec pc (len script)); [lia|done].
  - destruct (Z.ltb_spec pc (len script)); [|done].
    destruct (get_opcode script pc) as [[[opcode data] pc']|e] eqn:Hget; [|done].
    cbn [mbind result_bind].
    pose proof (get_opcode_advances _ _ _ _ _ Hpc Hget). apply IH; lia.
Qed.

Lemma delete_subscript_loop_unfold (script subscript : bytes) (pc : Z) (new_script : bytes) :
  0 <= pc →
  delete_subscript_loop (length script) script subscript pc new_script =
    if pc <? len script then
      get_opcode script pc ≫= λ '(opcode, data, new_pc),
      delete_subscript_loop (length script) script subscript new_pc
        (if bool_decide (py_slice script pc new_pc ≠ subscript)
         then new_script ++ py_slice script pc new_pc else new_script)
    else Ok new_script.
Proof.
  intros Hpc. destruct (Z.ltb_spec pc (len script)) as [Hlt|Hge].
  - rewrite (delete_subscript_loop_fuel (length script) (S (length script)))
      by (unfold len in *; lia).
    cbn [delete_subscript_loop]. destruct (Z.ltb_spec pc (len script)); [|lia].
    destruct (get_opcode script pc) as [[[opcode data] pc']|e] eqn:Hget; [|done].
    cbn [mbind result_bind]. done.
  - rewrite (delete_subscript_loop_fuel (length script) 0) by (unfold len in *; lia). done.
Qed.

(** ** The push-data encoder *)

Lemma bytes_from_int_small (v : Z) :
  0 <= v < 256 → bytes_from_int v = Ok (to_bytes_little 1 v).
Proof.
  intros Hv. unfold bytes_from_int. rewrite bool_decide_eq_true_2 by lia.
  cbn [to_bytes_little]. rewrite Z.mod_small by lia.
  destruct (Byte.of_N (Z.to_N v)) as [b|] eqn:E; [done|].
  apply Byte.of_N_None_iff in E. lia.
Qed.

Lemma to_bytes_little_1 (v : Z) :
  0 <= v < 256 → ∃ b, to_bytes_little 1 v = [b] ∧ byte_to_int b = v.
Proof.
  intros Hv. cbn [to_bytes_little]. rewrite Z.mod_small by lia.
  destruct (Byte.of_N (Z.to_N v)) as [b|] eqn:E.
  - exists b. split; [done|]. apply Byte.to_of_N in E. unfold byte_to_int. rewrite E. lia.
  - apply Byte.of_N_None_iff in E. lia.
Qed.

(** The encoder on one item, for any contents of the stream. *)
Lemma write_push_data_single (t f : bytes) :
  len t < 2 ^ 32 →
  write_push_data [t] f =
    Ok (f ++ if bool_decide (t = [x00]) then [x00] else push_encoding_spec t).
Proof.
  intros Hlen. cbn [write_push_data].
  destruct t as [|b [|b' t']].
  - vm_compute. reflexivity.
  - destruct b; vm_compute; reflexivity.
  - rewrite bool_decide_eq_false_2 by discriminate.
    set (t := b :: b' :: t') in *.
    assert (Hl : 2 <= len t) by (unfold t, len; simpl; lia).
    unfold write_push_data_item.
    destruct (Z.eqb_spec (len t) 0); [lia|].
    destruct (Z.eqb_spec (len t) 1); [lia|]. cbn [mbind result_bind].
    unfold push_encoding_spec. fold t. rewrite Z.gtb_ltb.
    destruct (Z.leb_spec (len t) 255).
    + unfold int_to_bytes. rewrite bytes_from_int_small by lia.
      destruct (Z.leb_spec (len t) 75).
      * destruct (Z.ltb_spec 75 (len t)); [lia|]. cbn [mbind result_bind]. done.
      * destruct (Z.ltb_spec 75 (len t)); [|lia]. cbn [mbind result_bind].
        change (opcode_to_int "OP_PUSHDATA1") with (Ok 76 : result Z).
        cbn [mbind result_bind].
        change (bytes_from_int 76) with (Ok [x4c] : result bytes).
        cbn [mbind result_bind]. rewrite <- app_assoc. done.
    + destruct (Z.leb_spec (len t) 75); [lia|].
      destruct (Z.leb_spec (len t) 65535).
      * change (opcode_to_int "OP_PUSHDATA2") with (Ok 77 : result Z).
        cbn [mbind result_bind].
        change (bytes_from_int 77) with (Ok [x4d] : result bytes).
        cbn [mbind result_bind].
        unfold struct_pack_le. rewrite bool_decide_eq_true_2 by lia. done.
      * change (opcode_to_int "OP_PUSHDATA4") with (Ok 78 : result Z).
        cbn [mbind result_bind].
        change (bytes_from_int 78) with (Ok [x4e] : result bytes).
        cbn [mbind result_bind].
        unfold struct_pack_le. rewrite bool_decide_eq_true_2 by lia. done.
Qed.

(** Apart from the single zero byte, and below the 2^32 bytes that a
    PUSHDATA4 length can hold, the encoder follows the spec's rule. *)
Lemma bin_script_follows_spec (t : bytes) :
  t ≠ [x00] → len t < 2 ^ 32 → bin_script [t] = Ok (push_encoding_spec t).
Proof.
  intros Hne Hlen. unfold bin_script. rewrite write_push_data_single by done.
  rewrite bool_decide_eq_false_2 by done. done.
Qed.

(** C7. The encoder on the single byte of value 0: the spec's rule gives
    the two-byte literal push [01 00]; [write_push_data] writes the single
    byte [00], the push-empty opcode, which is also what it writes for the
    empty data and which pushes the empty string when it is read back.  The
    single byte of value 5 is written as the one opcode OP_5. *)
Theorem write_push_data_single_zero_byte :
  bin_script [[x00]] = Ok [x00] ∧
  push_encoding_spec [x00] = [x01; x00] ∧
  bin_script [[]] = Ok [x00] ∧
  get_opcode [x00] 0 = Ok (OP_0, Some [], 1) ∧
  bin_script [[x05]] = Ok [x55] ∧ OPCODE_TO_INT !! "OP_5"%string = Some 0x55.
Proof. vm_compute. repeat split. Qed.

(** C8. The script [01 00] is the minimal push of the single byte 0 and
    nothing else; its disassembly is the text "[00]", and compiling that
    text gives the one byte [00], not the script. *)
Theorem compile_disassemble_single_zero_byte :
  push_encoding_spec [x00] = [x01; x00] ∧
  disassemble [x01; x00] = Ok "[00]"%string ∧
  compile "[00]" = Ok [x00] ∧
  (disassemble [x01; x00] ≫= compile) ≠ Ok [x01; x00].
Proof. vm_compute. repeat split. discriminate. Qed.

(** C9. The standard output script for an address whose hash160 is
    745e5b81fd30ca1e90311b012badabaa4411ae1a is [76 a9 14 <hash160> 88 ac],
    and [disassemble] renders its data push between square brackets: the
    text differs from the one expected by [test_standard_tx_out]. *)
Theorem standard_tx_out_script_disassembly `{SC : SolverCollaborators}
    (bitcoin_address : string) (prefix : bytes) :
  bitcoin_address_to_hash160_sec_with_prefix bitcoin_address = Ok (test_hash160, prefix) →
  standard_tx_out_script bitcoin_address
    = Ok ([x76; xa9; x14] ++ test_hash160 ++ [x88; xac]) ∧
  disassemble ([x76; xa9; x14] ++ test_hash160 ++ [x88; xac])
    = Ok "OP_DUP OP_HASH160 [745e5b81fd30ca1e90311b012badabaa4411ae1a] OP_EQUALVERIFY OP_CHECKSIG"%string ∧
  disassemble ([x76; xa9; x14] ++ test_hash160 ++ [x88; xac])
    ≠ Ok "OP_DUP OP_HASH160 745e5b81fd30ca1e90311b012badabaa4411ae1a OP_EQUALVERIFY OP_CHECKSIG"%string.
Proof.
  intros Haddr. unfold standard_tx_out_script. rewrite Haddr. cbn [mbind result_bind].
  split; [|split].
  - vm_compute. reflexivity.
  - vm_compute. reflexivity.
  - vm_compute. discriminate.
Qed.

Lemma standard_tx_out_script_disassembly_witness :
  (standard_tx_out_script (SC:=mock_solver_collaborators) "1BcJRKjiwYQ3f37FQSpTYM7AfnXurMjezu"
     ≫= disassemble)
  = Ok "OP_DUP OP_HASH160 [745e5b81fd30ca1e90311b012badabaa4411ae1a] OP_EQUALVERIFY OP_CHECKSIG"%string.
Proof.
  destruct (standard_tx_out_script_disassembly (SC:=mock_solver_collaborators)
              "1BcJRKjiwYQ3f37FQSpTYM7AfnXurMjezu" [x00] eq_refl) as (-> & -> & _).
  reflexivity.
Defined.

(** C4. [solve] with a non-empty existing script never returns: the branch
    that should re-validate the existing signatures reads the local name
    [script] before it is bound.  The first solve of the 2-of-3 descriptor
    with one known key does return OP_0, one signature and the one-byte
    placeholder (compiled to OP_1); handing that output back as the
    existing script, with the second key, raises. *)
Theorem solve_existing_script_unbound `{SC : SolverCollaborators}
    (self : ScriptMultisig.t) (db : bytes → option key_entry)
    (existing_script : bytes) (sign_value signature_type : Z) :
  existing_script ≠ [] →
  ScriptMultisig.solve self (Some db) (Some existing_script) sign_value signature_type
    = Raise (UnboundLocalError "script").
Proof. intros Hne. destruct existing_script; [done|reflexivity]. Qed.

Lemma solve_existing_script_unbound_witness :
  ∃ first,
    ScriptMultisig.solve (SC:=mock_solver_collaborators) mock_multisig
      (Some mock_lookup_first) None 99 SIGHASH_ALL = Ok first ∧
    first = [x00] ++ [x09]
              ++ @_create_script_signature mock_solver_collaborators 11 99 SIGHASH_ALL
              ++ [x51] ∧
    disassemble first = Ok "OP_0 [300602010b02010101] OP_1"%string ∧
    ScriptMultisig.solve (SC:=mock_solver_collaborators) mock_multisig
      (Some mock_lookup_second) (Some first) 99 SIGHASH_ALL
      = Raise (UnboundLocalError "script").
Proof.
  eexists. split; [vm_compute; reflexivity|].
  split; [reflexivity|]. split; [vm_compute; reflexivity|].
  apply (solve_existing_script_unbound (SC:=mock_solver_collaborators)).
  discriminate.
Defined.

(** ** Script text: tokens, split and join, hexadecimal *)

Lemma append_cons (x : ascii) (a b : string) : String x a +:+ b = String x (a +:+ b).
Proof. reflexivity. Qed.

Lemma append_nil_l (b : string) : EmptyString +:+ b = b.
Proof. reflexivity. Qed.

Lemma append_assoc (a b c : string) : (a +:+ b) +:+ c = a +:+ (b +:+ c).
Proof. induction a as [|x a IH]; [done|]. rewrite !append_cons, IH. done. Qed.

Lemma append_nil_r (a : string) : a +:+ EmptyString = a.
Proof. induction a as [|x a IH]; [done|]. rewrite append_cons, IH. done. Qed.

Lemma has_space_append (a b : string) : has_space (a +:+ b) = has_space a || has_space b.
Proof.
  induction a as [|x a IH]; [done|].
  rewrite append_cons. cbn [has_space]. rewrite IH, orb_assoc. done.
Qed.

(** Reading a run of non-space characters only extends the current token. *)
Lemma split_loop_token (t s cur : string) :
  has_space t = false → split_loop (t +:+ s) cur = split_loop s (cur +:+ t).
Proof.
  revert cur. induction t as [|c t IH]; intros cur Ht.
  - by rewrite append_nil_l, append_nil_r.
  - cbn [has_space] in Ht. apply orb_false_iff in Ht as (Hc & Ht).
    rewrite append_cons. cbn [split_loop]. rewrite Hc, IH by done.
    rewrite append_assoc. done.
Qed.

Lemma split_join (tokens : list string) :
  Forall token_ok tokens → split (join " " tokens) = tokens.
Proof.
  unfold split. induction tokens as [|t [|t' rest] IH]; intros Hall.
  - done.
  - apply Forall_cons in Hall as ((Hne & Hsp) & _). cbn [join].
    rewrite <- (append_nil_r t) at 1. rewrite split_loop_token by done.
    rewrite append_nil_l. cbn [split_loop].
    rewrite bool_decide_eq_false_2 by done. done.
  - apply Forall_cons in Hall as ((Hne & Hsp) & Hrest).
    change (join " " (t :: t' :: rest)) with (t +:+ " " +:+ join " " (t' :: rest)).
    rewrite split_loop_token by done. rewrite append_nil_l, append_cons, append_nil_l.
    cbn [split_loop]. change (is_space " ") with true. cbv iota.
    rewrite bool_decide_eq_false_2 by done. f_equal. by apply IH.
Qed.

Lemma hex_digit_not_space (n : N) : (n < 16)%N → is_space (hex_digit n) = false.
Proof.
  intros Hn. assert (Hc : n ∈ (N.of_nat <$> seq 0 16)).
  { apply list_elem_of_fmap. exists (N.to_nat n). split; [lia|].
    apply list_elem_of_In, in_seq. lia. }
  simpl in Hc. repeat (apply elem_of_cons in Hc as [->|Hc]; [reflexivity|]).
  by apply elem_of_nil in Hc.
Qed.

Lemma byte_nibbles (b : byte) : (Byte.to_N b / 16 < 16)%N ∧ (Byte.to_N b mod 16 < 16)%N.
Proof.
  pose proof (Byte.to_N_bounded b). split.
  - apply N.Div0.div_lt_upper_bound. lia.
  - apply N.mod_lt. lia.
Qed.

Lemma hexlify_no_space (d : bytes) : has_space (hexlify d) = false.
Proof.
  induction d as [|b d IH]; simpl; [done|].
  destruct (byte_nibbles b) as (Hh & Hl).
  rewrite !hex_digit_not_space, IH by done. done.
Qed.

Lemma hex_value_digit (n : N) : (n < 16)%N → hex_value (hex_digit n) = Some n.
Proof.
  intros Hn. assert (Hc : n ∈ (N.of_nat <$> seq 0 16)).
  { apply list_elem_of_fmap. exists (N.to_nat n). split; [lia|].
    apply list_elem_of_In, in_seq. lia. }
  simpl in Hc. repeat (apply elem_of_cons in Hc as [->|Hc]; [reflexivity|]).
  by apply elem_of_nil in Hc.
Qed.

(** [unhexlify] reads back what [hexlify] wrote. *)
Lemma unhexlify_hexlify (d : bytes) : unhexlify (hexlify d) = Ok d.
Proof.
  induction d as [|b d IH]; [done|].
  cbn [hexlify unhexlify]. destruct (byte_nibbles b) as (Hh & Hl).
  rewrite !hex_value_digit by done.
  replace (16 * (Byte.to_N b / 16) + Byte.to_N b mod 16)%N with (Byte.to_N b)
    by (rewrite (N.div_mod (Byte.to_N b) 16) at 1; lia).
  rewrite Byte.of_to_N, IH. done.
Qed.

Lemma hex_digit_not_quote (n : N) : (n < 16)%N → hex_digit n ≠ "'"%char.
Proof.
  intros Hn. assert (Hc : n ∈ (N.of_nat <$> seq 0 16)).
  { apply list_elem_of_fmap. exists (N.to_nat n). split; [lia|].
    apply list_elem_of_In, in_seq. lia. }
  simpl in Hc. repeat (apply elem_of_cons in Hc as [->|Hc]; [discriminate|]).
  by apply elem_of_nil in Hc.
Qed.

Lemma last_char_snoc (s : string) (c : ascii) :
  last_char (s +:+ String c EmptyString) = Some c.
Proof.
  induction s as [|x s IH]; [done|]. rewrite append_cons. cbn [last_char].
  rewrite IH. destruct (s +:+ String c EmptyString) eqn:E; [|done].
  destruct s; discriminate.
Qed.

Lemma str_init_snoc (s : string) (c : ascii) : str_init (s +:+ String c EmptyString) = s.
Proof.
  induction s as [|x s IH]; [done|]. rewrite append_cons. cbn [str_init].
  rewrite IH. destruct (s +:+ String c EmptyString) eqn:E; [|done].
  destruct s; discriminate.
Qed.

(** ** Reading back what the encoder wrote *)

Lemma ord_slice_app (p q : bytes) (c : byte) :
  ord (py_slice (p ++ c :: q) (len p) (len p + 1)) = Ok (byte_to_int c).
Proof.
  change (c :: q) with ([c] ++ q).
  replace (len p + 1) with (len p + len [c]) by (unfold len; simpl; lia).
  rewrite py_slice_app_mid. done.
Qed.

Lemma py_slice_app_after (p h m q : bytes) :
  py_slice (p ++ h ++ m ++ q) (len p + len h) (len p + len h + len m) = m.
Proof. rewrite (app_assoc p h), <- len_app. apply py_slice_app_mid. Qed.

Lemma to_bytes_little_length (n : nat) (v : Z) : length (to_bytes_little n v) = n.
Proof.
  revert v. induction n as [|n IH]; intros v; cbn [to_bytes_little]; [done|].
  destruct (Byte.of_N (Z.to_N (v mod 256))) as [b|] eqn:E.
  - simpl. by rewrite IH.
  - apply Byte.of_N_None_iff in E. pose proof (Z.mod_pos_bound v 256). lia.
Qed.

Lemma from_to_bytes_little (n : nat) (v : Z) :
  0 <= v < 256 ^ Z.of_nat n → from_bytes_little (to_bytes_little n v) = v.
Proof.
  revert v. induction n as [|n IH]; intros v Hv; cbn [to_bytes_little].
  - simpl in *. lia.
  - destruct (Byte.of_N (Z.to_N (v mod 256))) as [b|] eqn:E.
    + cbn [from_bytes_little]. apply Byte.to_of_N in E.
      unfold byte_to_int. rewrite E.
      pose proof (Z.mod_pos_bound v 256). rewrite Z2N.id by lia.
      rewrite IH.
      * pose proof (Z.div_mod v 256). lia.
      * rewrite Nat2Z.inj_succ, Z.pow_succ_r in Hv by lia.
        split; [apply Z.div_pos; lia|apply Z.div_lt_upper_bound; lia].
    + apply Byte.of_N_None_iff in E. pose proof (Z.mod_pos_bound v 256). lia.
Qed.

(** An opcode above the push opcodes is read as itself, without data. *)
Lemma get_opcode_plain (p q : bytes) (c : byte) :
  OP_PUSHDATA4 < byte_to_int c →
  get_opcode (p ++ [c] ++ q) (len p) = Ok (byte_to_int c, None, len p + 1).
Proof.
  intros Hc. unfold get_opcode. cbn [app]. rewrite ord_slice_app.
  cbn [mbind result_bind]. destruct (Z.leb_spec (byte_to_int c) OP_PUSHDATA4); [lia|done].
Qed.

(** A literal push is read as its data. *)
Lemma get_opcode_literal (p q d : bytes) (l : byte) :
  byte_to_int l = len d → len d < OP_PUSHDATA1 →
  get_opcode (p ++ (l :: d) ++ q) (len p) = Ok (len d, Some d, len p + 1 + len d).
Proof.
  intros Hl Hd. unfold get_opcode. cbn [app]. rewrite ord_slice_app.
  cbn [mbind result_bind]. rewrite Hl.
  destruct (Z.leb_spec (len d) OP_PUSHDATA4); [|unfold OP_PUSHDATA4, OP_PUSHDATA1 in *; lia].
  destruct (Z.ltb_spec (len d) OP_PUSHDATA1); [|lia]. cbn [mbind result_bind].
  change (p ++ l :: d ++ q) with (p ++ [l] ++ d ++ q).
  change (len p + 1) with (len p + len [l]).
  rewrite py_slice_app_after.
  destruct (Z.ltb_spec (len d) (len d)); [lia|]. done.
Qed.

(** An extended push, with a length prefix of [w] bytes, is read as its data. *)
Lemma get_opcode_pushdata (p q d pre : bytes) (o : byte) (w : Z) :
  (byte_to_int o = OP_PUSHDATA1 ∧ w = 1 ∨ byte_to_int o = OP_PUSHDATA2 ∧ w = 2 ∨
   byte_to_int o = OP_PUSHDATA4 ∧ w = 4) →
  len pre = w → from_bytes_little pre = len d →
  get_opcode (p ++ (o :: pre ++ d) ++ q) (len p)
  = Ok (byte_to_int o, Some d, len p + 1 + w + len d).
Proof.
  intros Ho Hpre Hsize. unfold get_opcode. cbn [app]. rewrite ord_slice_app.
  cbn [mbind result_bind].
  assert (Hslice : py_slice (p ++ o :: (pre ++ d) ++ q) (len p + 1) (len p + 1 + w) = pre).
  { change (p ++ o :: (pre ++ d) ++ q) with (p ++ [o] ++ (pre ++ d) ++ q).
    rewrite <- (app_assoc pre d q). change (len p + 1) with (len p + len [o]).
    rewrite <- Hpre. apply py_slice_app_after. }
  assert (Hdata : py_slice (p ++ o :: (pre ++ d) ++ q) (len p + 1 + w) (len p + 1 + w + len d)
                  = d).
  { change (p ++ o :: (pre ++ d) ++ q) with (p ++ ([o] ++ (pre ++ d)) ++ q).
    rewrite (app_assoc [o] pre d), <- (app_assoc ([o] ++ pre) d q).
    replace (len p + 1 + w) with (len p + len ([o] ++ pre))
      by (rewrite len_app; unfold len at 2; simpl; lia).
    apply py_slice_app_after. }
  unfold OP_PUSHDATA1, OP_PUSHDATA2, OP_PUSHDATA4 in *.
  destruct Ho as [(Ho & ->)|[(Ho & ->)|(Ho & ->)]]; rewrite Ho; cbn [mbind result_bind];
    match goal with
    | |- context [Z.leb ?a ?b] => change (Z.leb a b) with true
    end; cbv iota;
    repeat match goal with
    | |- context [Z.ltb ?a ?b] =>
        first [change (Z.ltb a b) with true | change (Z.ltb a b) with false]; cbv iota
    | |- context [Z.eqb ?a ?b] =>
        first [change (Z.eqb a b) with true | change (Z.eqb a b) with false]; cbv iota
    end;
    cbn [mbind result_bind]; rewrite Hslice, Hsize, Hdata;
    (destruct (Z.ltb_spec (len d) (len d)); [lia|]); done.
Qed.

(** ** Compiling the disassembled tokens *)

(** A text that starts with a bracket is no mnemonic, with or without the
    OP_ prefix put in front. *)
Lemma opcode_lookup_bracket (s : string) :
  OPCODE_TO_INT !! String "[" s = None ∧
  OPCODE_TO_INT !! ("OP_" +:+ String "[" s) = None.
Proof.
  split; apply not_elem_of_list_to_map_1; cbn;
    repeat (apply not_elem_of_cons; split; [discriminate|]); apply not_elem_of_nil.
Qed.

(** A bracketed hexadecimal token compiles to the push of its data. *)
Lemma compile_token_data (d f : bytes) :
  compile_token ("[" +:+ hexlify d +:+ "]") f = write_push_data [d] f.
Proof.
  unfold compile_token. rewrite append_cons, append_nil_l.
  destruct (opcode_lookup_bracket (hexlify d +:+ "]")) as (-> & ->).
  change (startswith "0x" (String "[" (hexlify d +:+ "]"))) with false. cbv iota.
  cbn [first_char last_char].
  assert (Hlast : last_char (String "[" (hexlify d +:+ "]")) = Some "]"%char).
  { rewrite <- (append_cons "[" (hexlify d) "]"). apply last_char_snoc. }
  cbn [last_char] in Hlast. rewrite Hlast.
  rewrite (bool_decide_eq_true_2
             (Some "["%char = Some "["%char ∧ Some "]"%char = Some "]"%char)) by done.
  cbn [strip_ends]. rewrite str_init_snoc.
  rewrite bool_decide_eq_false_2.
  - rewrite unhexlify_hexlify. done.
  - intros (Hfirst & _). destruct d as [|b d]; [discriminate|].
    cbn [hexlify first_char] in Hfirst. injection Hfirst as Hfirst.
    eapply hex_digit_not_quote; [|exact Hfirst]. apply byte_nibbles.
Qed.

(** Every opcode above PUSHDATA4 that has a mnemonic is one byte, and its
    mnemonic is a token that compiles back to that byte. *)
Lemma known_opcode_round_trip (c : Z) :
  OP_PUSHDATA4 < c → is_Some (INT_TO_OPCODE !! c) →
  ∃ name b,
    INT_TO_OPCODE !! c = Some name ∧ bytes_from_int c = Ok [b] ∧ byte_to_int b = c ∧
    token_ok name ∧ ∀ f, compile_token name f = Ok (f ++ [b]).
Proof.
  intros Hc (name & Hname). exists name.
  pose proof Hname as Hin. apply elem_of_list_to_map_2 in Hin. cbn in Hin.
  unfold OP_PUSHDATA4 in Hc.
  repeat (apply elem_of_cons in Hin as [Hin|Hin];
    [ injection Hin as -> ->;
      first [ lia
            | eexists; split; [done|]; split; [reflexivity|]; split; [reflexivity|];
              split; [split; [discriminate|reflexivity]|];
              intros f; vm_compute; reflexivity ]
    | ]).
  by apply elem_of_nil in Hin.
Qed.

(** ** Round trip through [disassemble] and [compile] *)

(** One item: the bytes [enc] written for it, the token [text] that
    [disassemble] shows for them wherever they stand in a script, and the
    same bytes again when [compile] reads the token. *)
Lemma item_round_trip (i : script_item) :
  item_ok i →
  ∃ enc text,
    (∀ f rest, write_items (i :: rest) f = write_items rest (f ++ enc)) ∧
    token_ok text ∧
    (∀ p q, ∃ opcode data,
       get_opcode (p ++ enc ++ q) (len p) = Ok (opcode, data, len p + len enc) ∧
       disassemble_for_opcode_data opcode data = text) ∧
    (∀ f, compile_token text f = Ok (f ++ enc)).
Proof.
  assert (Hop : ∀ c, OP_PUSHDATA4 < c → is_Some (INT_TO_OPCODE !! c) →
    ∃ b text,
      bytes_from_int c = Ok [b] ∧ token_ok text ∧
      (∀ p q, ∃ opcode data,
         get_opcode (p ++ [b] ++ q) (len p) = Ok (opcode, data, len p + len [b]) ∧
         disassemble_for_opcode_data opcode data = text) ∧
      (∀ f, compile_token text f = Ok (f ++ [b]))).
  { intros c Hc Hknown.
    destruct (known_opcode_round_trip c Hc Hknown) as (name & b & Hn & Hb & Hv & Htok & Hcomp).
    exists b, name. repeat split; try done; try apply Htok.
    intros p q. exists c, None. rewrite get_opcode_plain by lia. rewrite Hv.
    split; [done|]. cbn [disassemble_for_opcode_data]. rewrite Hn. done. }
  destruct i as [d|c]; cbn [item_ok].
  - intros Hlen. pose proof (len_nonneg d) as Hd.
    assert (Hdata : ∀ enc opc,
      (∀ f, write_push_data [d] f = Ok (f ++ enc)) → 0 < len d →
      (∀ p q, get_opcode (p ++ enc ++ q) (len p) = Ok (opc, Some d, len p + len enc)) →
      ∃ enc text,
        (∀ f rest, write_items (PushData d :: rest) f = write_items rest (f ++ enc)) ∧
        token_ok text ∧
        (∀ p q, ∃ opcode data,
           get_opcode (p ++ enc ++ q) (len p) = Ok (opcode, data, len p + len enc) ∧
           disassemble_for_opcode_data opcode data = text) ∧
        (∀ f, compile_token text f = Ok (f ++ enc))).
    { intros enc opc Hw Hpos Hget. exists enc, ("[" +:+ hexlify d +:+ "]")%string.
      split; [|split; [|split]].
      - intros f rest. cbn [write_items]. rewrite Hw. done.
      - split; [rewrite append_cons; discriminate|].
        rewrite !has_space_append, hexlify_no_space. done.
      - intros p q. eexists _, _. split; [apply Hget|].
        cbn [disassemble_for_opcode_data]. rewrite Z.gtb_ltb.
        destruct (Z.ltb_spec 0 (len d)); [done|lia].
      - intros f. rewrite compile_token_data. apply Hw. }
    destruct (decide (d = [x00])) as [->|Hne0].
    { (* the single zero byte is written as OP_0 *)
      exists [x00], "OP_0"%string. split; [|split; [|split]].
      - intros f rest. reflexivity.
      - split; [discriminate|reflexivity].
      - intros p q. exists 0, (Some []).
        rewrite (get_opcode_literal p q [] x00) by done. rewrite Z.add_0_r. done.
      - intros f. vm_compute. reflexivity. }
    assert (Hw : ∀ f, write_push_data [d] f = Ok (f ++ push_encoding_spec d)).
    { intros f. rewrite write_push_data_single by done.
      rewrite bool_decide_eq_false_2 by done. done. }
    destruct d as [|b [|b' d']].
    + exists [x00], "OP_0"%string. split; [|split; [|split]].
      * intros f rest. reflexivity.
      * split; [discriminate|reflexivity].
      * intros p q. exists 0, (Some []).
        rewrite (get_opcode_literal p q [] x00) by done. rewrite Z.add_0_r. done.
      * intros f. vm_compute. reflexivity.
    + pose proof (byte_to_int_range b) as Hb.
      cbn [push_encoding_spec] in Hw.
      destruct ((1 <=? byte_to_int b) && (byte_to_int b <=? 16)) eqn:Hsmall.
      * (* a small integer: one of OP_1 .. OP_16 *)
        apply andb_true_iff in Hsmall as (H1%Z.leb_le & H16%Z.leb_le).
        assert (Hknown : is_Some (INT_TO_OPCODE !! (80 + byte_to_int b))).
        { assert (Hc : byte_to_int b ∈ (Z.of_nat <$> seq 1 16)).
          { apply list_elem_of_fmap. exists (Z.to_nat (byte_to_int b)). split; [lia|].
            apply list_elem_of_In, in_seq. lia. }
          simpl in Hc.
          repeat (apply elem_of_cons in Hc as [->|Hc]; [vm_compute; eauto|]).
          by apply elem_of_nil in Hc. }
        destruct (Hop (80 + byte_to_int b)) as (c & text & Hc & Htok & Hget & Hcomp);
          [unfold OP_PUSHDATA4; lia|done|].
        assert (Hc' : to_bytes_little 1 (80 + byte_to_int b) = [c])
          by (rewrite bytes_from_int_small in Hc by lia; congruence).
        rewrite Hc' in Hw.
        exists [c], text. split; [|done].
        intros f rest. cbn [write_items]. rewrite Hw. done.
      * apply (Hdata [x01; b] 1); [done|done|].
        intros p q. rewrite (get_opcode_literal p q [b] x01) by done.
        do 2 f_equal. unfold len; simpl; lia.
    + set (d := b :: b' :: d') in *.
      assert (Hl : 2 <= len d) by (unfold d, len; simpl; lia).
      assert (Henc : push_encoding_spec d =
        if len d <=? 75 then to_bytes_little 1 (len d) ++ d
        else if len d <=? 255 then x4c :: to_bytes_little 1 (len d) ++ d
        else if len d <=? 65535 then x4d :: to_bytes_little 2 (len d) ++ d
        else x4e :: to_bytes_little 4 (len d) ++ d) by done.
      rewrite Henc in Hw. clear Henc.
      destruct (Z.leb_spec (len d) 75).
      * destruct (to_bytes_little_1 (len d)) as (l & Hlb & Hlv); [lia|].
        rewrite Hlb in Hw. apply (Hdata (l :: d) (len d)); [exact Hw|lia|].
        intros p q. rewrite (get_opcode_literal p q d l) by (unfold OP_PUSHDATA1; lia).
        rewrite len_cons. do 2 f_equal. lia.
      * assert (Hpd : ∀ (o : byte) (n : nat),
          (byte_to_int o = OP_PUSHDATA1 ∧ Z.of_nat n = 1 ∨
           byte_to_int o = OP_PUSHDATA2 ∧ Z.of_nat n = 2 ∨
           byte_to_int o = OP_PUSHDATA4 ∧ Z.of_nat n = 4) →
          len d < 256 ^ Z.of_nat n →
          ∀ p q, get_opcode (p ++ (o :: to_bytes_little n (len d) ++ d) ++ q) (len p)
                 = Ok (byte_to_int o, Some d, len p + len (o :: to_bytes_little n (len d) ++ d))).
        { intros o n Ho Hfit p q.
          rewrite (get_opcode_pushdata p q d (to_bytes_little n (len d)) o (Z.of_nat n)).
          - rewrite len_cons, len_app. unfold len at 4. rewrite to_bytes_little_length.
            do 2 f_equal. lia.
          - done.
          - unfold len. by rewrite to_bytes_little_length.
          - apply from_to_bytes_little. lia. }
        destruct (Z.leb_spec (len d) 255).
        { apply (Hdata (x4c :: to_bytes_little 1 (len d) ++ d) 76); [done|lia|].
          intros p q. rewrite (Hpd x4c 1%nat) by (first [left; done | lia]).
          done. }
        destruct (Z.leb_spec (len d) 65535).
        { apply (Hdata (x4d :: to_bytes_little 2 (len d) ++ d) 77); [done|lia|].
          intros p q. rewrite (Hpd x4d 2%nat) by (first [right; left; done | lia]).
          done. }
        { apply (Hdata (x4e :: to_bytes_little 4 (len d) ++ d) 78); [done|lia|].
          intros p q. rewrite (Hpd x4e 4%nat) by (first [right; right; done | lia]).
          done. }
  - intros (Hc & Hknown).
    destruct (Hop c Hc Hknown) as (b & text & Hb & Htok & Hget & Hcomp).
    exists [b], text. split; [|done].
    intros f rest. cbn [write_items]. rewrite Hb. done.
Qed.

Lemma write_items_round_trip (items : list script_item) (p script : bytes) :
  Forall item_ok items → write_items items p = Ok script →
  ∃ tail texts,
    script = p ++ tail ∧ Forall token_ok texts ∧
    (∀ acc, opcode_list_loop (length script) script (len p) acc = Ok (acc ++ texts)) ∧
    (∀ f, compile_loop texts f = Ok (f ++ tail)).
Proof.
  revert p. induction items as [|i rest IH]; intros p Hall Hw.
  - injection Hw as <-. exists [], []. rewrite app_nil_r.
    split; [done|]. split; [done|]. split.
    + intros acc. rewrite opcode_list_loop_unfold by apply len_nonneg.
      destruct (Z.ltb_spec (len p) (len p)); [lia|]. by rewrite app_nil_r.
    + intros f. by rewrite app_nil_r.
  - apply Forall_cons in Hall as (Hi & Hrest).
    destruct (item_round_trip i Hi) as (enc & text & Hwi & Htok & Hget & Hcomp).
    rewrite Hwi in Hw.
    destruct (IH (p ++ enc) Hrest Hw) as (tail & texts & -> & Htoks & Hloop & Hcl).
    exists (enc ++ tail), (text :: texts).
    split; [by rewrite app_assoc|]. split; [by constructor|]. split.
    + intros acc. rewrite opcode_list_loop_unfold by apply len_nonneg.
      destruct (Hget p tail) as (opcode & data & Hg & Htext).
      rewrite <- app_assoc. rewrite <- app_assoc in Hloop.
      pose proof (get_opcode_Ok_inv _ _ _ _ _ (len_nonneg p) Hg) as (Hlt & _).
      destruct (Z.ltb_spec (len p) (len (p ++ enc ++ tail))); [|lia].
      rewrite Hg. cbn [mbind result_bind]. rewrite Htext, <- len_app, Hloop.
      by rewrite <- app_assoc.
    + intros f. cbn [compile_loop]. rewrite Hcomp. cbn [mbind result_bind].
      rewrite Hcl. by rewrite <- app_assoc.
Qed.

(** Round trip: a script made of pushes written by [write_push_data] and of
    opcodes that have a mnemonic is what [compile] makes of its own
    disassembly. *)
Lemma compile_disassemble_written (items : list script_item) (script : bytes) :
  Forall item_ok items → write_items items [] = Ok script →
  (disassemble script ≫= compile) = Ok script.
Proof.
  intros Hall Hw.
  destruct (write_items_round_trip items [] script Hall Hw)
    as (tail & texts & -> & Htoks & Hloop & Hcl).
  specialize (Hloop []). specialize (Hcl []).
  change (len (@nil byte)) with 0 in Hloop. cbn [app] in *.
  unfold disassemble, opcode_list. rewrite Hloop. cbn [mbind result_bind].
  unfold compile. rewrite split_join by done. apply Hcl.
Qed.

Lemma spec_script_written (items : list script_item) (script f : bytes) :
  Forall item_ok items → PushData [x00] ∉ items →
  spec_script items = Ok script → write_items items f = Ok (f ++ script).
Proof.
  revert script f. induction items as [|i rest IH]; intros script f Hall Hno Hs.
  - injection Hs as <-. by rewrite app_nil_r.
  - apply Forall_cons in Hall as (Hi & Hrest).
    apply not_elem_of_cons in Hno as (Hne & Hno).
    destruct i as [d|c]; cbn [spec_script write_items] in *.
    + destruct (spec_script rest) as [r|] eqn:Hr; [|discriminate].
      injection Hs as <-. rewrite write_push_data_single by done.
      rewrite bool_decide_eq_false_2 by congruence. cbn [mbind result_bind].
      rewrite (IH r) by done. by rewrite <- app_assoc.
    + destruct (bytes_from_int c) as [o|]; [|discriminate]. cbn [mbind result_bind] in *.
      destruct (spec_script rest) as [r|] eqn:Hr; [|discriminate].
      injection Hs as <-. rewrite (IH r) by done. by rewrite <- app_assoc.
Qed.

(** The round trip holds for every script built from minimal pushes, in
    the spec's sense, and known opcodes, as long as no push is the single
    byte 0. *)
Lemma compile_disassemble_spec_script (items : list script_item) (script : bytes) :
  Forall item_ok items → PushData [x00] ∉ items →
  spec_script items = Ok script →
  (disassemble script ≫= compile) = Ok script.
Proof.
  intros Hall Hno Hs. apply (compile_disassemble_written items); [done|].
  by apply (spec_script_written items script []).
Qed.

(** ** The multisig solver without an existing script *)

(** A 2-of-3 descriptor and a key lookup that knows exactly one of the
    three keys: the solver signs with that key and fills the second slot
    with the placeholder; the script it compiles is OP_0 followed by these
    two elements. *)
Lemma solve_partial_two_of_three `{SC : SolverCollaborators}
    (self : ScriptMultisig.t) (db : bytes → option key_entry) (k1 k2 k3 : bytes)
    (secret_exponent : Z) (public_pair : Z * Z) (compressed : bool)
    (sign_value signature_type : Z) :
  ScriptMultisig.n self = 2 → ScriptMultisig.sec_keys self = [k1; k2; k3] →
  let known := Some (secret_exponent, public_pair, compressed) in
  (db (hash160 k1) = known ∧ db (hash160 k2) = None ∧ db (hash160 k3) = None) ∨
  (db (hash160 k1) = None ∧ db (hash160 k2) = known ∧ db (hash160 k3) = None) ∨
  (db (hash160 k1) = None ∧ db (hash160 k2) = None ∧ db (hash160 k3) = known) →
  ScriptMultisig.solve self (Some db) None sign_value signature_type =
    _dummy_signature signature_type ≫= λ dummy,
    compile ("OP_0 " +:+ join " "
               [b2h (_create_script_signature secret_exponent sign_value signature_type);
                b2h dummy]).
Proof.
  intros Hn Hkeys known Hdb. unfold ScriptMultisig.solve.
  rewrite Hn, Hkeys. cbn [mbind result_bind ScriptMultisig.sign_loop].
  change (len (@nil bytes) >=? 2) with false. cbv iota.
  destruct Hdb as [(-> & -> & ->)|[(-> & -> & ->)|(-> & -> & ->)]]; unfold known;
    cbn [app]; repeat (change (len [?x] >=? 2) with false; cbv iota);
    destruct (_dummy_signature signature_type) as [dummy|]; done.
Qed.

(* ===================================================================== *)
(** * Part III: further properties of the code *)
(* ===================================================================== *)

(** ** tools.py: the opcode reader at the edges *)

Lemma py_slice_one (s : bytes) (pc : Z) :
  0 <= pc < len s → ∃ b, s !! Z.to_nat pc = Some b ∧ py_slice s pc (pc + 1) = [b].
Proof.
  intros Hpc. unfold len in Hpc.
  destruct (s !! Z.to_nat pc) as [b|] eqn:E.
  - exists b. split; [done|]. unfold py_slice, len.
    rewrite !Z.min_l by lia.
    replace (Z.to_nat (pc + 1 - pc)) with 1%nat by lia.
    rewrite (drop_S _ _ _ E). done.
  - apply lookup_ge_None in E. lia.
Qed.

Lemma py_slice_same {A} (s : list A) (a : Z) : py_slice s a a = [].
Proof. unfold py_slice. rewrite Z.sub_diag. done. Qed.

(** X1. A read at or beyond the end of the script raises TypeError: the
    slice [script[pc:pc + 1]] is empty there and [ord] rejects it. *)
Theorem get_opcode_past_end (script : bytes) (pc : Z) :
  0 <= pc → len script <= pc → get_opcode script pc = Raise TypeError.
Proof.
  intros Hpc Hend. unfold get_opcode. rewrite (py_slice_empty script pc (pc + 1)) by lia. done.
Qed.

Lemma get_opcode_past_end_witness : get_opcode [x76; xa9] 2 = Raise TypeError.
Proof. apply get_opcode_past_end; [lia | unfold len; simpl; lia]. Defined.

Lemma get_opcode_inside (script : bytes) (pc : Z) :
  0 <= pc < len script →
  is_Ok (get_opcode script pc) = true ∨
  get_opcode script pc = Raise (ScriptError "unexpected end of data when literal expected").
Proof.
  intros Hpc. unfold get_opcode.
  destruct (py_slice_one script pc Hpc) as (b & _ & ->).
  cbn [ord mbind result_bind].
  pose proof (byte_to_int_range b) as Hb.
  destruct (Z.leb_spec (byte_to_int b) OP_PUSHDATA4) as [H4|H4]; [|left; done].
  assert (Hsize : ∀ (sp : result (Z * Z)),
            is_Ok sp = true →
            is_Ok (sp ≫= λ '(size, pc0),
                     if len (py_slice script pc0 (pc0 + size)) <? size
                     then Raise (ScriptError "unexpected end of data when literal expected")
                     else Ok (byte_to_int b, Some (py_slice script pc0 (pc0 + size)),
                              pc0 + size)) = true ∨
            (sp ≫= λ '(size, pc0),
               if len (py_slice script pc0 (pc0 + size)) <? size
               then Raise (ScriptError "unexpected end of data when literal expected")
               else Ok (byte_to_int b, Some (py_slice script pc0 (pc0 + size)),
                        pc0 + size))
            = Raise (ScriptError "unexpected end of data when literal expected")).
  { intros [[size pc0]|] Hsp; [|discriminate]. cbn [mbind result_bind].
    destruct (len (py_slice script pc0 (pc0 + size)) <? size); [right|left]; done. }
  apply Hsize. unfold OP_PUSHDATA4, OP_PUSHDATA1, OP_PUSHDATA2 in *.
  destruct (Z.ltb_spec (byte_to_int b) 76); [done|].
  destruct (Z.eqb_spec (byte_to_int b) 76); [done|].
  destruct (Z.eqb_spec (byte_to_int b) 77); [done|].
  destruct (Z.eqb_spec (byte_to_int b) 78); [done|]. lia.
Qed.

(** X2. Inside the script the reader has one way to fail: the ScriptError
    for data that end before the announced size.  TypeError belongs to
    reads at the end of the script, and the branch that would leave
    [size] unassigned is never taken. *)
Theorem get_opcode_only_script_error (script : bytes) (pc : Z) (e : exn) :
  0 <= pc < len script → get_opcode script pc = Raise e →
  e = ScriptError "unexpected end of data when literal expected".
Proof.
  intros Hpc He. destruct (get_opcode_inside script pc Hpc) as [H|H].
  - rewrite He in H. discriminate.
  - rewrite He in H. congruence.
Qed.

Lemma get_opcode_only_script_error_witness :
  get_opcode [x05; x01; x02] 0 = Raise (ScriptError "unexpected end of data when literal expected")
  ∧ ScriptError "unexpected end of data when literal expected"
    = ScriptError "unexpected end of data when literal expected".
Proof.
  assert (H : get_opcode [x05; x01; x02] 0
              = Raise (ScriptError "unexpected end of data when literal expected"))
    by reflexivity.
  split; [exact H|].
  apply (get_opcode_only_script_error [x05; x01; x02] 0).
  - unfold len; simpl; lia.
  - exact H.
Defined.

(** X3. What a successful read returns: the opcode is the byte under the
    cursor, the cursor moves forward, data come with the opcodes up to
    OP_PUSHDATA4 and with no other, an opcode without data takes one
    byte, and the data are the bytes of the script that end at the new
    cursor; when they are not empty the new cursor is inside the script
    or at its end. *)
Theorem get_opcode_result (script : bytes) (pc opcode pc' : Z) (data : option bytes) :
  0 <= pc → get_opcode script pc = Ok (opcode, data, pc') →
  py_index script pc = Ok opcode ∧ pc < pc' ∧
  (data = None ↔ OP_PUSHDATA4 < opcode) ∧
  (data = None → pc' = pc + 1) ∧
  (∀ d, data = Some d →
     d = py_slice script (pc' - len d) pc' ∧ (d ≠ [] → pc' <= len script)).
Proof.
  intros Hpc H.
  pose proof (get_opcode_advances _ _ _ _ _ Hpc H) as Hadv.
  pose proof (get_opcode_Ok_inv _ _ _ _ _ Hpc H) as (Hin & Hop & Hcase).
  assert (Hidx : py_index script pc = Ok opcode).
  { unfold get_opcode in H.
    destruct (ord (py_slice script pc (pc + 1))) as [v|] eqn:E; [|discriminate].
    destruct (ord_slice_Ok _ _ _ Hpc E) as (b & Hb & -> & _).
    cbn [mbind result_bind] in H.
    assert (opcode = byte_to_int b) as ->.
    { destruct (byte_to_int b <=? OP_PUSHDATA4).
      - destruct (_ : result (Z * Z)) as [[size pc0]|]; [|discriminate].
        cbn [mbind result_bind] in H.
        destruct (len _ <? size); [discriminate|]. congruence.
      - congruence. }
    apply py_index_Ok_iff. eauto. }
  split; [done|]. split; [done|].
  destruct Hcase as [(Hgt & -> & ->) | (Hle & hdr & size & d & Hh & Hs & -> & Hlen & -> & Hd)].
  - split; [done|]. split; [done|]. intros d [=].
  - split; [split; [discriminate | lia]|]. split; [discriminate|].
    intros d' [= <-]. split.
    + rewrite Hd at 1. f_equal. lia.
    + intros Hne. apply (get_opcode_data_within _ _ _ _ _ Hpc H Hne).
Qed.

Lemma get_opcode_result_witness :
  get_opcode [x76; x02; xaa; xbb; xac] 1 = Ok (2, Some [xaa; xbb], 4) ∧
  py_index [x76; x02; xaa; xbb; xac] 1 = Ok 2.
Proof.
  assert (H : get_opcode [x76; x02; xaa; xbb; xac] 1 = Ok (2, Some [xaa; xbb], 4))
    by reflexivity.
  split; [exact H|].
  refine (proj1 (get_opcode_result _ 1 2 4 (Some [xaa; xbb]) _ H)). lia.
Defined.

(** ** pay_to/ScriptMultisig.py: the template reader *)

Lemma from_script_loop_fuel (fuel fuel' : nat) (script : bytes) (pc : Z)
    (sec_keys : list bytes) :
  0 <= pc → len script - pc < Z.of_nat fuel → len script - pc < Z.of_nat fuel' →
  ScriptMultisigTemplate.from_script_loop fuel script pc sec_keys
  = ScriptMultisigTemplate.from_script_loop fuel' script pc sec_keys.
Proof.
  revert fuel' pc sec_keys.
  induction fuel as [|fuel IH]; intros fuel' pc keys Hpc Hf Hf'.
  - destruct fuel' as [|fuel']; [done|].
    cbn [ScriptMultisigTemplate.from_script_loop].
    unfold get_opcode. rewrite (py_slice_empty script pc (pc + 1)) by lia. done.
  - destruct fuel' as [|fuel'].
    + cbn [ScriptMultisigTemplate.from_script_loop].
      unfold get_opcode. rewrite (py_slice_empty script pc (pc + 1)) by lia. done.
    + cbn [ScriptMultisigTemplate.from_script_loop].
      destruct (get_opcode script pc) as [[[opcode data] pc']|] eqn:E; [|done].
      cbn [mbind result_bind].
      pose proof (get_opcode_advances _ _ _ _ _ Hpc E).
      destruct data as [d|]; [|done].
      destruct ((len d <? 33) || (len d >? 120)); [done|].
      apply IH; lia.
Qed.

(** The equation of the [while 1] loop of [from_script]. *)
Lemma from_script_loop_unfold (script : bytes) (pc : Z) (sec_keys : list bytes) :
  0 <= pc →
  ScriptMultisigTemplate.from_script_loop (S (length script)) script pc sec_keys =
    get_opcode script pc ≫= λ '(opcode, data, pc'),
      match data with
      | None => Raise TypeError
      | Some d =>
          if (len d <? 33) || (len d >? 120) then Ok (opcode, pc', sec_keys)
          else ScriptMultisigTemplate.from_script_loop (S (length script)) script pc'
                 (sec_keys ++ [d])
      end.
Proof.
  intros Hpc. generalize (Nat.lt_succ_diag_r (length script)).
  generalize (S (length script)) at 1 3. intros big Hbig.
  cbn [ScriptMultisigTemplate.from_script_loop].
  destruct (get_opcode script pc) as [[[opcode data] pc']|] eqn:E; [|done].
  cbn [mbind result_bind].
  pose proof (get_opcode_advances _ _ _ _ _ Hpc E).
  destruct data as [d|]; [|done].
  destruct ((len d <? 33) || (len d >? 120)); [done|].
  apply from_script_loop_fuel; unfold len in *; lia.
Qed.

Lemma from_script_loop_break (fuel : nat) (script : bytes) (pc : Z)
    (sec_keys : list bytes) (opcode pc' : Z) (sec_keys' : list bytes) :
  0 <= pc →
  ScriptMultisigTemplate.from_script_loop fuel script pc sec_keys
    = Ok (opcode, pc', sec_keys') →
  opcode <= OP_PUSHDATA4.
Proof.
  revert pc sec_keys. induction fuel as [|fuel IH]; intros pc keys Hpc H; [discriminate|].
  cbn [ScriptMultisigTemplate.from_script_loop] in H.
  destruct (get_opcode script pc) as [[[opcode0 data] pc0]|] eqn:E; [|discriminate].
  cbn [mbind result_bind] in H.
  pose proof (get_opcode_advances _ _ _ _ _ Hpc E).
  pose proof (get_opcode_Ok_inv _ _ _ _ _ Hpc E) as (_ & _ & Hcase).
  destruct data as [d|]; [|discriminate].
  destruct ((len d <? 33) || (len d >? 120)).
  - injection H as -> -> ->.
    destruct Hcase as [(_ & [=] & _)|(Hle & _)]. done.
  - apply (IH pc0 (keys ++ [d])); [lia | done].
Qed.

(** X4. [ScriptMultisig.from_script] returns for no script.  The loop
    over the keys is left only after a token that carries data, whose
    opcode is at most OP_PUSHDATA4, so the count [m] computed from that
    opcode is negative and below [n]; and the token that holds the count
    in a well-formed template carries no data, so [len(data)] raises. *)
Theorem from_script_never_returns (script : bytes) :
  is_Ok (ScriptMultisigTemplate.from_script script) = false.
Proof.
  unfold ScriptMultisigTemplate.from_script.
  destruct (get_opcode script 0) as [[[opcode data] pc]|] eqn:E; [|done].
  cbn [mbind result_bind].
  pose proof (get_opcode_advances _ _ _ _ _ (Z.le_refl 0) E) as Hpc.
  destruct (Z.leb_spec OP_1 opcode) as [H1|]; [|done].
  destruct (Z.ltb_spec opcode OP_16) as [H16|]; [|done].
  cbn [andb negb].
  destruct (ScriptMultisigTemplate.from_script_loop _ script pc [])
    as [[[opcode' pc'] keys]|] eqn:L; [|done].
  cbn [mbind result_bind].
  apply from_script_loop_break in L; [|lia].
  unfold OP_1, OP_PUSHDATA4 in *.
  assert (G : (opcode + (1 - 81) >? opcode' + (1 - 81)) = true).
  { rewrite Z.gtb_ltb. apply Z.ltb_lt. lia. }
  rewrite G. done.
Qed.

(** ** tools.py: the push-data encoder and the reader together *)

(** What [write_push_data] writes for one item does not depend on what
    the stream holds already. *)
Lemma write_push_data_item_stream (t f : bytes) :
  write_push_data_item t f = write_push_data_item t [] ≫= λ r, Ok (f ++ r).
Proof.
  unfold write_push_data_item, int_to_bytes.
  destruct (len t =? 0).
  { destruct (opcode_to_int "OP_0") as [op|]; [|done]. cbn [mbind result_bind].
    destruct (bytes_from_int op); done. }
  assert (Htail :
    (if len t <=? 255 then
       (if len t >? 75 then
          opcode_to_int "OP_PUSHDATA1" ≫= λ op, bytes_from_int op ≫= λ o, Ok (f ++ o)
        else Ok f) ≫= λ f1, bytes_from_int (len t) ≫= λ l, Ok (f1 ++ l ++ t)
     else if len t <=? 65535 then
       opcode_to_int "OP_PUSHDATA2" ≫= λ op, bytes_from_int op ≫= λ o,
       struct_pack_le 2 (len t) ≫= λ l, Ok (f ++ o ++ l ++ t)
     else
       opcode_to_int "OP_PUSHDATA4" ≫= λ op, bytes_from_int op ≫= λ o,
       struct_pack_le 4 (len t) ≫= λ l, Ok (f ++ o ++ l ++ t))
    = (if len t <=? 255 then
         (if len t >? 75 then
            opcode_to_int "OP_PUSHDATA1" ≫= λ op, bytes_from_int op ≫= λ o, Ok ([] ++ o)
          else Ok []) ≫= λ f1, bytes_from_int (len t) ≫= λ l, Ok (f1 ++ l ++ t)
       else if len t <=? 65535 then
         opcode_to_int "OP_PUSHDATA2" ≫= λ op, bytes_from_int op ≫= λ o,
         struct_pack_le 2 (len t) ≫= λ l, Ok ([] ++ o ++ l ++ t)
       else
         opcode_to_int "OP_PUSHDATA4" ≫= λ op, bytes_from_int op ≫= λ o,
         struct_pack_le 4 (len t) ≫= λ l, Ok ([] ++ o ++ l ++ t))
      ≫= λ r, Ok (f ++ r)).
  { destruct (len t <=? 255).
    - destruct (len t >? 75).
      + destruct (opcode_to_int "OP_PUSHDATA1") as [op|]; [|done].
        cbn [mbind result_bind]. destruct (bytes_from_int op) as [o|]; [|done].
        cbn [mbind result_bind]. destruct (bytes_from_int (len t)) as [l|]; [|done].
        cbn [mbind result_bind app]. rewrite <- app_assoc. done.
      + cbn [mbind result_bind]. destruct (bytes_from_int (len t)) as [l|]; done.
    - destruct (len t <=? 65535).
      + destruct (opcode_to_int "OP_PUSHDATA2") as [op|]; [|done].
        cbn [mbind result_bind]. destruct (bytes_from_int op) as [o|]; [|done].
        cbn [mbind result_bind]. destruct (struct_pack_le 2 (len t)); done.
      + destruct (opcode_to_int "OP_PUSHDATA4") as [op|]; [|done].
        cbn [mbind result_bind]. destruct (bytes_from_int op) as [o|]; [|done].
        cbn [mbind result_bind]. destruct (struct_pack_le 4 (len t)); done. }
  destruct (len t =? 1); [|exact Htail].
  destruct (py_index t 0) as [v|]; [|done]. cbn [mbind result_bind].
  destruct (v <=? 16); [|exact Htail].
  destruct (opcode_to_int ("OP_" +:+ pretty v)) as [op|]; [|done].
  cbn [mbind result_bind]. destruct (bytes_from_int op); done.
Qed.

Lemma write_push_data_stream (data_list : list bytes) (f : bytes) :
  write_push_data data_list f = write_push_data data_list [] ≫= λ r, Ok (f ++ r).
Proof.
  revert f. induction data_list as [|t rest IH]; intros f.
  - cbn. rewrite app_nil_r. done.
  - cbn [write_push_data]. rewrite (write_push_data_item_stream t f).
    destruct (write_push_data_item t []) as [r|]; [|done].
    cbn [mbind result_bind]. rewrite (IH (f ++ r)), (IH r).
    destruct (write_push_data rest []) as [r'|]; [|done].
    cbn [mbind result_bind]. rewrite app_assoc. done.
Qed.

Lemma write_push_data_app (l1 l2 : list bytes) (f : bytes) :
  write_push_data (l1 ++ l2) f = write_push_data l1 f ≫= write_push_data l2.
Proof.
  revert f. induction l1 as [|t rest IH]; intros f; [done|].
  cbn [app write_push_data].
  destruct (write_push_data_item t f) as [f'|]; [|done].
  cbn [mbind result_bind]. apply IH.
Qed.

(** X5. [bin_script] of a list in two parts is the concatenation of the
    two scripts, and fails when one of the two fails: every item is
    encoded on its own. *)
Theorem bin_script_app (l1 l2 : list bytes) :
  bin_script (l1 ++ l2) =
    bin_script l1 ≫= λ a, bin_script l2 ≫= λ b, Ok (a ++ b).
Proof.
  unfold bin_script. rewrite write_push_data_app.
  destruct (write_push_data l1 []) as [a|]; [|done].
  cbn [mbind result_bind]. apply write_push_data_stream.
Qed.

(** The reader on the spec-side encoding of data that are not one byte
    of value at most 16. *)
Lemma get_opcode_push_encoding (d : bytes) :
  len d < 2 ^ 32 → (∀ b, d = [b] → 16 < byte_to_int b) →
  ∃ opcode, opcode <= OP_PUSHDATA4 ∧
    ∀ p q, get_opcode (p ++ push_encoding_spec d ++ q) (len p)
           = Ok (opcode, Some d, len p + len (push_encoding_spec d)).
Proof.
  intros Hlen Hbig. destruct d as [|b [|b' d']].
  - exists 0. split; [done|]. intros p q. cbn [push_encoding_spec].
    rewrite (get_opcode_literal p q [] x00) by done. rewrite Z.add_0_r. done.
  - pose proof (Hbig b eq_refl) as Hb. cbn [push_encoding_spec].
    destruct (Z.leb_spec (byte_to_int b) 16); [lia|]. rewrite andb_false_r.
    exists 1. split; [done|]. intros p q.
    rewrite (get_opcode_literal p q [b] x01) by done.
    do 2 f_equal. unfold len; simpl; lia.
  - clear Hbig. set (d := b :: b' :: d') in *.
    assert (Hl : 2 <= len d) by (unfold d, len; simpl; lia).
    assert (Henc : push_encoding_spec d =
      if len d <=? 75 then to_bytes_little 1 (len d) ++ d
      else if len d <=? 255 then x4c :: to_bytes_little 1 (len d) ++ d
      else if len d <=? 65535 then x4d :: to_bytes_little 2 (len d) ++ d
      else x4e :: to_bytes_little 4 (len d) ++ d) by done.
    rewrite Henc. clear Henc.
    assert (Hpd : ∀ (o : byte) (n : nat),
      (byte_to_int o = OP_PUSHDATA1 ∧ Z.of_nat n = 1 ∨
       byte_to_int o = OP_PUSHDATA2 ∧ Z.of_nat n = 2 ∨
       byte_to_int o = OP_PUSHDATA4 ∧ Z.of_nat n = 4) →
      len d < 256 ^ Z.of_nat n →
      ∀ p q, get_opcode (p ++ (o :: to_bytes_little n (len d) ++ d) ++ q) (len p)
             = Ok (byte_to_int o, Some d, len p + len (o :: to_bytes_little n (len d) ++ d))).
    { intros o n Ho Hfit p q.
      rewrite (get_opcode_pushdata p q d (to_bytes_little n (len d)) o (Z.of_nat n)).
      - rewrite len_cons, len_app. unfold len at 4. rewrite to_bytes_little_length.
        do 2 f_equal. lia.
      - done.
      - unfold len. by rewrite to_bytes_little_length.
      - apply from_to_bytes_little. lia. }
    destruct (Z.leb_spec (len d) 75).
    { destruct (to_bytes_little_1 (len d)) as (l & Hlb & Hlv); [lia|].
      rewrite Hlb. exists (len d). split; [unfold OP_PUSHDATA4; lia|]. intros p q.
      change ([l] ++ d) with (l :: d).
      rewrite (get_opcode_literal p q d l) by (unfold OP_PUSHDATA1; lia).
      rewrite len_cons. do 2 f_equal. lia. }
    destruct (Z.leb_spec (len d) 255).
    { exists 76. split; [done|]. intros p q.
      rewrite (Hpd x4c 1%nat) by (first [left; done | lia]). done. }
    destruct (Z.leb_spec (len d) 65535).
    { exists 77. split; [done|]. intros p q.
      rewrite (Hpd x4d 2%nat) by (first [right; left; done | lia]). done. }
    exists 78. split; [done|]. intros p q.
    rewrite (Hpd x4e 4%nat) by (first [right; right; done | lia]). done.
Qed.

(** X6. Push, then read: for data below 2^32 bytes that are not a single
    byte of value at most 16, the reader placed on the bytes that
    [bin_script] wrote for them, anywhere in a script, returns those data
    and stops right behind the bytes written. *)
Theorem bin_script_read_back (d p q : bytes) :
  len d < 2 ^ 32 → (∀ b, d = [b] → 16 < byte_to_int b) →
  ∃ enc opcode,
    bin_script [d] = Ok enc ∧
    get_opcode (p ++ enc ++ q) (len p) = Ok (opcode, Some d, len p + len enc).
Proof.
  intros Hlen Hbig.
  destruct (get_opcode_push_encoding d Hlen Hbig) as (opcode & _ & Hget).
  exists (push_encoding_spec d), opcode. split; [|apply Hget].
  apply bin_script_follows_spec; [|done].
  intros ->. specialize (Hbig x00 eq_refl). vm_compute in Hbig. discriminate.
Qed.

Lemma bin_script_read_back_witness :
  ∃ enc opcode,
    bin_script [[xab; xcd]] = Ok enc ∧
    get_opcode ([x76] ++ enc ++ [xac]) (len [x76])
      = Ok (opcode, Some [xab; xcd], len [x76] + len enc).
Proof.
  apply (bin_script_read_back [xab; xcd] [x76] [xac]).
  - unfold len; simpl; lia.
  - intros b [=].
Defined.

(** X7. A single byte of value at most 16 does not come back: the
    encoder writes it as one of OP_0, OP_1 .. OP_16, and the reader
    returns no data for OP_1 .. OP_16 and empty data for OP_0. *)
Theorem bin_script_small_integer_read_back (b : byte) (p q : bytes) :
  byte_to_int b <= 16 →
  ∃ c opcode data,
    bin_script [[b]] = Ok [c] ∧
    byte_to_int c = (if byte_to_int b =? 0 then 0 else 80 + byte_to_int b) ∧
    get_opcode (p ++ [c] ++ q) (len p) = Ok (opcode, data, len p + 1) ∧
    data ≠ Some [b].
Proof.
  intros Hb.
  assert (Hplain : ∀ c : byte, OP_PUSHDATA4 < byte_to_int c →
            bin_script [[b]] = Ok [c] →
            byte_to_int c = (if byte_to_int b =? 0 then 0 else 80 + byte_to_int b) →
            ∃ c opcode data,
              bin_script [[b]] = Ok [c] ∧
              byte_to_int c = (if byte_to_int b =? 0 then 0 else 80 + byte_to_int b) ∧
              get_opcode (p ++ [c] ++ q) (len p) = Ok (opcode, data, len p + 1) ∧
              data ≠ Some [b]).
  { intros c Hc Hw Hv. exists c, (byte_to_int c), None.
    split; [done|]. split; [done|]. split; [apply get_opcode_plain; done|done]. }
  destruct b; try (vm_compute in Hb; exfalso; apply Hb; reflexivity);
    try (eapply Hplain; [| reflexivity | reflexivity]; vm_compute; reflexivity).
  exists x00, 0, (Some []). split; [done|]. split; [done|]. split; [|done].
  rewrite (get_opcode_literal p q [] x00) by done. rewrite Z.add_0_r. done.
Qed.

Lemma bin_script_small_integer_read_back_witness :
  ∃ c opcode data,
    bin_script [[x05]] = Ok [c] ∧
    byte_to_int c = (if byte_to_int x05 =? 0 then 0 else 80 + byte_to_int x05) ∧
    get_opcode ([] ++ [c] ++ []) (len (@nil byte)) = Ok (opcode, data, len (@nil byte) + 1) ∧
    data ≠ Some [x05].
Proof.
  apply (bin_script_small_integer_read_back x05 [] []). vm_compute. discriminate.
Defined.

(** ** tools.py: the assembler *)

(** What [compile] writes for one token does not depend on what the
    stream holds already. *)
Lemma compile_token_stream (t : string) (f : bytes) :
  compile_token t f = compile_token t [] ≫= λ r, Ok (f ++ r).
Proof.
  unfold compile_token. cbv zeta.
  destruct (OPCODE_TO_INT !! t) as [v|].
  { destruct (bytes_from_int v); done. }
  destruct (OPCODE_TO_INT !! ("OP_" +:+ t)) as [v|].
  { destruct (bytes_from_int v); done. }
  destruct (startswith "0x" t).
  { destruct (unhexlify _); done. }
  match goal with |- mbind _ ?m = _ => destruct m as [v|]; [|done] end.
  cbn [mbind result_bind]. apply write_push_data_stream.
Qed.

Lemma compile_loop_stream (tokens : list string) (f : bytes) :
  compile_loop tokens f = compile_loop tokens [] ≫= λ r, Ok (f ++ r).
Proof.
  revert f. induction tokens as [|t rest IH]; intros f.
  - cbn. rewrite app_nil_r. done.
  - cbn [compile_loop]. rewrite (compile_token_stream t f).
    destruct (compile_token t []) as [r|]; [|done].
    cbn [mbind result_bind]. rewrite (IH (f ++ r)), (IH r).
    destruct (compile_loop rest []) as [r'|]; [|done].
    cbn [mbind result_bind]. rewrite app_assoc. done.
Qed.

Lemma compile_loop_app (l1 l2 : list string) (f : bytes) :
  compile_loop (l1 ++ l2) f = compile_loop l1 f ≫= compile_loop l2.
Proof.
  revert f. induction l1 as [|t rest IH]; intros f; [done|].
  cbn [app compile_loop].
  destruct (compile_token t f) as [f'|]; [|done].
  cbn [mbind result_bind]. apply IH.
Qed.

Lemma split_loop_space (a b cur : string) (c : ascii) :
  is_space c = true →
  split_loop (a +:+ String c b) cur = split_loop a cur ++ split b.
Proof.
  intros Hc. revert cur. induction a as [|x a IH]; intros cur.
  - rewrite append_nil_l. cbn [split_loop]. rewrite Hc.
    case_bool_decide; done.
  - rewrite append_cons. cbn [split_loop].
    destruct (is_space x).
    + case_bool_decide; rewrite IH; done.
    + apply IH.
Qed.

(** X8. A script text in two parts with white space between them
    compiles to the concatenation of what the two parts compile to, and
    fails when one of the two fails: [compile] reads token by token and
    no token looks at its neighbours. *)
Theorem compile_app (a b : string) (c : ascii) :
  is_space c = true →
  compile (a +:+ String c b) =
    compile a ≫= λ x, compile b ≫= λ y, Ok (x ++ y).
Proof.
  intros Hc. unfold compile, split. rewrite (split_loop_space a b _ c Hc).
  rewrite compile_loop_app.
  destruct (compile_loop (split_loop a EmptyString) []) as [x|]; [|done].
  cbn [mbind result_bind]. apply compile_loop_stream.
Qed.

Lemma compile_app_witness :
  compile ("OP_DUP" +:+ String " " "[abcd]") = Ok [x76; x02; xab; xcd].
Proof.
  rewrite (compile_app "OP_DUP" "[abcd]" " "); reflexivity.
Defined.

(** ** tools.py: the tokens of the assembler *)

(** A test that holds of every mnemonic of the table holds of every
    string the table knows. *)
Lemma opcode_names_checked (P : string → bool) (s : string) (v : Z) :
  forallb (λ e : string * Z, P e.1) OPCODE_LIST = true →
  OPCODE_TO_INT !! s = Some v → P s = true.
Proof.
  intros Hall Hs. apply elem_of_list_to_map_2 in Hs.
  rewrite forallb_forall in Hall. apply (Hall (s, v)). apply list_elem_of_In. done.
Qed.

Lemma is_hex_char_digit (n : N) : (n < 16)%N → is_hex_char (hex_digit n) = true.
Proof.
  intros Hn. assert (Hc : n ∈ (N.of_nat <$> seq 0 16)).
  { apply list_elem_of_fmap. exists (N.to_nat n). split; [lia|].
    apply list_elem_of_In, in_seq. lia. }
  simpl in Hc. repeat (apply elem_of_cons in Hc as [->|Hc]; [reflexivity|]).
  by apply elem_of_nil in Hc.
Qed.

Lemma is_hex_string_hexlify (d : bytes) : is_hex_string (hexlify d) = true.
Proof.
  induction d as [|b d IH]; [done|]. cbn [hexlify is_hex_string].
  destruct (byte_nibbles b) as [Hh Hl].
  rewrite !is_hex_char_digit by done. done.
Qed.

Lemma is_hex_char_not_special (c : ascii) :
  is_hex_char c = true → c ≠ "x"%char ∧ c ≠ "["%char ∧ c ≠ "'"%char.
Proof. intros H. repeat split; intros ->; vm_compute in H; discriminate. Qed.

Lemma opcode_lookup_hex (s : string) :
  is_hex_string s = true → OPCODE_TO_INT !! s = None.
Proof.
  intros Hs. destruct (OPCODE_TO_INT !! s) as [v|] eqn:E; [|done].
  apply (opcode_names_checked (λ n, negb (is_hex_string n))) in E;
    [|vm_compute; reflexivity].
  rewrite Hs in E. discriminate.
Qed.

(** The mnemonics that are "OP_" followed by lower-case hexadecimal
    digits only are those of the numbers 0 to 16. *)
Lemma opcode_lookup_OP_hex (s : string) :
  is_hex_string s = true →
  OPCODE_TO_INT !! ("OP_" +:+ s) = None ∨
  s ∈ ["0"; "1"; "2"; "3"; "4"; "5"; "6"; "7"; "8"; "9";
       "10"; "11"; "12"; "13"; "14"; "15"; "16"]%string.
Proof.
  intros Hs. destruct (OPCODE_TO_INT !! ("OP_" +:+ s)) as [v|] eqn:E; [right|left; done].
  apply (opcode_names_checked (λ n,
           match n with
           | String "O" (String "P" (String "_" r)) =>
               negb (is_hex_string r) ||
               bool_decide (r ∈ ["0"; "1"; "2"; "3"; "4"; "5"; "6"; "7"; "8"; "9";
                                 "10"; "11"; "12"; "13"; "14"; "15"; "16"]%string)
           | _ => true
           end)) in E; [|vm_compute; reflexivity].
  rewrite !append_cons, append_nil_l in E. rewrite Hs in E.
  cbn [negb orb] in E. apply bool_decide_eq_true_1 in E. exact E.
Qed.

Lemma hexlify_small_name (d : bytes) :
  hexlify d ∈ ["0"; "1"; "2"; "3"; "4"; "5"; "6"; "7"; "8"; "9";
               "10"; "11"; "12"; "13"; "14"; "15"; "16"]%string →
  ∃ b, d = [b] ∧ 16 <= byte_to_int b <= 22.
Proof.
  intros Hin. pose proof (unhexlify_hexlify d) as Hd.
  repeat (apply elem_of_cons in Hin as [Hin|Hin];
    [ rewrite Hin in Hd; vm_compute in Hd;
      first [ discriminate Hd
            | injection Hd as <-; eexists; split; [reflexivity|]; vm_compute;
              split; discriminate ]
    | ]).
  by apply elem_of_nil in Hin.
Qed.

Lemma prefix_0x (c1 c2 : ascii) (r : string) :
  c2 ≠ "x"%char → startswith "0x" (String c1 (String c2 r)) = false.
Proof.
  intros Hc. unfold startswith. cbn [String.prefix].
  destruct (ascii_dec "0" c1); [|done].
  destruct (ascii_dec "x" c2); [congruence|done].
Qed.

(** A token of hexadecimal digits without brackets is a data push like
    the bracketed one, unless it is one of "10" .. "16", which are also
    the mnemonics OP_10 .. OP_16 without their prefix. *)
Lemma compile_token_hex (d f : bytes) :
  d ≠ [] → (∀ b, d = [b] → ¬ 16 <= byte_to_int b <= 22) →
  compile_token (hexlify d) f = write_push_data [d] f.
Proof.
  intros Hne Hhaz. unfold compile_token.
  pose proof (is_hex_string_hexlify d) as Hhex.
  pose proof (unhexlify_hexlify d) as Hun.
  rewrite (opcode_lookup_hex _ Hhex).
  destruct (opcode_lookup_OP_hex _ Hhex) as [->|Hin].
  2: { destruct (hexlify_small_name d Hin) as (b & -> & Hb). exfalso. by apply (Hhaz b). }
  destruct d as [|b d]; [done|].
  cbn [hexlify] in *.
  set (c1 := hex_digit (Byte.to_N b / 16)) in *.
  set (c2 := hex_digit (Byte.to_N b mod 16)) in *.
  cbn [is_hex_string] in Hhex.
  apply andb_true_iff in Hhex as (H1 & (H2 & _)%andb_true_iff).
  apply is_hex_char_not_special in H1 as (_ & Hb1 & Hq1).
  apply is_hex_char_not_special in H2 as (Hx2 & _ & _).
  rewrite (prefix_0x c1 c2 _ Hx2). cbv zeta. cbn [first_char].
  rewrite (bool_decide_eq_false_2 (Some c1 = Some "["%char ∧ _)) by (intros [[=] _]; done).
  rewrite (bool_decide_eq_false_2 (Some c1 = Some "'"%char ∧ _)) by (intros [[=] _]; done).
  rewrite Hun. done.
Qed.

Lemma compile_single_token (t : string) :
  token_ok t → compile t = compile_token t [].
Proof.
  intros Ht. unfold compile.
  replace (split t) with [t]
    by (symmetry; apply (split_join [t]); constructor; [done|constructor]).
  cbn [compile_loop]. destruct (compile_token t []); done.
Qed.

Lemma hexlify_token_ok (d : bytes) : d ≠ [] → token_ok (hexlify d).
Proof.
  intros Hne. split; [|apply hexlify_no_space].
  destruct d; [done|discriminate].
Qed.

(** X9. Data written as [b2h] writes them, without brackets, compile to
    the same push as [bin_script] makes, for all data but the empty
    string and the single bytes 0x10 .. 0x16. *)
Theorem compile_hex_token (d : bytes) :
  d ≠ [] → (∀ b, d = [b] → ¬ 16 <= byte_to_int b <= 22) →
  compile (b2h d) = bin_script [d].
Proof.
  intros Hne Hhaz. unfold b2h, bin_script.
  rewrite (compile_single_token _ (hexlify_token_ok d Hne)).
  apply compile_token_hex; done.
Qed.

Lemma compile_hex_token_witness :
  compile (b2h [xab; xcd]) = Ok [x02; xab; xcd].
Proof.
  rewrite (compile_hex_token [xab; xcd]); [reflexivity|discriminate|].
  intros b [=].
Defined.

(** X10. The single bytes 0x10 .. 0x16 written without brackets are read
    as the numbers 10 .. 16: [compile] writes the one opcode OP_10 ..
    OP_16, whose value is 74 more than the byte, and that is not what
    [bin_script] writes for the byte. *)
Theorem compile_hex_token_small (b : byte) :
  16 <= byte_to_int b <= 22 →
  ∃ c, compile (b2h [b]) = Ok [c] ∧ byte_to_int c = 74 + byte_to_int b ∧
       bin_script [[b]] ≠ Ok [c].
Proof.
  intros Hb.
  destruct b; try (exfalso; unfold byte_to_int in Hb; simpl in Hb; lia);
    eexists; (split; [vm_compute; reflexivity|split; [reflexivity|vm_compute; discriminate]]).
Qed.

Lemma compile_hex_token_small_witness :
  ∃ c, compile (b2h [x11]) = Ok [c] ∧ byte_to_int c = 74 + byte_to_int x11 ∧
       bin_script [[x11]] ≠ Ok [c].
Proof.
  apply compile_hex_token_small. unfold byte_to_int. simpl. lia.
Defined.

Lemma prefix_append (p s : string) : String.prefix p (p +:+ s) = true.
Proof.
  induction p as [|c p IH]; [destruct s; done|].
  rewrite append_cons. cbn [String.prefix].
  destruct (ascii_dec c c); [done|congruence].
Qed.

Lemma opcode_lookup_prefix (p s : string) :
  forallb (λ e : string * Z, negb (String.prefix p e.1)) OPCODE_LIST = true →
  OPCODE_TO_INT !! (p +:+ s) = None.
Proof.
  intros Hall. destruct (OPCODE_TO_INT !! (p +:+ s)) as [v|] eqn:E; [|done].
  apply (opcode_names_checked (λ n, negb (String.prefix p n)) _ _ Hall) in E.
  rewrite prefix_append in E. discriminate.
Qed.

Lemma substring_all (s : string) : String.substring 0 (String.length s) s = s.
Proof. induction s as [|c s IH]; [done|]. cbn. by rewrite IH. Qed.

(** X11. A token "0x" followed by hexadecimal digits is written into
    the script as the raw bytes it spells, with no push opcode before
    them. *)
Theorem compile_raw_hex (d : bytes) :
  compile ("0x" +:+ b2h d) = Ok d.
Proof.
  unfold b2h.
  rewrite compile_single_token.
  2: { split; [rewrite append_cons; discriminate|].
       rewrite has_space_append, hexlify_no_space. done. }
  unfold compile_token.
  rewrite (opcode_lookup_prefix "0x") by (vm_compute; reflexivity).
  rewrite <- append_assoc.
  rewrite (opcode_lookup_prefix ("OP_" +:+ "0x")) by (vm_compute; reflexivity).
  unfold startswith. rewrite prefix_append.
  rewrite !append_cons, append_nil_l.
  cbn [String.length String.substring Nat.sub].
  rewrite Nat.sub_0_r, substring_all, unhexlify_hexlify. done.
Qed.

(** X12. The prefix "OP_" of a mnemonic is optional: a name that the
    table knows with the prefix compiles to the same single byte, the
    value of the opcode, with the prefix and without it. *)
Theorem compile_mnemonic_prefix (name : string) (v : Z) :
  OPCODE_TO_INT !! ("OP_" +:+ name) = Some v →
  ∃ b, byte_to_int b = v ∧
       compile name = Ok [b] ∧ compile ("OP_" +:+ name) = Ok [b].
Proof.
  intros Hin. apply elem_of_list_to_map_2 in Hin.
  rewrite !append_cons, append_nil_l in Hin |- *. unfold OPCODE_LIST in Hin.
  repeat (apply elem_of_cons in Hin as [Hin|Hin];
    [ simplify_eq; eexists; split; [|split]; cycle 1;
      [vm_compute; reflexivity | vm_compute; reflexivity | reflexivity] | ]).
  by apply elem_of_nil in Hin.
Qed.

Lemma compile_mnemonic_prefix_witness :
  ∃ b, byte_to_int b = 118 ∧
       compile "DUP" = Ok [b] ∧ compile ("OP_" +:+ "DUP") = Ok [b].
Proof. apply compile_mnemonic_prefix. reflexivity. Defined.

(** X13. A byte above OP_PUSHDATA4 that the table gives no mnemonic is
    shown as "???" by [disassemble], and "???" is a token that [compile]
    rejects: the exception is the one of [unhexlify]. *)
Theorem disassemble_unknown_opcode (c : byte) :
  OP_PUSHDATA4 < byte_to_int c → INT_TO_OPCODE !! byte_to_int c = None →
  disassemble [c] = Ok "???"%string ∧
  (disassemble [c] ≫= compile) = Raise ValueError.
Proof.
  intros Hc Hnone.
  assert (H : disassemble [c] = Ok "???"%string).
  { unfold disassemble, opcode_list. cbn [length opcode_list_loop].
    change (0 <? len [c]) with true. cbv iota.
    pose proof (get_opcode_plain [] [] c Hc) as Hg.
    change (get_opcode [c] 0 = Ok (byte_to_int c, None, 1)) in Hg. rewrite Hg.
    cbn [mbind result_bind disassemble_for_opcode_data]. rewrite Hnone. done. }
  split; [done|]. rewrite H. vm_compute. reflexivity.
Qed.

Lemma disassemble_unknown_opcode_witness :
  disassemble [xff] = Ok "???"%string ∧
  (disassemble [xff] ≫= compile) = Raise ValueError.
Proof. apply disassemble_unknown_opcode; [vm_compute|]; reflexivity. Defined.

(** ** tools.py: [delete_subscript] *)

Lemma write_items_extends (items : list script_item) (p script : bytes) :
  Forall item_ok items → write_items items p = Ok script → ∃ tail, script = p ++ tail.
Proof.
  intros Hok Hw. destruct (write_items_round_trip items p script Hok Hw) as (tail & _ & -> & _).
  eauto.
Qed.

Lemma delete_subscript_loop_items (subscript : bytes) (items : list script_item) :
  Forall item_ok items →
  ∀ p script acc, write_items items p = Ok script →
    delete_subscript_loop (length script) script subscript (len p) acc
    = write_items (items_without subscript items) acc.
Proof.
  induction 1 as [|i rest Hi Hrest IH]; intros p script acc Hw.
  - injection Hw as <-. rewrite delete_subscript_loop_unfold by apply len_nonneg.
    destruct (Z.ltb_spec (len p) (len p)); [lia|done].
  - destruct (item_round_trip i Hi) as (enc & text & Hwi & _ & Hget & _).
    rewrite Hwi in Hw.
    destruct (write_items_extends rest (p ++ enc) script Hrest Hw) as (tail & Hs).
    rewrite <- app_assoc in Hs.
    destruct (Hget p tail) as (opcode & data & Hg & _). rewrite <- Hs in Hg.
    pose proof (get_opcode_advances _ _ _ _ _ (len_nonneg p) Hg) as Hadv.
    pose proof (get_opcode_Ok_inv _ _ _ _ _ (len_nonneg p) Hg) as (Hin & _).
    rewrite delete_subscript_loop_unfold by apply len_nonneg.
    destruct (Z.ltb_spec (len p) (len script)); [|lia].
    rewrite Hg. cbn [mbind result_bind].
    assert (Hsec : py_slice script (len p) (len p + len enc) = enc)
      by (rewrite Hs; apply py_slice_app_mid).
    rewrite Hsec. rewrite <- len_app.
    assert (Hbytes : item_bytes i = Ok enc).
    { unfold item_bytes. rewrite Hwi. done. }
    unfold items_without. rewrite filter_cons. fold (items_without subscript rest).
    destruct (decide (item_bytes i ≠ Ok subscript)) as [Hne|Heq].
    + rewrite bool_decide_eq_true_2 by (intros ->; by apply Hne).
      rewrite Hwi. apply IH. done.
    + rewrite bool_decide_eq_false_2.
      * apply IH. done.
      * intros Hne. apply Heq. rewrite Hbytes. congruence.
Qed.

(** X14. On a script written item by item, data pushes as
    [write_push_data] makes them and known opcodes, [delete_subscript]
    removes the items whose bytes are the subscript, every one of them
    and nothing else: the result is the script written from the items
    that remain. *)
Theorem delete_subscript_items (subscript : bytes) (items : list script_item)
    (script : bytes) :
  Forall item_ok items → write_items items [] = Ok script →
  delete_subscript script subscript = write_items (items_without subscript items) [].
Proof.
  intros Hok Hw. apply (delete_subscript_loop_items subscript items Hok [] script [] Hw).
Qed.

Lemma delete_subscript_items_witness :
  delete_subscript [x02; xab; xcd; x76; x02; xab; xcd; xac] [x02; xab; xcd]
  = Ok [x76; xac].
Proof.
  rewrite (delete_subscript_items [x02; xab; xcd]
             [PushData [xab; xcd]; Opcode 118; PushData [xab; xcd]; Opcode 172]).
  - reflexivity.
  - repeat constructor; vm_compute; first [reflexivity | eauto].
  - reflexivity.
Defined.

Lemma py_slice_drop {A} (s : list A) (a b : Z) :
  0 <= a → a <= b → py_slice s a b ++ drop (Z.to_nat b) s = drop (Z.to_nat a) s.
Proof.
  intros Ha Hb. unfold py_slice, len.
  destruct (Z.le_gt_cases (Z.of_nat (length s)) a) as [Hend|Hin].
  - rewrite !drop_ge by lia. rewrite take_nil. done.
  - rewrite (Z.min_l a) by lia.
    destruct (Z.le_gt_cases b (Z.of_nat (length s))) as [Hb'|Hb'].
    + rewrite Z.min_l by lia.
      replace (Z.to_nat b) with (Z.to_nat a + Z.to_nat (b - a))%nat by lia.
      rewrite <- drop_drop. apply take_drop.
    + rewrite Z.min_r by lia. rewrite (drop_ge s (Z.to_nat b)) by lia.
      rewrite app_nil_r. apply take_ge. rewrite length_drop. lia.
Qed.

Lemma delete_subscript_loop_bounds (fuel : nat) (script subscript : bytes) (pc : Z)
    (acc r : bytes) :
  0 <= pc →
  delete_subscript_loop fuel script subscript pc acc = Ok r →
  ∃ kept, r = acc ++ kept ∧ len kept <= len (drop (Z.to_nat pc) script) ∧
    (subscript = [] ∨ len script < len subscript →
     len script - pc <= Z.of_nat fuel → kept = drop (Z.to_nat pc) script).
Proof.
  revert pc acc. induction fuel as [|fuel IH]; intros pc acc Hpc H.
  - injection H as <-. exists []. rewrite app_nil_r. split; [done|].
    split; [apply len_nonneg|]. intros _ Hf. rewrite drop_ge; [done|].
    unfold len in Hf. lia.
  - cbn [delete_subscript_loop] in H.
    destruct (Z.ltb_spec pc (len script)) as [Hlt|Hge].
    2: { injection H as <-. exists []. rewrite app_nil_r. split; [done|].
         split; [apply len_nonneg|]. intros _ _. rewrite drop_ge; [done|].
         unfold len in Hge. lia. }
    destruct (get_opcode script pc) as [[[opcode data] pc']|] eqn:E; [|discriminate].
    cbn [mbind result_bind] in H.
    pose proof (get_opcode_advances _ _ _ _ _ Hpc E) as Hadv.
    apply IH in H as (kept & -> & Hlen & Hall); [|lia].
    pose proof (py_slice_drop script pc pc' Hpc (Z.lt_le_incl _ _ Hadv)) as Hsplit.
    assert (Hsec : 0 < len (py_slice script pc pc') <= len script).
    { rewrite py_slice_len by done. lia. }
    assert (Hdrop : len (drop (Z.to_nat pc) script)
                    = len (py_slice script pc pc') + len (drop (Z.to_nat pc') script)).
    { rewrite <- Hsplit, len_app. done. }
    case_bool_decide as Hne.
    + exists (py_slice script pc pc' ++ kept). rewrite <- app_assoc. split; [done|].
      split; [rewrite len_app; lia|].
      intros Hsub Hf. rewrite Hall by (first [done | lia]). done.
    + exists kept. split; [done|]. split; [lia|].
      intros Hsub Hf. exfalso. rewrite Hne in Hsec.
      destruct Hsub as [->|Hlong]; [unfold len in Hsec; simpl in Hsec; lia | lia].
Qed.

(** X15. [delete_subscript] never makes a script longer, and it returns
    the script as it is when the subscript is empty or longer than the
    script: no section between two opcode boundaries can be equal to
    such a subscript. *)
Theorem delete_subscript_bounds (script subscript r : bytes) :
  delete_subscript script subscript = Ok r →
  len r <= len script ∧
  (subscript = [] ∨ len script < len subscript → r = script).
Proof.
  intros H. unfold delete_subscript in H.
  apply delete_subscript_loop_bounds in H as (kept & -> & Hlen & Hall); [|done].
  cbn [app drop Z.to_nat] in *. split; [done|].
  intros Hsub. apply Hall; [done|]. unfold len. lia.
Qed.

Lemma delete_subscript_bounds_witness :
  delete_subscript [x76; x02; xab; xcd; xac] [] = Ok [x76; x02; xab; xcd; xac] ∧
  len [x76; x02; xab; xcd; xac] <= len [x76; x02; xab; xcd; xac].
Proof.
  assert (H : delete_subscript [x76; x02; xab; xcd; xac] [] = Ok [x76; x02; xab; xcd; xac])
    by reflexivity.
  split; [exact H|]. exact (proj1 (delete_subscript_bounds _ _ _ H)).
Defined.

(** ** check_signature.py: the checks on one blob *)

Lemma py_index_last (body : bytes) (b : byte) :
  py_index (body ++ [b]) (len (body ++ [b]) - 1) = Ok (byte_to_int b).
Proof.
  rewrite len_app. pose proof (len_nonneg body). change (len [b]) with 1.
  rewrite py_index_app_r by lia.
  replace (len body + 1 - 1 - len body) with 0 by lia.
  done.
Qed.

Lemma defined_hashtype_byte (b : byte) :
  (Z.land (byte_to_int b) (Z.lnot SIGHASH_ANYONECANPAY) <? SIGHASH_ALL)
  || (Z.land (byte_to_int b) (Z.lnot SIGHASH_ANYONECANPAY) >? SIGHASH_SINGLE) = false
  ↔ bool_decide (byte_to_int b ∈ [1; 2; 3; 0x81; 0x82; 0x83]) = true.
Proof. destruct b; vm_compute; split; congruence. Qed.

(** X16. [check_defined_hashtype_signature] accepts a blob exactly when
    its last byte is one of 1, 2, 3 (ALL, NONE, SINGLE) or one of these
    with the ANYONECANPAY bit, 0x81, 0x82, 0x83; the bytes before the
    last play no part. *)
Theorem check_defined_hashtype_signature_iff (sig : bytes) :
  check_defined_hashtype_signature sig = Ok tt ↔
  ∃ b, last sig = Some b ∧ byte_to_int b ∈ [1; 2; 3; 0x81; 0x82; 0x83].
Proof.
  unfold check_defined_hashtype_signature.
  destruct sig as [|b body _] using rev_ind.
  - change (len [] =? 0) with true. cbv iota. split; [discriminate|].
    intros (b & [=] & _).
  - pose proof (len_nonneg body).
    destruct (Z.eqb_spec (len (body ++ [b])) 0) as [H0|_].
    { rewrite len_app in H0. change (len [b]) with 1 in H0. lia. }
    rewrite py_index_last. cbn [mbind result_bind].
    rewrite raise_if_Ok, defined_hashtype_byte, bool_decide_eq_true, last_snoc.
    split.
    + intros Hb. eauto.
    + intros (b' & [= <-] & Hb). done.
Qed.

(** X17. [check_public_key_encoding] accepts a blob exactly when it is
    65 bytes that start with 0x04, or 33 bytes that start with 0x02 or
    0x03; the hybrid prefixes 0x06 and 0x07 are not accepted. *)
Theorem check_public_key_encoding_iff (blob : bytes) :
  check_public_key_encoding blob = Ok tt ↔
  ∃ b rest, blob = b :: rest ∧
    ((byte_to_int b = 4 ∧ len blob = 65) ∨
     ((byte_to_int b = 2 ∨ byte_to_int b = 3) ∧ len blob = 33)).
Proof.
  unfold check_public_key_encoding. destruct blob as [|b rest].
  - change (len [] >=? 33) with false. cbv iota. split; [discriminate|].
    intros (b & rest & [=] & _).
  - rewrite py_index_cons_0. set (l := len (b :: rest)).
    rewrite Z.geb_leb. cbn [mbind result_bind].
    destruct (Z.leb_spec 33 l); destruct (Z.eqb_spec (byte_to_int b) 4);
      destruct (Z.eqb_spec (byte_to_int b) 2); destruct (Z.eqb_spec (byte_to_int b) 3);
      destruct (Z.eqb_spec l 65); destruct (Z.eqb_spec l 33); cbn [orb];
      (split; [ first [ discriminate | intros _; exists b, rest; split; [done|]; lia ]
              | first [ done | intros (b' & rest' & [= <- <-] & Hc); exfalso; lia ] ]).
Qed.

Lemma land_mask_zero (flags mask bit : Z) :
  Z.land mask bit = bit → Z.land flags mask = 0 → Z.land flags bit = 0.
Proof.
  intros Hbit Hz. rewrite <- Hbit, Z.land_assoc, Hz. apply Z.land_0_l.
Qed.

(** X18. What a successful [parse_signature_blob] of a blob that is not
    empty has established: the blob is a DER part followed by one byte,
    the pair returned is what [sigdecode_der] makes of the DER part and
    the type returned is the last byte; with STRICTENC set the blob has
    passed the layout check and the hash-type check, with DERSIG set the
    layout check, with LOW_S set the layout check and the test that s is
    at most [_p - s]. *)
Theorem parse_signature_blob_result `{C : Collaborators} (sig_blob : bytes) (flags : Z)
    (sig_pair : Z * Z) (signature_type : Z) :
  sig_blob ≠ [] →
  parse_signature_blob sig_blob flags = Ok (sig_pair, signature_type) →
  ∃ der hash_type,
    sig_blob = der ++ [hash_type] ∧
    sigdecode_der der = Ok sig_pair ∧ signature_type = byte_to_int hash_type ∧
    (Z.land flags VERIFY_STRICTENC ≠ 0 →
       check_valid_signature sig_blob = Ok tt ∧
       check_defined_hashtype_signature sig_blob = Ok tt) ∧
    (Z.land flags VERIFY_DERSIG ≠ 0 → check_valid_signature sig_blob = Ok tt) ∧
    (Z.land flags VERIFY_LOW_S ≠ 0 →
       check_valid_signature sig_blob = Ok tt ∧ sig_pair.2 <= secp256k1_p - sig_pair.2).
Proof.
  intros Hne H. destruct sig_blob as [|hash_type der _] using rev_ind; [done|].
  clear Hne. exists der, hash_type. split; [done|].
  unfold parse_signature_blob in H. pose proof (len_nonneg der) as Hder.
  assert (Hlen : len (der ++ [hash_type]) = len der + 1).
  { rewrite len_app. done. }
  destruct (Z.eqb_spec (len (der ++ [hash_type])) 0) as [H0|_]; [lia|].
  bind_Ok H as u1 Hvalid. bind_Ok H as u2 Hhash.
  rewrite Hlen in H.
  replace (len der + 1 - 1) with (len der) in H by lia.
  pose proof (py_slice_app_mid [] der [hash_type]) as Hs1.
  change (py_slice (der ++ [hash_type]) 0 (len der) = der) in Hs1. rewrite Hs1 in H.
  bind_Ok H as pair Hdec.
  pose proof (ord_slice_app der [] hash_type) as Hs2.
  rewrite Hs2 in H. cbn [mbind result_bind] in H.
  bind_Ok H as u3 Hlow. injection H as -> ->.
  destruct u1, u2, u3.
  assert (Hmask : Z.lor (Z.lor VERIFY_DERSIG VERIFY_LOW_S) VERIFY_STRICTENC = 14) by done.
  rewrite Hmask in Hvalid.
  assert (Hany : ∀ bit, Z.land 14 bit = bit → Z.land flags bit ≠ 0 →
            check_valid_signature (der ++ [hash_type]) = Ok tt).
  { intros bit Hbit Hset. destruct (truthy (Z.land flags 14)) eqn:Ht; [done|].
    apply truthy_false in Ht. exfalso. apply Hset. by apply (land_mask_zero flags 14). }
  split; [done|]. split; [done|]. split; [|split].
  - intros Hset. split; [by apply (Hany VERIFY_STRICTENC)|].
    apply truthy_true in Hset. rewrite Hset in Hhash. done.
  - intros Hset. by apply (Hany VERIFY_DERSIG).
  - intros Hset. split; [by apply (Hany VERIFY_LOW_S)|].
    apply truthy_true in Hset. rewrite Hset in Hlow.
    unfold check_low_der_signature in Hlow. destruct sig_pair as [r s].
    apply raise_if_Ok in Hlow. apply Z.ltb_ge in Hlow. done.
Qed.

Lemma parse_signature_blob_result_witness :
  ∃ der hash_type,
    minimal_signature_blob = der ++ [hash_type] ∧
    @sigdecode_der mock_collaborators der = Ok (1, 48) ∧ 1 = byte_to_int hash_type.
Proof.
  destruct (parse_signature_blob_result (C:=mock_collaborators) minimal_signature_blob
              (Z.lor VERIFY_STRICTENC VERIFY_LOW_S) (1, 48) 1)
    as (der & hash_type & H1 & H2 & H3 & _).
  - discriminate.
  - vm_compute. reflexivity.
  - exists der, hash_type. done.
Defined.

(** ** check_signature.py: the two opcodes on the stack *)

Lemma op_checksig_unfold `{C : Collaborators} (stack : list bytes)
    (sig_blob pair_blob : bytes) (signature_for_hash_type_f : Z → bytes → Z)
    (expected_hash_type : option Z) (tmp_script : bytes) (flags : Z) :
  op_checksig (stack ++ [sig_blob; pair_blob]) signature_for_hash_type_f
    expected_hash_type tmp_script flags =
  match
    (if truthy (Z.land flags VERIFY_STRICTENC)
     then check_public_key_encoding pair_blob else Ok tt)
    ≫= λ _, parse_signature_blob sig_blob flags
    ≫= λ '(sig_pair, signature_type),
         sec_to_public_pair pair_blob (truthy (Z.land flags VERIFY_STRICTENC))
         ≫= λ public_pair, Ok (sig_pair, signature_type, public_pair)
  with
  | Raise e => if op_checksig_catches e then Ok (stack ++ [VCH_FALSE]) else Raise e
  | Ok (sig_pair, signature_type, public_pair) =>
      if bool_decide (expected_hash_type ≠ None ∧
                      expected_hash_type ≠ Some signature_type)
      then Raise (ScriptError "wrong hash type")
      else
        bin_script [sig_blob] ≫= λ sub,
        delete_subscript tmp_script sub ≫= λ tmp_script,
        if ecdsa_verify public_pair
             (signature_for_hash_type_f signature_type tmp_script) sig_pair
        then Ok (stack ++ [VCH_TRUE]) else Ok (stack ++ [VCH_FALSE])
  end.
Proof.
  unfold op_checksig.
  replace (stack ++ [sig_blob; pair_blob]) with ((stack ++ [sig_blob]) ++ [pair_blob])
    by (rewrite <- app_assoc; done).
  rewrite pop_snoc. cbn [mbind result_bind]. rewrite pop_snoc. done.
Qed.

(** X19. The effect of [op_checksig] on the stack.  With fewer than two
    elements the pop raises IndexError, which the [except] clause does
    not name.  When the opcode returns, it has taken the two elements on
    top, the signature blob under the key blob, and has put one element
    in their place, the true value or the false value; what lies below
    is untouched. *)
Theorem op_checksig_stack_effect `{C : Collaborators} (stack : list bytes)
    (signature_for_hash_type_f : Z → bytes → Z) (expected_hash_type : option Z)
    (tmp_script : bytes) (flags : Z) :
  ((length stack < 2)%nat →
     op_checksig stack signature_for_hash_type_f expected_hash_type tmp_script flags
     = Raise IndexError) ∧
  (∀ stack',
     op_checksig stack signature_for_hash_type_f expected_hash_type tmp_script flags
     = Ok stack' →
     ∃ rest sig_blob pair_blob,
       stack = rest ++ [sig_blob; pair_blob] ∧
       (stack' = rest ++ [VCH_TRUE] ∨ stack' = rest ++ [VCH_FALSE])).
Proof.
  split.
  - intros Hlen. destruct stack as [|a [|b r]]; [done|done|simpl in Hlen; lia].
  - intros stack' H.
    assert (Hshape : ∃ rest sig_blob pair_blob, stack = rest ++ [sig_blob; pair_blob]).
    { unfold op_checksig in H. bind_Ok H as [pb st1] Hp1. bind_Ok H as [sb st2] Hp2.
      apply pop_Ok_inv in Hp1 as ->. apply pop_Ok_inv in Hp2 as ->.
      exists st2, sb, pb. rewrite <- app_assoc. done. }
    destruct Hshape as (rest & sig_blob & pair_blob & ->).
    exists rest, sig_blob, pair_blob. split; [done|].
    rewrite op_checksig_unfold in H.
    match type of H with
    | match ?t with _ => _ end = _ => destruct t as [[[sp sty] pp]|e]
    end.
    + case_bool_decide; [discriminate|].
      bind_Ok H as sub Hsub. bind_Ok H as tmp' Hdel.
      destruct (ecdsa_verify _ _ _); injection H as <-; eauto.
    + destruct (op_checksig_catches e); [|discriminate]. injection H as <-. eauto.
Qed.

Lemma op_checksig_stack_effect_witness :
  op_checksig (C:=mock_collaborators) [[x01]] (fun _ _ => 0) None [] 0 = Raise IndexError.
Proof.
  apply (proj1 (op_checksig_stack_effect (C:=mock_collaborators) [[x01]] (fun _ _ => 0)
                  None [] 0)).
  simpl. lia.
Defined.

(** X20. [op_checksig] puts the true value on the stack exactly when
    the key blob is well encoded (asked under STRICTENC only), the
    signature blob parses, the key blob decodes, the hash type is the
    expected one if one is expected, and the signature verifies against
    the digest of the script from which the push of the signature blob
    has been deleted. *)
Theorem op_checksig_true_iff `{C : Collaborators} (stack : list bytes)
    (sig_blob pair_blob : bytes) (signature_for_hash_type_f : Z → bytes → Z)
    (expected_hash_type : option Z) (tmp_script : bytes) (flags : Z) :
  op_checksig (stack ++ [sig_blob; pair_blob]) signature_for_hash_type_f
    expected_hash_type tmp_script flags = Ok (stack ++ [VCH_TRUE])
  ↔
  (truthy (Z.land flags VERIFY_STRICTENC) = true →
     check_public_key_encoding pair_blob = Ok tt) ∧
  ∃ sig_pair signature_type public_pair sub script',
    parse_signature_blob sig_blob flags = Ok (sig_pair, signature_type) ∧
    sec_to_public_pair pair_blob (truthy (Z.land flags VERIFY_STRICTENC))
      = Ok public_pair ∧
    (expected_hash_type = None ∨ expected_hash_type = Some signature_type) ∧
    bin_script [sig_blob] = Ok sub ∧
    delete_subscript tmp_script sub = Ok script' ∧
    ecdsa_verify public_pair (signature_for_hash_type_f signature_type script') sig_pair
      = true.
Proof.
  rewrite op_checksig_unfold.
  assert (Hneq : stack ++ [VCH_FALSE] ≠ stack ++ [VCH_TRUE]).
  { intros H%app_inv_head. discriminate. }
  split.
  - intros H.
    destruct (if truthy (Z.land flags VERIFY_STRICTENC)
              then check_public_key_encoding pair_blob else Ok tt) as [[]|e] eqn:Hkey.
    2: { cbn [mbind result_bind] in H. destruct (op_checksig_catches e); congruence. }
    cbn [mbind result_bind] in H.
    destruct (parse_signature_blob sig_blob flags) as [[sp sty]|e] eqn:Hparse.
    2: { cbn [mbind result_bind] in H. destruct (op_checksig_catches e); congruence. }
    cbn [mbind result_bind] in H.
    destruct (sec_to_public_pair pair_blob _) as [pp|e] eqn:Hsec.
    2: { cbn [mbind result_bind] in H. destruct (op_checksig_catches e); congruence. }
    cbn [mbind result_bind] in H.
    case_bool_decide as Hty; [discriminate|].
    bind_Ok H as sub Hsub. bind_Ok H as tmp' Hdel.
    destruct (ecdsa_verify _ _ _) eqn:Hver; [|congruence].
    split.
    + intros Hs. rewrite Hs in Hkey. done.
    + exists sp, sty, pp, sub, tmp'. repeat split; try done.
      destruct expected_hash_type as [t|]; [|left; done].
      right. destruct (decide (t = sty)) as [->|Hne]; [done|].
      exfalso. apply Hty. split; congruence.
  - intros (Hkey & sp & sty & pp & sub & tmp' & Hparse & Hsec & Hty & Hsub & Hdel & Hver).
    assert ((if truthy (Z.land flags VERIFY_STRICTENC)
             then check_public_key_encoding pair_blob else Ok tt) = Ok tt) as ->.
    { destruct (truthy _); [by apply Hkey|done]. }
    cbn [mbind result_bind]. rewrite Hparse. cbn [mbind result_bind].
    rewrite Hsec. cbn [mbind result_bind].
    rewrite bool_decide_eq_false_2 by (intros [? ?]; destruct Hty; done).
    rewrite Hsub. cbn [mbind result_bind]. rewrite Hdel. cbn [mbind result_bind].
    rewrite Hver. done.
Qed.

Lemma op_checksig_true_iff_witness :
  op_checksig (C:=mock_collaborators) ([] ++ [minimal_signature_blob; [x02; x30]])
    (fun _ _ => 0) None [] 0 = Ok ([] ++ [VCH_TRUE]).
Proof.
  apply (op_checksig_true_iff (C:=mock_collaborators) [] minimal_signature_blob
           [x02; x30] (fun _ _ => 0) None [] 0).
  split; [vm_compute; discriminate|].
  exists (1, 48), 1, (48, 0), (x09 :: minimal_signature_blob), [].
  repeat split; try reflexivity. left. reflexivity.
Defined.

(** X21. A hash type other than the expected one is fatal: when the key
    blob and the signature blob are read without an exception and the
    caller expects a hash type that the blob does not carry,
    [op_checksig] raises ScriptError, whatever the signature is worth. *)
Theorem op_checksig_wrong_hash_type `{C : Collaborators} (stack : list bytes)
    (sig_blob pair_blob : bytes) (signature_for_hash_type_f : Z → bytes → Z)
    (expected signature_type : Z) (sig_pair public_pair : Z * Z)
    (tmp_script : bytes) (flags : Z) :
  (truthy (Z.land flags VERIFY_STRICTENC) = true →
     check_public_key_encoding pair_blob = Ok tt) →
  parse_signature_blob sig_blob flags = Ok (sig_pair, signature_type) →
  sec_to_public_pair pair_blob (truthy (Z.land flags VERIFY_STRICTENC)) = Ok public_pair →
  expected ≠ signature_type →
  op_checksig (stack ++ [sig_blob; pair_blob]) signature_for_hash_type_f
    (Some expected) tmp_script flags = Raise (ScriptError "wrong hash type").
Proof.
  intros Hkey Hparse Hsec Hne. rewrite op_checksig_unfold.
  assert ((if truthy (Z.land flags VERIFY_STRICTENC)
           then check_public_key_encoding pair_blob else Ok tt) = Ok tt) as ->.
  { destruct (truthy _); [by apply Hkey|done]. }
  cbn [mbind result_bind]. rewrite Hparse. cbn [mbind result_bind].
  rewrite Hsec. cbn [mbind result_bind].
  rewrite bool_decide_eq_true_2; [done|]. split; congruence.
Qed.

Lemma op_checksig_wrong_hash_type_witness :
  op_checksig (C:=mock_collaborators) ([] ++ [minimal_signature_blob; [x02; x30]])
    (fun _ _ => 0) (Some SIGHASH_NONE) [] 0 = Raise (ScriptError "wrong hash type").
Proof.
  apply (op_checksig_wrong_hash_type (C:=mock_collaborators) [] minimal_signature_blob
           [x02; x30] (fun _ _ => 0) SIGHASH_NONE 1 (1, 48) (48, 0) [] 0).
  - vm_compute. discriminate.
  - vm_compute. reflexivity.
  - vm_compute. reflexivity.
  - vm_compute. discriminate.
Defined.

Lemma pop_many_underflow (n : nat) (stack acc : list bytes) :
  (length stack < n)%nat → pop_many n stack acc = Raise IndexError.
Proof.
  revert stack acc. induction n as [|n IH]; intros stack acc Hlen; [lia|].
  cbn [pop_many]. destruct stack as [|x stack _] using rev_ind; [done|].
  rewrite pop_snoc. cbn [mbind result_bind]. apply IH.
  rewrite length_app in Hlen. simpl in Hlen. lia.
Qed.

(** X22. The fatal errors of [op_checkmultisig] on its operands: a key
    count outside 0 .. 20, more signatures announced than keys, and,
    under NULLDUMMY, a dummy element that is not empty, each end the
    evaluation with a ScriptError; a stack that holds fewer elements than
    the key count announces ends it with IndexError. *)
Theorem op_checkmultisig_fatal `{C : Collaborators} (rest : list bytes)
    (signature_for_hash_type_f : Z → bytes → Z) (expected_hash_type : option Z)
    (tmp_script : bytes) (flags : Z) :
  let run stack :=
    op_checkmultisig stack signature_for_hash_type_f expected_hash_type tmp_script flags in
  let decode b := int_from_script_bytes b (Z.land flags VERIFY_MINIMALDATA) in
  (∀ kc key_count, decode kc = Ok key_count → key_count < 0 ∨ 20 < key_count →
     run (rest ++ [kc]) = Raise (ScriptError "key_count not in range 0 to 20")) ∧
  (∀ kc key_count, decode kc = Ok key_count → 0 <= key_count <= 20 →
     len rest < key_count → run (rest ++ [kc]) = Raise IndexError) ∧
  (∀ public_pair_blobs kc sc signature_count,
     decode kc = Ok (len public_pair_blobs) → len public_pair_blobs <= 20 →
     decode sc = Ok signature_count → len public_pair_blobs < signature_count →
     run (rest ++ [sc] ++ reverse public_pair_blobs ++ [kc])
     = Raise (ScriptError ("too many signatures: " +:+ pretty signature_count
                             +:+ " > " +:+ pretty (len public_pair_blobs)))) ∧
  (∀ dummy sig_blobs sc public_pair_blobs kc,
     decode kc = Ok (len public_pair_blobs) → decode sc = Ok (len sig_blobs) →
     len sig_blobs <= len public_pair_blobs <= 20 →
     truthy (Z.land flags VERIFY_NULLDUMMY) = true → dummy ≠ [] →
     run (multisig_stack rest dummy sig_blobs sc public_pair_blobs kc)
     = Raise (ScriptError "bad dummy byte in checkmultisig")).
Proof.
  intros run decode. unfold run, decode. clear run decode.
  split; [|split; [|split]].
  - intros kc k Hkc Hk. unfold op_checkmultisig. rewrite pop_snoc.
    cbn [mbind result_bind]. rewrite Hkc. cbn [mbind result_bind].
    assert ((k <? 0) || (k >? 20) = true) as ->; [|done].
    apply orb_true_iff. rewrite Z.gtb_ltb, !Z.ltb_lt. lia.
  - intros kc k Hkc Hk Hshort. unfold op_checkmultisig. rewrite pop_snoc.
    cbn [mbind result_bind]. rewrite Hkc. cbn [mbind result_bind].
    assert ((k <? 0) || (k >? 20) = false) as ->.
    { apply orb_false_iff. rewrite Z.gtb_ltb, !Z.ltb_ge. lia. }
    rewrite pop_many_underflow; [done|]. unfold len in Hshort. lia.
  - intros pubs kc sc s Hkc Hmax Hsc Hs.
    pose proof (len_nonneg pubs).
    unfold op_checkmultisig. rewrite !app_assoc, pop_snoc.
    cbn [mbind result_bind]. rewrite Hkc. cbn [mbind result_bind].
    assert ((len pubs <? 0) || (len pubs >? 20) = false) as ->.
    { apply orb_false_iff. rewrite Z.gtb_ltb, !Z.ltb_ge. lia. }
    replace (Z.to_nat (len pubs)) with (length pubs) by (unfold len; lia).
    rewrite pop_many_reverse. cbn [mbind result_bind]. rewrite pop_snoc.
    cbn [mbind result_bind]. rewrite Hsc. cbn [mbind result_bind].
    assert ((s >? len pubs) = true) as ->; [|done].
    rewrite Z.gtb_ltb, Z.ltb_lt. lia.
  - intros dummy sigs sc pubs kc Hkc Hsc Hcnt Hflag Hdummy.
    pose proof (len_nonneg sigs). pose proof (len_nonneg pubs).
    unfold op_checkmultisig, multisig_stack.
    rewrite !app_assoc, pop_snoc. cbn [mbind result_bind].
    rewrite Hkc. cbn [mbind result_bind].
    assert ((len pubs <? 0) || (len pubs >? 20) = false) as ->.
    { apply orb_false_iff. rewrite Z.gtb_ltb, !Z.ltb_ge. lia. }
    replace (Z.to_nat (len pubs)) with (length pubs) by (unfold len; lia).
    rewrite pop_many_reverse. cbn [mbind result_bind]. rewrite pop_snoc.
    cbn [mbind result_bind]. rewrite Hsc. cbn [mbind result_bind].
    assert ((len sigs >? len pubs) = false) as ->.
    { rewrite Z.gtb_ltb, Z.ltb_ge. lia. }
    replace (Z.to_nat (len sigs)) with (length sigs) by (unfold len; lia).
    rewrite pop_many_reverse. cbn [mbind result_bind]. rewrite Hflag, pop_snoc.
    cbn [mbind result_bind]. rewrite bool_decide_eq_true_2 by done. done.
Qed.

Lemma op_checkmultisig_fatal_witness :
  op_checkmultisig (C:=mock_collaborators) ([] ++ [[x15]]) (fun _ _ => 0) None [] 0
  = Raise (ScriptError "key_count not in range 0 to 20").
Proof.
  destruct (op_checkmultisig_fatal (C:=mock_collaborators) [] (fun _ _ => 0) None [] 0)
    as (Hrange & _).
  apply (Hrange [x15] 21); [reflexivity|lia].
Defined.

(** ** check_signature.py: the matcher *)

Lemma sig_blob_matches_loop_range `{C : Collaborators} (public_pair_blobs : list bytes)
    (tmp_script : bytes) (signature_for_hash_type_f : Z → bytes → Z) (flags : Z)
    (sig_blobs : list bytes) (early : bool) (sig_cache : gmap Z Z)
    (indices l : list Z) :
  sig_blob_matches_loop sig_blobs public_pair_blobs tmp_script
    signature_for_hash_type_f flags early sig_cache indices = Ok l →
  Forall (λ i, i = -1 ∨ 0 <= i < len public_pair_blobs) indices →
  Forall (λ i, i = -1 ∨ 0 <= i < len public_pair_blobs) l.
Proof.
  revert sig_cache indices. induction sig_blobs as [|sb rest IH]; intros cache acc.
  - intros [= <-]. done.
  - cbn [sig_blob_matches_loop]. intros H Hacc.
    assert (Hsnoc : ∀ x, x = -1 ∨ 0 <= x < len public_pair_blobs →
              Forall (λ i, i = -1 ∨ 0 <= i < len public_pair_blobs) (acc ++ [x])).
    { intros x Hx. apply Forall_app. split; [done|]. by constructor. }
    destruct (parse_signature_blob sb flags) as [[sig_pair signature_type]|e].
    + match type of H with
      | match ?c !! _ with _ => _ end = _ => set (cache' := c) in H
      end.
      destruct (cache' !! signature_type) as [h|]; [|discriminate].
      assert (Hrun : ∀ ppp,
        (if len ppp >? 0 then
           scan_public_pair_blobs (truthy (Z.land flags VERIFY_STRICTENC)) ppp acc 0
             public_pair_blobs ≫= λ found,
           if bool_decide (found = None) && early then Ok (acc ++ [default (-1) found])
           else if (len (acc ++ [default (-1) found]) >? 1) && early
                   && last_le_previous (acc ++ [default (-1) found])
           then Ok (acc ++ [default (-1) found])
           else sig_blob_matches_loop rest public_pair_blobs tmp_script
                  signature_for_hash_type_f flags early cache'
                  (acc ++ [default (-1) found])
         else if early then Ok acc
         else sig_blob_matches_loop rest public_pair_blobs tmp_script
                signature_for_hash_type_f flags early cache' acc) = Ok l →
        Forall (λ i, i = -1 ∨ 0 <= i < len public_pair_blobs) l).
      { intros ppp Hl. destruct (len ppp >? 0).
        - destruct (scan_public_pair_blobs _ ppp acc 0 public_pair_blobs)
            as [found|] eqn:Hscan; [|discriminate].
          cbn [mbind result_bind] in Hl.
          assert (Hx : default (-1) found = -1 ∨
                       0 <= default (-1) found < len public_pair_blobs).
          { destruct found as [x|]; [|left; done]. right.
            pose proof (scan_public_pair_blobs_fresh tmp_script signature_for_hash_type_f flags
                          _ _ _ _ _ _ Hscan) as (_ & Hx).
            cbn. lia. }
          destruct (bool_decide (found = None) && early).
          { injection Hl as <-. by apply Hsnoc. }
          destruct ((len (acc ++ [default (-1) found]) >? 1) && early
                    && last_le_previous (acc ++ [default (-1) found])).
          { injection Hl as <-. by apply Hsnoc. }
          apply (IH _ _ Hl). by apply Hsnoc.
        - destruct early; [injection Hl as <-; done|]. by apply (IH _ _ Hl). }
      destruct (possible_public_pairs_for_signature h sig_pair) as [ppp|e];
        cbn [mbind result_bind] in H.
      * by apply (Hrun ppp).
      * destruct e; try discriminate. cbn [mbind result_bind] in H. by apply (Hrun []).
    + destruct e; try discriminate.
      destruct early.
      * injection H as <-. apply Hsnoc. by left.
      * apply (IH _ _ H). apply Hsnoc. by left.
Qed.

(** X23. Every entry of the list that [sig_blob_matches] returns is the
    sentinel -1 or the position of a public-key blob, and the list has no
    more entries than there are signature blobs. *)
Theorem sig_blob_matches_indices_range `{C : Collaborators}
    (sig_blobs public_pair_blobs : list bytes) (tmp_script : bytes)
    (signature_for_hash_type_f : Z → bytes → Z) (flags : Z) (exit_early : bool)
    (indices : list Z) :
  sig_blob_matches sig_blobs public_pair_blobs tmp_script signature_for_hash_type_f
    flags exit_early = Ok indices →
  Forall (λ i, i = -1 ∨ 0 <= i < len public_pair_blobs) indices ∧
  (length indices <= length sig_blobs)%nat.
Proof.
  unfold sig_blob_matches. intros H.
  destruct (drop_signatures sig_blobs tmp_script) as [tmp'|]; [|discriminate].
  cbn [mbind result_bind] in H. split.
  - by apply (sig_blob_matches_loop_range _ _ _ _ _ _ _ _ _ H).
  - apply sig_blob_matches_loop_extends in H as (new & -> & Hn). done.
Qed.

Lemma sig_blob_matches_indices_range_witness :
  Forall (λ i, i = -1 ∨ 0 <= i < len [[x02; x05]; [x02; x05]]) [0; 1; -1] ∧
  (length ([0; 1; -1]%Z) <= length [[x05; x01]; [x05; x01]; [x09; x01]])%nat.
Proof.
  apply (sig_blob_matches_indices_range (C:=mock_collaborators)
           [[x05; x01]; [x05; x01]; [x09; x01]] [[x02; x05]; [x02; x05]] []
           (fun _ _ => 0) 0 false [0; 1; -1]).
  vm_compute. reflexivity.
Defined.

(** ** pay_to/ScriptMultisig.py: the solver without an existing script *)

Lemma sign_loop_take `{SC : SolverCollaborators} (self_n : Z)
    (db : bytes → option key_entry) (sign_value signature_type : Z)
    (keys : list bytes) (acc : list bytes) :
  ScriptMultisig.sign_loop self_n db sign_value signature_type keys acc =
    acc ++ take (Z.to_nat (self_n - len acc))
             (omap (λ k, match db (hash160 k) with
                         | Some (secret_exponent, _, _) =>
                             Some (_create_script_signature secret_exponent sign_value
                                     signature_type)
                         | None => None
                         end) keys).
Proof.
  revert acc. induction keys as [|k rest IH]; intros acc.
  - cbn. rewrite take_nil, app_nil_r. done.
  - cbn [ScriptMultisig.sign_loop omap list_omap]. rewrite Z.geb_leb.
    destruct (Z.leb_spec self_n (len acc)) as [Hfull|Hroom].
    + replace (Z.to_nat (self_n - len acc)) with 0%nat by lia.
      rewrite take_0, app_nil_r. done.
    + destruct (db (hash160 k)) as [[[secret_exponent public_pair] compressed]|].
      * rewrite IH, len_app, <- app_assoc. change (len [_]) with 1. f_equal.
        replace (Z.to_nat (self_n - len acc))
          with (S (Z.to_nat (self_n - (len acc + 1)))) by lia.
        done.
      * apply IH.
Qed.

Lemma pad_loop_replicate (fuel : nat) (self_n : Z) (dummy : bytes) (acc : list bytes) :
  fuel = Z.to_nat (self_n - len acc) →
  ScriptMultisig.pad_loop fuel self_n dummy acc = acc ++ replicate fuel dummy.
Proof.
  revert acc. induction fuel as [|fuel IH]; intros acc Hfuel.
  - cbn. rewrite app_nil_r. done.
  - cbn [ScriptMultisig.pad_loop replicate].
    destruct (Z.ltb_spec (len acc) self_n); [|lia].
    rewrite IH.
    + rewrite <- app_assoc. done.
    + rewrite len_app. change (len [dummy]) with 1. lia.
Qed.

(** X24. [solve] without an existing script, for any descriptor and any
    key lookup: the signatures of the keys that the lookup knows are made
    in the order of the keys, the first [n] of them are kept, and
    placeholders fill what is missing to [n]; the solution is the script
    compiled from OP_0 and these [n] elements. *)
Theorem solve_slots `{SC : SolverCollaborators} (self : ScriptMultisig.t)
    (db : bytes → option key_entry) (sign_value signature_type : Z) :
  let signatures :=
    omap (λ k, match db (hash160 k) with
               | Some (secret_exponent, _, _) =>
                   Some (_create_script_signature secret_exponent sign_value
                           signature_type)
               | None => None
               end) (ScriptMultisig.sec_keys self) in
  let kept := take (Z.to_nat (ScriptMultisig.n self)) signatures in
  let slots dummy :=
    kept ++ replicate (Z.to_nat (ScriptMultisig.n self) - length kept) dummy in
  ScriptMultisig.solve self (Some db) None sign_value signature_type =
    (_dummy_signature signature_type ≫= λ dummy,
     compile ("OP_0 " +:+ join " " (map b2h (slots dummy)))) ∧
  ∀ dummy, length (slots dummy) = Z.to_nat (ScriptMultisig.n self).
Proof.
  intros signatures kept slots. split.
  - unfold ScriptMultisig.solve. cbn [mbind result_bind].
    destruct (_dummy_signature signature_type) as [dummy|]; [|done].
    cbn [mbind result_bind]. rewrite sign_loop_take. cbn [app].
    change (len []) with 0. rewrite Z.sub_0_r. fold signatures. fold kept.
    rewrite pad_loop_replicate by done.
    unfold slots.
    replace (Z.to_nat (ScriptMultisig.n self - len kept))
      with (Z.to_nat (ScriptMultisig.n self) - length kept)%nat by (unfold len; lia).
    done.
  - intros dummy. unfold slots. rewrite length_app, length_replicate.
    assert (length kept <= Z.to_nat (ScriptMultisig.n self))%nat
      by (unfold kept; rewrite length_take; lia).
    lia.
Qed.

(** ** TxOut.py: the standard output script *)

Lemma split_space (a b : string) : split (a +:+ String " " b) = split a ++ split b.
Proof. apply split_loop_space. done. Qed.

Lemma split_token (t : string) : token_ok t → split t = [t].
Proof.
  intros Ht. apply (split_join [t]). constructor; [done|constructor].
Qed.

Lemma push_encoding_spec_short (d : bytes) :
  2 <= len d <= 75 → push_encoding_spec d = to_bytes_little 1 (len d) ++ d.
Proof.
  intros Hd. destruct d as [|b [|b' d']]; [unfold len in Hd; simpl in Hd; lia..|].
  set (t := b :: b' :: d') in *.
  change (push_encoding_spec t) with
    (if len t <=? 75 then to_bytes_little 1 (len t) ++ t
     else if len t <=? 255 then x4c :: to_bytes_little 1 (len t) ++ t
     else if len t <=? 65535 then x4d :: to_bytes_little 2 (len t) ++ t
     else x4e :: to_bytes_little 4 (len t) ++ t).
  destruct (Z.leb_spec (len t) 75); [done|lia].
Qed.

(** Data of two bytes or more written without brackets. *)
Lemma compile_token_hex_long (d f : bytes) :
  2 <= len d < 2 ^ 32 → compile_token (hexlify d) f = Ok (f ++ push_encoding_spec d).
Proof.
  intros Hd. rewrite compile_token_hex.
  - rewrite write_push_data_single by lia.
    rewrite bool_decide_eq_false_2; [done|].
    intros ->. unfold len in Hd. simpl in Hd. lia.
  - intros ->. unfold len in Hd. simpl in Hd. lia.
  - intros b ->. unfold len in Hd. simpl in Hd. lia.
Qed.

(** One round of the loop of [opcode_list] on an opcode without data
    and on a literal push, and the end of the loop. *)
Lemma opcode_list_loop_plain (script p q : bytes) (c : byte) (acc : list string) :
  script = p ++ [c] ++ q → OP_PUSHDATA4 < byte_to_int c →
  opcode_list_loop (length script) script (len p) acc =
  opcode_list_loop (length script) script (len (p ++ [c]))
    (acc ++ [default "???"%string (INT_TO_OPCODE !! byte_to_int c)]).
Proof.
  intros Hs Hc. rewrite opcode_list_loop_unfold by apply len_nonneg.
  pose proof (get_opcode_plain p q c Hc) as Hg. rewrite <- Hs in Hg.
  pose proof (get_opcode_Ok_inv _ _ _ _ _ (len_nonneg p) Hg) as (Hin & _).
  destruct (Z.ltb_spec (len p) (len script)); [|lia].
  rewrite Hg. cbn [mbind result_bind disassemble_for_opcode_data].
  rewrite len_app. done.
Qed.

Lemma opcode_list_loop_literal (script p q d : bytes) (l : byte) (acc : list string) :
  script = p ++ (l :: d) ++ q → byte_to_int l = len d → 0 < len d < OP_PUSHDATA1 →
  opcode_list_loop (length script) script (len p) acc =
  opcode_list_loop (length script) script (len (p ++ l :: d))
    (acc ++ ["[" +:+ hexlify d +:+ "]"]%string).
Proof.
  intros Hs Hl Hd. rewrite opcode_list_loop_unfold by apply len_nonneg.
  pose proof (get_opcode_literal p q d l Hl (proj2 Hd)) as Hg. rewrite <- Hs in Hg.
  pose proof (get_opcode_Ok_inv _ _ _ _ _ (len_nonneg p) Hg) as (Hin & _).
  destruct (Z.ltb_spec (len p) (len script)); [|lia].
  rewrite Hg. cbn [mbind result_bind disassemble_for_opcode_data].
  rewrite Z.gtb_ltb. destruct (Z.ltb_spec 0 (len d)); [|lia].
  rewrite len_app, len_cons.
  replace (len p + 1 + len d) with (len p + (1 + len d)) by lia. done.
Qed.

Lemma opcode_list_loop_end (script : bytes) (acc : list string) :
  opcode_list_loop (length script) script (len script) acc = Ok acc.
Proof.
  rewrite opcode_list_loop_unfold by apply len_nonneg.
  destruct (Z.ltb_spec (len script) (len script)); [lia|done].
Qed.

(** X25. The standard output script of any address whose hash160 is 20
    bytes long: the bytes are 76 a9 14, the hash, 88 ac, and
    [disassemble] shows the hash between brackets. *)
Theorem standard_tx_out_script_bytes `{SC : SolverCollaborators}
    (bitcoin_address : string) (h prefix : bytes) :
  bitcoin_address_to_hash160_sec_with_prefix bitcoin_address = Ok (h, prefix) →
  len h = 20 →
  standard_tx_out_script bitcoin_address = Ok ([x76; xa9; x14] ++ h ++ [x88; xac]) ∧
  disassemble ([x76; xa9; x14] ++ h ++ [x88; xac])
    = Ok ("OP_DUP OP_HASH160 [" +:+ b2h h +:+ "] OP_EQUALVERIFY OP_CHECKSIG")%string.
Proof.
  intros Haddr Hlen. split.
  - unfold standard_tx_out_script. rewrite Haddr. cbn [mbind result_bind].
    unfold compile, b2h.
    change ("OP_DUP OP_HASH160 " +:+ hexlify h +:+ " OP_EQUALVERIFY OP_CHECKSIG")%string
      with ("OP_DUP" +:+ String " " ("OP_HASH160" +:+ String " "
              (hexlify h +:+ String " " "OP_EQUALVERIFY OP_CHECKSIG")))%string.
    rewrite !split_space.
    rewrite (split_token (hexlify h)).
    2: { apply hexlify_token_ok. intros ->. discriminate. }
    change (split "OP_DUP") with ["OP_DUP"%string].
    change (split "OP_HASH160") with ["OP_HASH160"%string].
    change (split "OP_EQUALVERIFY OP_CHECKSIG")
      with ["OP_EQUALVERIFY"; "OP_CHECKSIG"]%string.
    cbn [app compile_loop].
    change (compile_token "OP_DUP" []) with (Ok [x76] : result bytes).
    cbn [mbind result_bind].
    change (compile_token "OP_HASH160" [x76]) with (Ok [x76; xa9] : result bytes).
    cbn [mbind result_bind].
    rewrite compile_token_hex_long by lia. cbn [mbind result_bind].
    rewrite push_encoding_spec_short by lia. rewrite Hlen.
    change (to_bytes_little 1 20) with [x14].
    rewrite (compile_token_stream "OP_EQUALVERIFY").
    change (compile_token "OP_EQUALVERIFY" []) with (Ok [x88] : result bytes).
    cbn [mbind result_bind].
    rewrite (compile_token_stream "OP_CHECKSIG").
    change (compile_token "OP_CHECKSIG" []) with (Ok [xac] : result bytes).
    cbn [mbind result_bind]. rewrite <- !app_assoc. done.
  - unfold disassemble, opcode_list.
    set (script := [x76; xa9; x14] ++ h ++ [x88; xac]).
    rewrite (opcode_list_loop_plain script [] ([xa9; x14] ++ h ++ [x88; xac]) x76)
      by done.
    rewrite (opcode_list_loop_plain script [x76] ([x14] ++ h ++ [x88; xac]) xa9)
      by done.
    rewrite (opcode_list_loop_literal script [x76; xa9] [x88; xac] h x14);
      [|by unfold script; rewrite <- ?app_assoc|by rewrite Hlen|unfold OP_PUSHDATA1; lia].
    rewrite (opcode_list_loop_plain script ([x76; xa9] ++ x14 :: h) [xac] x88);
      [|by unfold script; rewrite <- ?app_assoc|done].
    rewrite (opcode_list_loop_plain script (([x76; xa9] ++ x14 :: h) ++ [x88]) [] xac);
      [|by unfold script; rewrite <- ?app_assoc|done].
    replace ((([x76; xa9] ++ x14 :: h) ++ [x88]) ++ [xac]) with script
      by (unfold script; rewrite <- ?app_assoc; done).
    rewrite opcode_list_loop_end. cbn [mbind result_bind app].
    change (default "???"%string (INT_TO_OPCODE !! byte_to_int x76)) with "OP_DUP"%string.
    change (default "???"%string (INT_TO_OPCODE !! byte_to_int xa9))
      with "OP_HASH160"%string.
    change (default "???"%string (INT_TO_OPCODE !! byte_to_int x88))
      with "OP_EQUALVERIFY"%string.
    change (default "???"%string (INT_TO_OPCODE !! byte_to_int xac))
      with "OP_CHECKSIG"%string.
    cbn [join]. unfold b2h. rewrite !append_assoc. done.
Qed.

Lemma standard_tx_out_script_bytes_witness :
  standard_tx_out_script (SC:=mock_solver_collaborators) "1BcJRKjiwYQ3f37FQSpTYM7AfnXurMjezu"
    = Ok ([x76; xa9; x14] ++ test_hash160 ++ [x88; xac]).
Proof.
  refine (proj1 (standard_tx_out_script_bytes (SC:=mock_solver_collaborators)
                   "1BcJRKjiwYQ3f37FQSpTYM7AfnXurMjezu" test_hash160 [x00] _ _));
    reflexivity.
Defined.

(** ** pay_to/ScriptMultisig.py: the script template *)

Lemma compile_token_small_number (n : Z) :
  1 <= n <= 16 →
  ∃ b, byte_to_int b = 80 + n ∧ token_ok (pretty n) ∧
       ∀ f, compile_token (pretty n) f = Ok (f ++ [b]).
Proof.
  intros Hn. assert (Hc : n ∈ (Z.of_nat <$> seq 1 16)).
  { apply list_elem_of_fmap. exists (Z.to_nat n). split; [lia|].
    apply list_elem_of_In, in_seq. lia. }
  simpl in Hc.
  repeat (apply elem_of_cons in Hc as [->|Hc];
    [ eexists; split; [|split]; cycle 2;
      [ intros f; vm_compute; reflexivity
      | reflexivity
      | split; [vm_compute; discriminate | vm_compute; reflexivity] ]
    | ]).
  by apply elem_of_nil in Hc.
Qed.

Lemma compile_loop_hex_keys (keys : list bytes) (f : bytes) :
  Forall (λ k, 2 <= len k < 2 ^ 32) keys →
  compile_loop (map b2h keys) f = Ok (f ++ concat (map push_encoding_spec keys)).
Proof.
  intros Hkeys. revert f. induction Hkeys as [|k rest Hk Hrest IH]; intros f.
  - cbn. rewrite app_nil_r. done.
  - cbn [map compile_loop concat]. unfold b2h at 1.
    rewrite compile_token_hex_long by done. cbn [mbind result_bind].
    rewrite IH, <- app_assoc. done.
Qed.

Lemma hex_keys_tokens (keys : list bytes) :
  Forall (λ k, 2 <= len k < 2 ^ 32) keys → Forall token_ok (map b2h keys).
Proof.
  intros Hkeys. apply Forall_map. eapply Forall_impl; [exact Hkeys|].
  intros k Hk. apply hexlify_token_ok. intros ->. unfold len in Hk. simpl in Hk. lia.
Qed.

Lemma script_template_bytes (self : ScriptMultisig.t) :
  1 <= ScriptMultisig.n self <= 16 →
  1 <= len (ScriptMultisig.sec_keys self) <= 16 →
  Forall (λ k, 2 <= len k < 2 ^ 32) (ScriptMultisig.sec_keys self) →
  ∃ bn bm,
    byte_to_int bn = 80 + ScriptMultisig.n self ∧
    byte_to_int bm = 80 + len (ScriptMultisig.sec_keys self) ∧
    ScriptMultisigTemplate.script self
    = Ok ([bn] ++ concat (map push_encoding_spec (ScriptMultisig.sec_keys self))
            ++ [bm; xae]).
Proof.
  destruct self as [n keys]. cbn [ScriptMultisig.n ScriptMultisig.sec_keys].
  intros Hn Hm Hkeys.
  destruct (compile_token_small_number n Hn) as (bn & Hbn & Htn & Hcn).
  destruct (compile_token_small_number (len keys) Hm) as (bm & Hbm & Htm & Hcm).
  exists bn, bm. split; [done|]. split; [done|].
  unfold ScriptMultisigTemplate.script. cbn [ScriptMultisig.n ScriptMultisig.sec_keys].
  assert (Hlen : len (map b2h keys) = len keys) by (unfold len; rewrite length_map; done).
  rewrite Hlen. unfold compile.
  change (pretty n +:+ " " +:+ join " " (map b2h keys) +:+ " " +:+ pretty (len keys)
            +:+ " OP_CHECKMULTISIG")%string
    with (pretty n +:+ (String " " EmptyString +:+ (join " " (map b2h keys)
            +:+ (String " " EmptyString +:+ (pretty (len keys)
            +:+ String " " "OP_CHECKMULTISIG")))))%string.
  rewrite !append_cons, !append_nil_l, !split_space.
  rewrite (split_token _ Htn), (split_token _ Htm), (split_join _ (hex_keys_tokens _ Hkeys)).
  change (split "OP_CHECKMULTISIG") with ["OP_CHECKMULTISIG"%string].
  rewrite compile_loop_app. cbn [compile_loop].
  rewrite Hcn. cbn [mbind result_bind].
  rewrite compile_loop_app, compile_loop_hex_keys by done.
  cbn [mbind result_bind app compile_loop].
  rewrite Hcm. cbn [mbind result_bind].
  rewrite (compile_token_stream "OP_CHECKMULTISIG").
  change (compile_token "OP_CHECKMULTISIG" []) with (Ok [xae] : result bytes).
  cbn [mbind result_bind]. rewrite <- !app_assoc. done.
Qed.

(** X26. The script of a descriptor with a threshold between 1 and 16
    and between 1 and 16 keys of two bytes or more: one byte 0x50 + n
    for the threshold, every key as the push that the minimal encoding
    rule gives it, in the order of the descriptor, one byte 0x50 + m for
    the number of keys, and the byte 0xae of OP_CHECKMULTISIG. *)
Theorem script_bytes (self : ScriptMultisig.t) :
  1 <= ScriptMultisig.n self <= 16 →
  1 <= len (ScriptMultisig.sec_keys self) <= 16 →
  Forall (λ k, 2 <= len k < 2 ^ 32) (ScriptMultisig.sec_keys self) →
  ∃ bn bm,
    byte_to_int bn = 80 + ScriptMultisig.n self ∧
    byte_to_int bm = 80 + len (ScriptMultisig.sec_keys self) ∧
    ScriptMultisigTemplate.script self
    = Ok ([bn] ++ concat (map push_encoding_spec (ScriptMultisig.sec_keys self))
            ++ [bm; xae]).
Proof. apply script_template_bytes. Qed.

Lemma script_bytes_witness :
  ∃ bn bm,
    byte_to_int bn = 80 + 2 ∧ byte_to_int bm = 80 + 3 ∧
    ScriptMultisigTemplate.script mock_multisig
    = Ok ([bn] ++ concat (map push_encoding_spec [[x02; x0b]; [x02; x0c]; [x02; x0d]])
            ++ [bm; xae]).
Proof.
  apply (script_bytes mock_multisig).
  - cbn. lia.
  - unfold len. cbn. lia.
  - repeat constructor; unfold len; cbn; lia.
Defined.

Lemma from_script_loop_keys (keys : list bytes) :
  Forall (λ k, 33 <= len k <= 120) keys →
  ∀ (script p q : bytes) (acc : list bytes),
    script = p ++ concat (map push_encoding_spec keys) ++ q →
    ScriptMultisigTemplate.from_script_loop (S (length script)) script (len p) acc =
    ScriptMultisigTemplate.from_script_loop (S (length script)) script
      (len (p ++ concat (map push_encoding_spec keys))) (acc ++ keys).
Proof.
  induction 1 as [|k rest Hk Hrest IH]; intros script p q acc Hs.
  - cbn [map concat]. rewrite !app_nil_r. done.
  - cbn [map concat] in Hs |- *.
    destruct (get_opcode_push_encoding k) as (opcode & _ & Hget).
    { change (2 ^ 32) with 4294967296. lia. }
    { intros b ->. unfold len in Hk. simpl in Hk. lia. }
    rewrite from_script_loop_unfold by apply len_nonneg.
    rewrite <- app_assoc in Hs.
    pose proof (Hget p (concat (map push_encoding_spec rest) ++ q)) as Hg.
    rewrite <- Hs in Hg. rewrite Hg. cbn [mbind result_bind].
    assert ((len k <? 33) || (len k >? 120) = false) as ->.
    { apply orb_false_iff. rewrite Z.gtb_ltb, !Z.ltb_ge. lia. }
    rewrite <- len_app.
    rewrite (IH script (p ++ push_encoding_spec k) q (acc ++ [k])).
    + rewrite <- !app_assoc. done.
    + rewrite Hs, <- !app_assoc. done.
Qed.

(** X27. [from_script] cannot read what [script] writes.  For a
    descriptor with up to 16 keys of 33 to 120 bytes, the template is
    written, and reading it back ends in TypeError at the token that
    holds the number of keys, which carries no data; with a threshold
    of 16 it ends before that, in the ValueError of the test
    [OP_1 <= opcode < OP_16]. *)
Theorem from_script_of_script (self : ScriptMultisig.t) :
  1 <= ScriptMultisig.n self <= 16 →
  1 <= len (ScriptMultisig.sec_keys self) <= 16 →
  Forall (λ k, 33 <= len k <= 120) (ScriptMultisig.sec_keys self) →
  ∃ script,
    ScriptMultisigTemplate.script self = Ok script ∧
    ScriptMultisigTemplate.from_script script
    = Raise (if ScriptMultisig.n self =? 16 then ValueError else TypeError).
Proof.
  intros Hn Hm Hkeys.
  destruct (script_template_bytes self Hn Hm) as (bn & bm & Hbn & Hbm & Hs).
  { eapply Forall_impl; [exact Hkeys|]. intros k Hk. cbn beta in Hk |- *.
    change (2 ^ 32) with 4294967296. lia. }
  eexists. split; [exact Hs|].
  set (K := concat (map push_encoding_spec (ScriptMultisig.sec_keys self))) in *.
  set (script := [bn] ++ K ++ [bm; xae]).
  unfold ScriptMultisigTemplate.from_script.
  assert (Hg0 : get_opcode script 0 = Ok (byte_to_int bn, None, 1)).
  { apply (get_opcode_plain [] (K ++ [bm; xae]) bn). unfold OP_PUSHDATA4. lia. }
  rewrite Hg0. cbn [mbind result_bind].
  rewrite Hbn. unfold OP_1, OP_16.
  destruct (Z.eqb_spec (ScriptMultisig.n self) 16) as [H16|H16].
  { rewrite H16. done. }
  destruct (Z.leb_spec 81 (80 + ScriptMultisig.n self)); [|lia].
  destruct (Z.ltb_spec (80 + ScriptMultisig.n self) 96); [|lia].
  cbn [andb negb].
  pose proof (from_script_loop_keys _ Hkeys script [bn] [bm; xae] [] eq_refl) as Hloop.
  fold K in Hloop. change (len [bn]) with 1 in Hloop. rewrite Hloop.
  rewrite from_script_loop_unfold by apply len_nonneg.
  assert (Hg1 : get_opcode script (len ([bn] ++ K))
                = Ok (byte_to_int bm, None, len ([bn] ++ K) + 1)).
  { replace script with (([bn] ++ K) ++ [bm] ++ [xae])
      by (unfold script; rewrite <- app_assoc; done).
    apply get_opcode_plain. unfold OP_PUSHDATA4. lia. }
  rewrite Hg1. done.
Qed.

Lemma from_script_of_script_witness :
  ∃ script,
    ScriptMultisigTemplate.script
      {| ScriptMultisig.n := 1; ScriptMultisig.sec_keys := [x02 :: replicate 32 x07] |}
    = Ok script ∧
    ScriptMultisigTemplate.from_script script = Raise TypeError.
Proof.
  apply (from_script_of_script
           {| ScriptMultisig.n := 1; ScriptMultisig.sec_keys := [x02 :: replicate 32 x07] |}).
  - cbn. lia.
  - unfold len. cbn. lia.
  - repeat constructor; unfold len; cbn; lia.
Defined.
